(** * RapidTools Validation API: the validation engine and the idempotency
      protocol, embedded from the TypeScript sources.

    Layout (one part per source file):
    - [Js]: the JavaScript built-ins the sources call (string methods,
      [parseInt], [Number.prototype.toString], [Date]);
    - validators/csv-ga4.ts: [decodeContent], [parseCSV], [isValidDate],
      [isNonNegativeInteger], [validateGA4CSV];
    - utils/stable-stringify.ts: [stableStringify];
    - middleware/idempotency.ts, in its two versions: [ListPrefix] and
      [FingerprintRecord];
    - index.ts: [performValidation] and the POST /api/validate route of [fetch].

    Modelling conventions.
    - A JavaScript string is a Rocq [string]; each character stands for one
      code unit below 256.
    - A JavaScript number that the sources use as a count or an index is a
      [nat], [N] or [Z]; [parseInt] and [toString] follow IEEE-754 doubles
      on the non-negative integers (rounding above 2^53 is written out).
    - [undefined] is [None].
    - Code that can throw returns a [Completion]. *)

From Stdlib Require Import ZArith NArith List Ascii String Decimal DecimalString
  DecimalN DecimalFacts Lia Bool Permutation.
From stdpp Require Import base option gmap strings list sorting.

Import ListNotations.
Set Warnings "-register-all".
Local Open Scope string_scope.
Local Open Scope list_scope.

(** ** Completions: a normal value or a thrown one *)

Inductive Completion (E A : Type) : Type :=
| Normal (a : A)
| Throw (e : E).
Arguments Normal {E A} a.
Arguments Throw {E A} e.

Definition cbind {E A B} (c : Completion E A) (k : A -> Completion E B)
  : Completion E B :=
  match c with
  | Normal a => k a
  | Throw e => Throw e
  end.

Notation "'let*' x ':=' c 'in' k" := (cbind c (fun x => k))
  (at level 10, x pattern, c at level 100, k at level 200).

(** The error objects of the JavaScript runtime that the sources can raise. *)
Inductive JsError : Type :=
| Error (message : string)
| RangeError (message : string)
| TypeError (message : string)
| InvalidCharacterError (message : string).

(** The quotation mark (code unit 34), and a text between two of them. *)
Definition quotation_mark : string := String "034" "".

Definition in_quotes (s : string) : string :=
  quotation_mark +:+ s +:+ quotation_mark.

(** ** The runtime functions that are not part of the repository's sources

    [sha256] is utils/crypto.ts (a hex digest computed by the Web Crypto API),
    [atob] the platform's base64 decoder ([None] when it throws), and
    [TextDecoder_decode] is [new TextDecoder().decode] applied to the bytes of
    a binary string (it never throws: [fatal] is off). *)

Class Platform : Type := {
  sha256 : string -> string;
  atob : string -> option string;
  TextDecoder_decode : string -> string;
}.

(** ** JavaScript built-ins *)

Module Js.

(** *** Strings *)

(** White space and line terminators among the code units below 256:
    TAB, LF, VT, FF, CR, SP and NBSP. *)
Definition is_white_space (c : ascii) : bool :=
  match N_of_ascii c with
  | 9 | 10 | 11 | 12 | 13 | 32 | 160 => true
  | _ => false
  end%N.

Fixpoint trimStart (s : string) : string :=
  match s with
  | "" => ""
  | String c s' => if is_white_space c then trimStart s' else s
  end.

Fixpoint trimEnd (s : string) : string :=
  match s with
  | "" => ""
  | String c s' =>
      match trimEnd s' with
      | "" => if is_white_space c then "" else String c ""
      | t => String c t
      end
  end.

(** [s.trim()] *)
Definition trim (s : string) : string := trimEnd (trimStart s).

(** [s.split(sep)] for a one-character separator. *)
Fixpoint split (sep : ascii) (s : string) : list string :=
  match s with
  | "" => [""]
  | String c s' =>
      if Ascii.eqb c sep then "" :: split sep s'
      else match split sep s' with
           | [] => [String c ""]
           | w :: ws => String c w :: ws
           end
  end.

(** [s.startsWith(p)] *)
Definition startsWith (s p : string) : bool := String.prefix p s.

(** [s.substring(n)] *)
Fixpoint substring_from (n : nat) (s : string) : string :=
  match n, s with
  | O, _ => s
  | S n', String _ s' => substring_from n' s'
  | S _, "" => ""
  end.

(** [xs.join(sep)] *)
Definition join (sep : string) (xs : list string) : string :=
  String.concat sep xs.

(** [xs.includes(x)] on an array of strings. *)
Definition includes (xs : list string) (x : string) : bool :=
  existsb (String.eqb x) xs.

(** [xs.indexOf(x)]: the first index, or -1. *)
Fixpoint indexOf_from (i : Z) (xs : list string) (x : string) : Z :=
  match xs with
  | [] => (-1)%Z
  | y :: ys => if String.eqb y x then i else indexOf_from (i + 1)%Z ys x
  end.
Definition indexOf (xs : list string) (x : string) : Z := indexOf_from 0 xs x.

(** [xs[i]]: [undefined] outside the array. *)
Definition get {A} (xs : list A) (i : Z) : option A :=
  if (i <? 0)%Z then None else nth_error xs (Z.to_nat i).

(** [String(v)] for a value that is a string or [undefined]. *)
Definition ToString (v : option string) : string :=
  match v with
  | Some s => s
  | None => "undefined"
  end.

(** [xs.sort()] on an array of strings: ascending code-unit order. *)
Definition sort (xs : list string) : list string := merge_sort String.le xs.

(** [s.toUpperCase()] on a string of ASCII characters (an HTTP method is
    one): the letters a..z are raised; the code units from 128 on, some of
    which JavaScript maps outside the code units below 256, are left as
    they are. *)
Definition upper (c : ascii) : ascii :=
  let n := N_of_ascii c in
  if ((97 <=? n) && (n <=? 122))%N then ascii_of_N (n - 32) else c.

Fixpoint toUpperCase (s : string) : string :=
  match s with
  | "" => ""
  | String c s' => String (upper c) (toUpperCase s')
  end.

(** *** Regular-expression character classes *)

(** [\d] *)
Definition is_digit (c : ascii) : bool :=
  let n := N_of_ascii c in ((48 <=? n) && (n <=? 57))%N.

Fixpoint all_digits (s : string) : bool :=
  match s with
  | "" => true
  | String c s' => is_digit c && all_digits s'
  end.

(** [/^\d+$/.test(s)] *)
Definition test_digits (s : string) : bool :=
  match s with
  | "" => false
  | _ => all_digits s
  end.

(** [/^\d{4}-\d{2}-\d{2}$/.test(s)] *)
Definition test_iso_date (s : string) : bool :=
  match s with
  | String y1 (String y2 (String y3 (String y4 (String h1
      (String mo1 (String mo2 (String h2 (String da1 (String da2 ""))))))))) =>
      is_digit y1 && is_digit y2 && is_digit y3 && is_digit y4
      && Ascii.eqb h1 "-"%char && is_digit mo1 && is_digit mo2
      && Ascii.eqb h2 "-"%char && is_digit da1 && is_digit da2
  | _ => false
  end.

(** *** Numbers *)

(** The decimal numeral of a natural number, as [Number.prototype.toString]
    prints an integer below 10^21. *)
Definition decimal (n : N) : string := NilZero.string_of_uint (N.to_uint n).

(** The number written by a string of decimal digits. *)
Definition digits_value (s : string) : N :=
  match NilEmpty.uint_of_string s with
  | Some d => N.of_uint d
  | None => 0%N
  end.

(** A non-negative integer-valued double, or +Infinity. *)
Inductive Double : Type :=
| Finite (n : N)
| Infinity.

(** The double nearest to the natural number [n], ties to even. *)
Definition round_to_double (n : N) : Double :=
  if (n <? 2 ^ 53)%N then Finite n
  else
    let e := (N.log2 n - 52)%N in
    let q := N.shiftr n e in
    let r := (n mod 2 ^ e)%N in
    let half := (2 ^ (e - 1))%N in
    let q' := if (half <? r)%N || ((r =? half)%N && N.odd q)
              then (q + 1)%N else q in
    let v := (q' * 2 ^ e)%N in
    if (v <? 2 ^ 1024)%N then Finite v else Infinity.

(** [parseInt(s, 10)] on a string of decimal digits. *)
Definition parseInt10 (s : string) : Double := round_to_double (digits_value s).

(** The shortest decimal [s * 10^j] that reads back as the double [x]:
    the largest [j], from [j] down, for which a multiple of [10^j] rounds to
    [x], and the multiple nearest to [x] (the even multiple on a tie).
    [Number_toString] starts above the number of digits of [x]. *)
Fixpoint shortest_decimal (x : N) (j : nat) : N * N :=
  match j with
  | O => (x, 0%N)
  | S j' =>
      let p := (10 ^ N.of_nat j)%N in
      let lo := (x / p * p)%N in
      let hi := (lo + p)%N in
      let ok v := match round_to_double v with
                  | Finite y => (y =? x)%N && (0 <? v)%N
                  | Infinity => false
                  end in
      let pick :=
        match ok lo, ok hi with
        | true, true =>
            if (x - lo <? hi - x)%N then Some lo
            else if (hi - x <? x - lo)%N then Some hi
            else if N.even (lo / p) then Some lo else Some hi
        | true, false => Some lo
        | false, true => Some hi
        | false, false => None
        end in
      match pick with
      | Some v => (v, N.of_nat j)
      | None => shortest_decimal x j'
      end
  end.

Definition string_tail (s : string) : string :=
  match s with
  | "" => ""
  | String _ t => t
  end.

Definition string_head (s : string) : string :=
  match s with
  | "" => ""
  | String c _ => String c ""
  end.

(** [x.toString()] for a non-negative integer-valued double. *)
Definition Number_toString (x : Double) : string :=
  match x with
  | Infinity => "Infinity"
  | Finite n =>
      if (n <? 2 ^ 53)%N then decimal n
      else
        let '(v, j) := shortest_decimal n (N.to_nat (N.log2 n / 3 + 1)) in
        if (v <? 10 ^ 21)%N then decimal v
        else
          let digits := decimal (v / 10 ^ j) in
          let exponent := decimal (N.of_nat (String.length (decimal v)) - 1) in
          match string_tail digits with
          | "" => digits +:+ "e+" +:+ exponent
          | rest => string_head digits +:+ "." +:+ rest +:+ "e+" +:+ exponent
          end
  end.

(** [String(n)] for an integer-valued number [n], given by an integer that
    it is nearest to. *)
Definition Z_toString (z : Z) : string :=
  let magnitude := Number_toString (round_to_double (Z.to_N (Z.abs z))) in
  if (z <? 0)%Z then "-" +:+ magnitude else magnitude.

(** *** Dates *)

(** Day number (days since 1970-01-01) of day [d] of month [m] (1..12) of
    year [y], in the proleptic Gregorian calendar. *)
Definition days_from_civil (y m d : Z) : Z :=
  let y' := if (m <=? 2)%Z then (y - 1)%Z else y in
  let era := (y' / 400)%Z in
  let yoe := (y' - era * 400)%Z in
  let mp := if (2 <? m)%Z then (m - 3)%Z else (m + 9)%Z in
  let doy := ((153 * mp + 2) / 5 + d - 1)%Z in
  let doe := (yoe * 365 + yoe / 4 - yoe / 100 + doy)%Z in
  (era * 146097 + doe - 719468)%Z.

(** Year, month (1..12) and day of month of a day number. *)
Definition civil_from_days (z : Z) : Z * Z * Z :=
  let z := (z + 719468)%Z in
  let era := (z / 146097)%Z in
  let doe := (z - era * 146097)%Z in
  let yoe := ((doe - doe / 1460 + doe / 36524 - doe / 146096) / 365)%Z in
  let doy := (doe - (365 * yoe + yoe / 4 - yoe / 100))%Z in
  let mp := ((5 * doy + 2) / 153)%Z in
  let d := (doy - (153 * mp + 2) / 5 + 1)%Z in
  let m := if (mp <? 10)%Z then (mp + 3)%Z else (mp - 9)%Z in
  let y := (yoe + era * 400)%Z in
  (if (m <=? 2)%Z then (y + 1)%Z else y, m, d).

Definition msPerDay : Z := 86400000.

(** [new Date(s)] for a string [s] of the shape YYYY-MM-DD, as V8 (the
    runtime of Cloudflare Workers) reads it. With a month 01..12 and a day
    01..31 the text is an ISO date: UTC midnight of that day, a day past the
    end of the month being carried into the following month. Otherwise V8
    hands the three numbers to its legacy parser, which takes a first number
    of 1..31 for a month followed by a day and a year: with a year field
    1..12 and a month field 1..31 the date is the day (the month field) of
    the month (the year field) of the year 2000 + DD (DD up to 49) or
    1900 + DD, at midnight of the local time zone, which is UTC in a Worker.
    Every other text gives an invalid date ([None], the time value NaN). *)
Definition Date_of_iso (s : string) : option Z :=
  let y := Z.of_N (digits_value (String.substring 0 4 s)) in
  let m := Z.of_N (digits_value (String.substring 5 2 s)) in
  let d := Z.of_N (digits_value (String.substring 8 2 s)) in
  if ((1 <=? m) && (m <=? 12) && (1 <=? d) && (d <=? 31))%Z
  then Some ((days_from_civil y m 1 + d - 1) * msPerDay)%Z
  else if ((1 <=? y) && (y <=? 12) && (1 <=? m) && (m <=? 31))%Z
  then
    let year := if (d <=? 49)%Z then (2000 + d)%Z else (1900 + d)%Z in
    Some ((days_from_civil year y 1 + m - 1) * msPerDay)%Z
  else None.

Definition pad (width : nat) (s : string) : string :=
  String.concat "" (repeat "0" (width - String.length s)) +:+ s.

(** [date.toISOString()] for a time value at UTC midnight in the years
    0..9999; it throws a RangeError on an invalid date. *)
Definition toISOString (tv : option Z) : Completion JsError string :=
  match tv with
  | None => Throw (RangeError "Invalid time value")
  | Some t =>
      let '(y, m, d) := civil_from_days (t / msPerDay) in
      Normal (pad 4 (Z_toString y) +:+ "-" +:+ pad 2 (Z_toString m) +:+ "-"
              +:+ pad 2 (Z_toString d) +:+ "T00:00:00.000Z")
  end.

End Js.

(** ** types.ts *)

Record GA4ValidationOptions : Type := {
  allowPageviewsMissing : option bool;
  requireSortedByDateAsc : option bool;
  allowDuplicateDates : option bool;
  maxRows : option Z;
}.

(** The options object [{}]. *)
Definition no_options : GA4ValidationOptions :=
  {| allowPageviewsMissing := None; requireSortedByDateAsc := None;
     allowDuplicateDates := None; maxRows := None |}.

Inductive Level : Type := error | warning.

Global Instance Level_eq_dec : EqDecision Level.
Proof. solve_decision. Defined.

(** The shapes of [pointer] that the validator builds. *)
Inductive Pointer : Type :=
| PointerMissing (missing : list string)
| PointerMaxRows (maxRows : Z) (actualRows : nat)
| PointerRow (row : nat)
| PointerRowValue (row : nat) (value : option string)
| PointerRowDate (row : nat) (date : string).

Record ValidationFinding : Type := {
  level : Level;
  code : string;
  message : string;
  pointer : option Pointer;
}.

Record Summary : Type := {
  valid : bool;
  issues : nat;
  warnings : nat;
  rows : nat;
}.

Record DateRange : Type := { range_start : string; range_end : string }.

Record Normalized : Type := {
  detectedHeaders : list string;
  dateRange : option DateRange;
}.

Record IdempotencyMark : Type := { key : string; replayed : bool }.

(** [ValidationSuccess]: the object with [ok: true]. *)
Record ValidationSuccess : Type := {
  summary : Summary;
  findings : list ValidationFinding;
  normalized : Normalized;
  idempotency : option IdempotencyMark;
}.

(** ** validators/csv-ga4.ts *)

Definition DEFAULT_MAX_ROWS : Z := 100000.

(** [options.flag] read as a condition: [undefined] is falsy. *)
Definition flag (o : option bool) : bool := default false o.

Definition decodeContent `{Platform} (content : string)
  : Completion JsError string :=
  if Js.startsWith content "base64:" then
    let base64Data := Js.substring_from 7 content in
    match atob base64Data with
    | None => Throw (InvalidCharacterError "The string to be decoded is not correctly encoded.")
    | Some binaryString => Normal (TextDecoder_decode binaryString)
    end
  else if Js.startsWith content "text:" then
    Normal (Js.substring_from 5 content)
  else
    Throw (Error ("Content must be prefixed with " +:+ in_quotes "base64:"
                  +:+ " or " +:+ in_quotes "text:")).

Definition parseCSV (csvText : string) : list (list string) :=
  let lines := Js.split "010"%char (Js.trim csvText) in
  map (fun line => map Js.trim (Js.split ","%char line)) lines.

(** [dateStr] is [row[dateIdx]], which is [undefined] when the row is shorter
    than the header; [regex.test] then tests the string "undefined". *)
Definition isValidDate (dateStr : option string) : Completion JsError bool :=
  let s := Js.ToString dateStr in
  if negb (Js.test_iso_date s) then Normal false
  else
    let date := Js.Date_of_iso s in
    let* iso := Js.toISOString date in
    Normal (Js.startsWith iso s).

Definition isNonNegativeInteger (value : option string) : bool :=
  let s := Js.ToString value in
  if negb (Js.test_digits s) then false
  else
    let num := Js.parseInt10 s in
    (* num >= 0 holds of every value parseInt reads from digits *)
    String.eqb (Js.Number_toString num) s.

Definition buildErrorResponse (findings : list ValidationFinding) (rowCount : nat)
  : ValidationSuccess :=
  let errorFindings := filter (fun f => level f = error) findings in
  let warningFindings := filter (fun f => level f = warning) findings in
  {| summary := {| valid := false;
                   issues := length errorFindings;
                   warnings := length warningFindings;
                   rows := rowCount |};
     findings := findings;
     normalized := {| detectedHeaders := []; dateRange := None |};
     idempotency := None |}.

(** The variables that the callback of [dataRows.forEach] updates. *)
Record RowState : Type := {
  st_findings : list ValidationFinding;
  st_dates : list string;
  st_seenDates : gset string;
}.

Definition push (f : ValidationFinding) (st : RowState) : RowState :=
  {| st_findings := st_findings st ++ [f];
     st_dates := st_dates st; st_seenDates := st_seenDates st |}.

Definition requiredHeaders : list string := ["date"; "sessions"; "users"].
Definition optionalHeaders : list string := ["pageviews"].

Definition row_number (rowIndex : nat) : string := Js.decimal (N.of_nat rowIndex).

Definition quoted (v : option string) : string := in_quotes (Js.ToString v).

Definition check_integer_field (name findingCode : string) (rowIndex : nat)
    (value : option string) (st : RowState) : RowState :=
  if negb (isNonNegativeInteger value) then
    push {| level := error; code := findingCode;
            message := "Row " +:+ row_number rowIndex +:+ ": " +:+ in_quotes name
                       +:+ " must be a non-negative integer, got "
                       +:+ quoted value;
            pointer := Some (PointerRowValue rowIndex value) |} st
  else st.

(** The body of the callback of [dataRows.forEach], for the row at [idx]. *)
Definition validateRow (options : GA4ValidationOptions)
    (dateIdx sessionsIdx usersIdx pageviewsIdx : Z)
    (st : RowState) (row : list string) (idx : nat)
  : Completion JsError RowState :=
  let rowIndex := (idx + 2)%nat in
  if (length row <? length requiredHeaders)%nat then
    Normal (push {| level := error; code := "INVALID_ROW_FORMAT";
                    message := "Row " +:+ row_number rowIndex
                               +:+ " has insufficient columns";
                    pointer := Some (PointerRow rowIndex) |} st)
  else
    let date := Js.get row dateIdx in
    let* dateOk := isValidDate date in
    let st :=
      if negb dateOk then
        push {| level := error; code := "INVALID_DATE_FORMAT";
                message := "Row " +:+ row_number rowIndex
                           +:+ ": Invalid date format " +:+ quoted date
                           +:+ ". Expected YYYY-MM-DD";
                pointer := Some (PointerRowValue rowIndex date) |} st
      else
        let d := Js.ToString date in
        let st := {| st_findings := st_findings st;
                     st_dates := st_dates st ++ [d];
                     st_seenDates := st_seenDates st |} in
        if bool_decide (d ∈ st_seenDates st) then
          if negb (flag (allowDuplicateDates options)) then
            push {| level := error; code := "DUPLICATE_DATE";
                    message := "Row " +:+ row_number rowIndex
                               +:+ ": Duplicate date " +:+ quoted date;
                    pointer := Some (PointerRowDate rowIndex d) |} st
          else st
        else
          {| st_findings := st_findings st; st_dates := st_dates st;
             st_seenDates := {[ d ]} ∪ st_seenDates st |} in
    let st := check_integer_field "sessions" "INVALID_SESSIONS_VALUE" rowIndex
                (Js.get row sessionsIdx) st in
    let st := check_integer_field "users" "INVALID_USERS_VALUE" rowIndex
                (Js.get row usersIdx) st in
    let pageviews := Js.get row pageviewsIdx in
    let st :=
      if (0 <=? pageviewsIdx)%Z && bool_decide (pageviews <> None)
         && bool_decide (pageviews <> Some "")
      then check_integer_field "pageviews" "INVALID_PAGEVIEWS_VALUE" rowIndex
             pageviews st
      else st in
    Normal st.

(** [dataRows.forEach(callback)]: the rows in order; a throw ends the loop. *)
Fixpoint forEach_rows (callback : RowState -> list string -> nat -> Completion JsError RowState)
    (st : RowState) (dataRows : list (list string)) (idx : nat)
  : Completion JsError RowState :=
  match dataRows with
  | [] => Normal st
  | row :: rest =>
      let* st' := callback st row idx in
      forEach_rows callback st' rest (S idx)
  end.

(** [dates.some((date, idx) => date !== sortedDates[idx])] *)
Fixpoint some_differs (dates sortedDates : list string) : bool :=
  match dates with
  | [] => false
  | date :: rest =>
      negb (bool_decide (Some date = head sortedDates))
      || some_differs rest (tail sortedDates)
  end.

(** The [try] around [decodeContent] catches whatever it throws; nothing in
    the function catches what the callback of the rows throws. *)
Definition validateGA4CSV `{Platform} (content : string)
    (options : GA4ValidationOptions) : Completion JsError ValidationSuccess :=
  let findings : list ValidationFinding := [] in
  let maxRows := default DEFAULT_MAX_ROWS (maxRows options) in
  match decodeContent content with
  | Throw _ =>
      let findings := findings ++
        [{| level := error; code := "INVALID_CONTENT_ENCODING";
            message := "Content must be prefixed with " +:+ in_quotes "base64:"
                       +:+ " or " +:+ in_quotes "text:";
            pointer := None |}] in
      Normal (buildErrorResponse findings 0)
  | Normal csvText =>
  let rows := parseCSV csvText in
  match rows with
  | [] =>
      let findings := findings ++
        [{| level := error; code := "EMPTY_CSV";
            message := "CSV file is empty"; pointer := None |}] in
      Normal (buildErrorResponse findings 0)
  | headers :: dataRows =>
  let missingHeaders :=
    filter (fun h => negb (Js.includes headers h) = true) requiredHeaders in
  if (0 <? length missingHeaders)%nat then
    let findings := findings ++
      [{| level := error; code := "MISSING_REQUIRED_HEADERS";
          message := "Missing required headers: " +:+ Js.join ", " missingHeaders;
          pointer := Some (PointerMissing missingHeaders) |}] in
    Normal (buildErrorResponse findings 0)
  else
  let hasPageviews := Js.includes headers "pageviews" in
  let findings :=
    if negb hasPageviews && negb (flag (allowPageviewsMissing options)) then
      findings ++
      [{| level := warning; code := "MISSING_OPTIONAL_HEADER";
          message := "Optional header " +:+ in_quotes "pageviews" +:+ " is missing";
          pointer := None |}]
    else findings in
  let dateIdx := Js.indexOf headers "date" in
  let sessionsIdx := Js.indexOf headers "sessions" in
  let usersIdx := Js.indexOf headers "users" in
  let pageviewsIdx := Js.indexOf headers "pageviews" in
  let rowCount := length dataRows in
  if (maxRows <? Z.of_nat rowCount)%Z then
    let findings := findings ++
      [{| level := error; code := "MAX_ROWS_EXCEEDED";
          message := "CSV has " +:+ Js.decimal (N.of_nat rowCount)
                     +:+ " rows, exceeding maximum of " +:+ Js.Z_toString maxRows;
          pointer := Some (PointerMaxRows maxRows rowCount) |}] in
    Normal (buildErrorResponse findings rowCount)
  else
  let* st :=
    forEach_rows (validateRow options dateIdx sessionsIdx usersIdx pageviewsIdx)
      {| st_findings := findings; st_dates := []; st_seenDates := ∅ |}
      dataRows 0 in
  let findings := st_findings st in
  let dates := st_dates st in
  let findings :=
    if flag (requireSortedByDateAsc options) && (0 <? length dates)%nat then
      let sortedDates := Js.sort dates in
      let isNotSorted := some_differs dates sortedDates in
      if isNotSorted then
        findings ++
        [{| level := error; code := "NOT_SORTED_BY_DATE";
            message := "Dates are not sorted in ascending order";
            pointer := None |}]
      else findings
    else findings in
  let errorFindings := filter (fun f => level f = error) findings in
  let warningFindings := filter (fun f => level f = warning) findings in
  let dateRange :=
    match dates with
    | [] => None
    | first :: _ =>
        Some {| range_start := first; range_end := List.last dates first |}
    end in
  Normal {| summary := {| valid := (length errorFindings =? 0)%nat;
                          issues := length errorFindings;
                          warnings := length warningFindings;
                          rows := rowCount |};
            findings := findings;
            normalized := {| detectedHeaders := headers; dateRange := dateRange |};
            idempotency := None |}
  end
  end.

(** ** JSON values, as [request.json()] delivers them

    The members of an object are listed in the order of [Object.keys], and
    their keys are distinct. A number is integer-valued, given by an integer
    that it is nearest to; numbers with a fraction are not modelled. *)

Inductive Json : Type :=
| JNull
| JBool (b : bool)
| JNumber (z : Z)
| JString (s : string)
| JArray (items : list Json)
| JObject (members : list (string * Json)).

(** [obj[key]] on the members of an object. *)
Fixpoint member {A} (key : string) (members : list (string * A)) : option A :=
  match members with
  | [] => None
  | (k, v) :: rest => if String.eqb k key then Some v else member key rest
  end.

(** A value used as a condition. *)
Definition truthy (v : Json) : bool :=
  match v with
  | JNull => false
  | JBool b => b
  | JNumber z => negb (z =? 0)%Z
  | JString s => negb (String.eqb s "")
  | JArray _ | JObject _ => true
  end.

Definition hex_digit (n : N) : ascii :=
  match n with
  | 0 => "0" | 1 => "1" | 2 => "2" | 3 => "3" | 4 => "4" | 5 => "5" | 6 => "6"
  | 7 => "7" | 8 => "8" | 9 => "9" | 10 => "a" | 11 => "b" | 12 => "c"
  | 13 => "d" | 14 => "e" | _ => "f"
  end%N%char.

(** One character inside a JSON string literal, as [JSON.stringify] writes it. *)
Definition JSON_escape (c : ascii) : string :=
  let n := N_of_ascii c in
  match n with
  | 34 => "\" +:+ quotation_mark
  | 92 => "\\"
  | 8 => "\b"
  | 12 => "\f"
  | 10 => "\n"
  | 13 => "\r"
  | 9 => "\t"
  | _ => if (n <? 32)%N
         then "\u00" +:+ String (hex_digit (n / 16)) (String (hex_digit (n mod 16)) "")
         else String c ""
  end%N.

Fixpoint JSON_escape_all (s : string) : string :=
  match s with
  | "" => ""
  | String c s' => JSON_escape c +:+ JSON_escape_all s'
  end.

(** [JSON.stringify(s)] for a string. *)
Definition JSON_stringify_string (s : string) : string :=
  in_quotes (JSON_escape_all s).

(** ** utils/stable-stringify.ts *)

(** [stableStringify] on a value that is not [undefined]. The source sorts
    [Object.keys(obj)] and reads [obj[key]] for each key in turn; here the
    members are rendered first and the rendering of [obj[key]] is looked up. *)
Fixpoint stableStringify_value (obj : Json) : string :=
  match obj with
  | JNull => "null"
  | JBool b => if b then "true" else "false"
  | JNumber z => Js.Z_toString z
  | JString s => JSON_stringify_string s
  | JArray items =>
      "[" +:+ Js.join "," (map stableStringify_value items) +:+ "]"
  | JObject members =>
      let rendered :=
        map (fun '(k, v) => (k, stableStringify_value v)) members in
      let keys := Js.sort (map fst members) in
      let pairs :=
        map (fun key =>
               let value := Js.ToString (member key rendered) in
               JSON_stringify_string key +:+ ":" +:+ value) keys in
      "{" +:+ Js.join "," pairs +:+ "}"
  end.

Definition stableStringify (obj : option Json) : string :=
  match obj with
  | None => "undefined"
  | Some v => stableStringify_value v
  end.

(** ** types.ts, continued *)

Record ValidationRequest : Type := {
  type : string;
  content : string;
  options : option Json;
  context : option Json;
}.

Record ErrorInfo : Type := { error_code : string; error_message : string }.

(** [ValidationError]: the object with [ok: false]. *)
Record ValidationError : Type := {
  error_info : ErrorInfo;
  error_findings : option (list ValidationFinding);
  error_idempotency : option IdempotencyMark;
}.

Inductive ValidationResponse : Type :=
| Success (r : ValidationSuccess)
| Failure (e : ValidationError).

Definition ok (response : ValidationResponse) : bool :=
  match response with
  | Success _ => true
  | Failure _ => false
  end.

(** [response.idempotency] *)
Definition response_idempotency (response : ValidationResponse)
  : option IdempotencyMark :=
  match response with
  | Success r => idempotency r
  | Failure e => error_idempotency e
  end.

(** [response.idempotency = mark] *)
Definition set_idempotency (response : ValidationResponse)
    (mark : option IdempotencyMark) : ValidationResponse :=
  match response with
  | Success r =>
      Success {| summary := summary r; findings := findings r;
                 normalized := normalized r; idempotency := mark |}
  | Failure e =>
      Failure {| error_info := error_info e;
                 error_findings := error_findings e;
                 error_idempotency := mark |}
  end.

(** The result payload of a response: everything but the idempotency mark. *)
Definition payload (response : ValidationResponse) : ValidationResponse :=
  set_idempotency response None.

Record IdempotencyMetadata : Type := {
  meta_key : string;
  meta_fingerprint : string;
  meta_response : ValidationResponse;
  meta_timestamp : Z;
}.

(** ** The Workers runtime: responses, the KV namespace, the clock *)

Inductive Body : Type :=
| BodyValidation (response : ValidationResponse)
| BodyError (code message : string) (request_id : option string).

Record Response : Type := {
  status : Z;
  body : Body;
  headers : list (string * string);
}.

(** A record of the KV namespace: [put(key, JSON.stringify(metadata), ..)]
    stores a [KvJson], [put(key, fingerprint, ..)] a [KvText]. The expiry is
    kept with the record and is not acted upon: time does not pass in the
    model. *)
Inductive KvValue : Type :=
| KvJson (metadata : IdempotencyMetadata)
| KvText (text : string).

Record KvEntry : Type := { kv_value : KvValue; expirationTtl : Z }.

Inductive Event : Type :=
| EngineInvoked (content : string) (options : option Json)
| KvGet (name : string)
| KvList (prefix : string)
| KvPut (name : string).

Record World : Type := {
  IDEMPOTENCY_KV : gmap string KvEntry;
  Date_now : Z;
  trace : list Event;
}.

(** What a [throw] can carry: an error object or, as [checkIdempotency]
    does, a [Response]. *)
Inductive Thrown : Type :=
| ThrownError (e : JsError)
| ThrownResponse (r : Response).

(** Computations over the world that return or throw. *)
Definition M (A : Type) : Type := World -> Completion Thrown A * World.

Definition ret {A} (a : A) : M A := fun w => (Normal a, w).

Definition throw {A} (e : Thrown) : M A := fun w => (Throw e, w).

Definition bind {A B} (m : M A) (k : A -> M B) : M B :=
  fun w =>
    match m w with
    | (Normal a, w') => k a w'
    | (Throw e, w') => (Throw e, w')
    end.

Notation "x <- m ;; k" := (bind m (fun x => k))
  (at level 100, m at next level, right associativity).
Notation "m ;;; k" := (bind m (fun _ => k))
  (at level 100, right associativity).

(** [try { m } catch (e) { h e }] *)
Definition catch {A} (m : M A) (h : Thrown -> M A) : M A :=
  fun w =>
    match m w with
    | (Normal a, w') => (Normal a, w')
    | (Throw e, w') => h e w'
    end.

Definition lift {A} (c : Completion JsError A) : M A :=
  match c with
  | Normal a => ret a
  | Throw e => throw (ThrownError e)
  end.

Definition log (ev : Event) : M unit :=
  fun w => (Normal tt,
            {| IDEMPOTENCY_KV := IDEMPOTENCY_KV w; Date_now := Date_now w;
               trace := trace w ++ [ev] |}).

Definition now : M Z := fun w => (Normal (Date_now w), w).

(** [env.IDEMPOTENCY_KV.get(name, 'json')]. The middleware reads as JSON only
    the names under which it stores JSON; reading a text record this way
    would run [JSON.parse] on a digest, which is modelled as its SyntaxError. *)
Definition kv_get_json (name : string) : M (option IdempotencyMetadata) :=
  log (KvGet name) ;;;
  fun w =>
    match IDEMPOTENCY_KV w !! name with
    | None => (Normal None, w)
    | Some {| kv_value := KvJson metadata |} => (Normal (Some metadata), w)
    | Some {| kv_value := KvText _ |} =>
        (Throw (ThrownError (Error "SyntaxError: Unexpected token")), w)
    end.

(** [env.IDEMPOTENCY_KV.get(name, 'text')]. Reading a JSON record as text
    would return its serialization, which the model does not build: it is
    modelled as a TypeError, and no path of the middleware reaches it on a
    store that the middleware wrote. *)
Definition kv_get_text (name : string) : M (option string) :=
  log (KvGet name) ;;;
  fun w =>
    match IDEMPOTENCY_KV w !! name with
    | None => (Normal None, w)
    | Some {| kv_value := KvText text |} => (Normal (Some text), w)
    | Some {| kv_value := KvJson _ |} =>
        (Throw (ThrownError (TypeError "JSON record read as text")), w)
    end.

(** [env.IDEMPOTENCY_KV.put(name, value, { expirationTtl })] *)
Definition kv_put (name : string) (value : KvValue) (ttl : Z) : M unit :=
  log (KvPut name) ;;;
  fun w =>
    (Normal tt,
     {| IDEMPOTENCY_KV :=
          <[ name := {| kv_value := value; expirationTtl := ttl |} ]>
            (IDEMPOTENCY_KV w);
        Date_now := Date_now w; trace := trace w |}).

(** [env.IDEMPOTENCY_KV.list({ prefix })]: the names that start with [prefix]. *)
Definition kv_list (prefix : string) : M (list string) :=
  log (KvList prefix) ;;;
  fun w =>
    (Normal (filter (fun name => String.prefix prefix name = true)
               (map fst (map_to_list (IDEMPOTENCY_KV w)))), w).

(** ** middleware/idempotency.ts *)

Definition IDEMPOTENCY_TTL_SECONDS : Z := 24 * 60 * 60.

(** [value || {}] *)
Definition or_empty_object (value : option Json) : Json :=
  match value with
  | Some v => if truthy v then v else JObject []
  | None => JObject []
  end.

(** Both versions of the middleware compute the fingerprint this way. *)
Definition computeFingerprint `{Platform} (request : ValidationRequest) : string :=
  let contentHash := sha256 (content request) in
  let optionsStr := stableStringify (Some (or_empty_object (options request))) in
  let contextStr := stableStringify (Some (or_empty_object (context request))) in
  let composite := type request +:+ contentHash +:+ optionsStr +:+ contextStr in
  sha256 composite.

(** [...(requestId && { request_id: requestId })] *)
Definition request_id_member (requestId : string) : option string :=
  if String.eqb requestId "" then None else Some requestId.

(** The response that [checkIdempotency] throws on a reused key. *)
Definition conflict_response (requestId : string) : Response :=
  {| status := 409;
     body := BodyError "IDEMPOTENCY_KEY_REUSE_MISMATCH"
               "Idempotency key was already used with different request parameters"
               (request_id_member requestId);
     headers := [("Content-Type", "application/json")] |}.

Definition replayed_mark (idempotencyKey : string) : option IdempotencyMark :=
  Some {| key := idempotencyKey; replayed := true |}.

(** The name of the response record. *)
Definition response_name (apiKeyHash idempotencyKey fingerprint : string) : string :=
  "idem:" +:+ apiKeyHash +:+ ":" +:+ idempotencyKey +:+ ":" +:+ fingerprint.

(** The version that looks for other records of the key by listing a prefix. *)
Module ListPrefix.

Definition checkIdempotency `{Platform}
    (idempotencyKey apiKey fingerprint requestId : string)
  : M (option ValidationResponse) :=
  let apiKeyHash := sha256 apiKey in
  let kvKey := response_name apiKeyHash idempotencyKey fingerprint in
  stored <- kv_get_json kvKey ;;
  match stored with
  | Some metadata =>
      let response := meta_response metadata in
      ret (Some (set_idempotency response (replayed_mark idempotencyKey)))
  | None =>
      keys <- kv_list ("idem:" +:+ apiKeyHash +:+ ":" +:+ idempotencyKey +:+ ":") ;;
      if (0 <? length keys)%nat
      then throw (ThrownResponse (conflict_response requestId))
      else ret None
  end.

Definition storeIdempotentResponse `{Platform}
    (idempotencyKey apiKey fingerprint : string) (response : ValidationResponse)
  : M unit :=
  let apiKeyHash := sha256 apiKey in
  let kvKey := response_name apiKeyHash idempotencyKey fingerprint in
  timestamp <- now ;;
  let metadata := {| meta_key := idempotencyKey;
                     meta_fingerprint := fingerprint;
                     meta_response := response;
                     meta_timestamp := timestamp |} in
  kv_put kvKey (KvJson metadata) IDEMPOTENCY_TTL_SECONDS.

End ListPrefix.

(** The version that keeps the fingerprint of a key in a record of its own. *)
Module FingerprintRecord.

Definition fingerprint_name (apiKeyHash idempotencyKey : string) : string :=
  "idem-fp:" +:+ apiKeyHash +:+ ":" +:+ idempotencyKey.

Definition checkIdempotency `{Platform}
    (idempotencyKey apiKey fingerprint requestId : string)
  : M (option ValidationResponse) :=
  let apiKeyHash := sha256 apiKey in
  let fingerprintKey := fingerprint_name apiKeyHash idempotencyKey in
  storedFingerprint <- kv_get_text fingerprintKey ;;
  match storedFingerprint with
  | None => ret None
  | Some storedFingerprint =>
      if String.eqb storedFingerprint "" then ret None
      else if negb (String.eqb storedFingerprint fingerprint)
      then throw (ThrownResponse (conflict_response requestId))
      else
        let kvKey := response_name apiKeyHash idempotencyKey fingerprint in
        stored <- kv_get_json kvKey ;;
        match stored with
        | Some metadata =>
            let response := meta_response metadata in
            ret (Some (set_idempotency response (replayed_mark idempotencyKey)))
        | None => ret None
        end
  end.

Definition storeIdempotentResponse `{Platform}
    (idempotencyKey apiKey fingerprint : string) (response : ValidationResponse)
  : M unit :=
  let apiKeyHash := sha256 apiKey in
  let kvKey := response_name apiKeyHash idempotencyKey fingerprint in
  timestamp <- now ;;
  let metadata := {| meta_key := idempotencyKey;
                     meta_fingerprint := fingerprint;
                     meta_response := response;
                     meta_timestamp := timestamp |} in
  kv_put kvKey (KvJson metadata) IDEMPOTENCY_TTL_SECONDS ;;;
  let fingerprintKey := fingerprint_name apiKeyHash idempotencyKey in
  kv_put fingerprintKey (KvText fingerprint) IDEMPOTENCY_TTL_SECONDS.

End FingerprintRecord.

(** What index.ts imports from './middleware/idempotency'. *)
Record Middleware : Type := {
  checkIdempotency : string -> string -> string -> string -> M (option ValidationResponse);
  storeIdempotentResponse : string -> string -> string -> ValidationResponse -> M unit;
}.

Definition list_prefix_middleware `{Platform} : Middleware :=
  {| checkIdempotency := ListPrefix.checkIdempotency;
     storeIdempotentResponse := ListPrefix.storeIdempotentResponse |}.

Definition fingerprint_record_middleware `{Platform} : Middleware :=
  {| checkIdempotency := FingerprintRecord.checkIdempotency;
     storeIdempotentResponse := FingerprintRecord.storeIdempotentResponse |}.

(** ** index.ts *)

(** [req.options] handed to [validateGA4CSV], whose parameter is declared
    [GA4ValidationOptions = {}]: [undefined] takes the default [{}]; reading a
    property of [null] throws; a flag is read as a condition; [maxRows] is read
    where it is a number, as declared, and [null] there takes the default. A
    [maxRows] of another kind (a string, say) would be compared after a
    coercion that the model does not follow: it is read as absent. *)
Definition ga4_options (options : option Json)
  : Completion JsError GA4ValidationOptions :=
  match options with
  | None => Normal no_options
  | Some JNull =>
      Throw (TypeError "Cannot read properties of null (reading 'maxRows')")
  | Some (JObject members) =>
      Normal {| allowPageviewsMissing := truthy <$> member "allowPageviewsMissing" members;
                requireSortedByDateAsc := truthy <$> member "requireSortedByDateAsc" members;
                allowDuplicateDates := truthy <$> member "allowDuplicateDates" members;
                maxRows := match member "maxRows" members with
                           | Some (JNumber z) => Some z
                           | _ => None
                           end |}
  | Some _ => Normal no_options
  end.

Definition performValidation `{Platform} (req : ValidationRequest)
  : Completion JsError ValidationResponse :=
  if String.eqb (type req) "csv.timeseries.ga4.v1" then
    let* options := ga4_options (options req) in
    let* result := validateGA4CSV (content req) options in
    if negb (valid (summary result)) then
      Normal (Failure {| error_info := {| error_code := "VALIDATION_FAILED";
                                          error_message := "CSV failed validation." |};
                         error_findings := Some (findings result);
                         error_idempotency := None |})
    else Normal (Success result)
  else
    Normal (Failure {| error_info :=
                         {| error_code := "UNSUPPORTED_TYPE";
                            error_message := "Validation type " +:+ in_quotes (type req)
                                             +:+ " is not supported" |};
                       error_findings := None;
                       error_idempotency := None |}).

(** A call of [performValidation] from [fetch]; the call is entered in the
    trace, which is how the model tells whether the engine ran. *)
Definition call_performValidation `{Platform} (req : ValidationRequest)
  : M ValidationResponse :=
  log (EngineInvoked (content req) (options req)) ;;;
  lift (performValidation req).

Definition jsonResponse (body : Body) (status : Z) : Response :=
  {| status := status;
     body := body;
     headers := [("Content-Type", "application/json; charset=utf-8");
                 ("Cache-Control", "no-store")] |}.

(** request-id.ts *)
Definition addTraceabilityHeaders (response : Response) (requestId : string)
  : Response :=
  {| status := status response;
     body := body response;
     headers := headers response ++
                [("X-Request-Id", requestId);
                 ("X-RateLimit-Limit", "120");
                 ("X-RateLimit-Policy", "advisory; enforced=false")] |}.

(** A header value used as a condition: absent and empty are falsy. *)
Definition present (header : option string) : bool :=
  match header with
  | Some s => negb (String.eqb s "")
  | None => false
  end.

Definition status_of (response : ValidationResponse) : Z :=
  if ok response then 200 else 422.

(** What reaches the POST /api/validate route once the request has passed
    [requireAuth] and its body has been parsed. *)
Record ValidateCall : Type := {
  call_body : ValidationRequest;
  Idempotency_Key : option string;
  x_api_key : option string;
  call_requestId : string;
}.

(** The POST /api/validate branch of [fetch], inside its [try]. *)
Definition validate_route `{Platform} (mw : Middleware) (call : ValidateCall)
  : M Response :=
  let body := call_body call in
  let requestId := call_requestId call in
  if String.eqb (type body) "" then
    ret (addTraceabilityHeaders
           (jsonResponse (BodyError "MISSING_TYPE" "Validation type is required"
                            (Some requestId)) 400) requestId)
  else if String.eqb (content body) "" then
    ret (addTraceabilityHeaders
           (jsonResponse (BodyError "MISSING_CONTENT" "Content is required"
                            (Some requestId)) 400) requestId)
  else
    let idempotencyKey := Idempotency_Key call in
    let apiKey := Js.trim <$> x_api_key call in
    if negb (present idempotencyKey) || negb (present apiKey) then
      result <- call_performValidation body ;;
      ret (addTraceabilityHeaders
             (jsonResponse (BodyValidation result) (status_of result)) requestId)
    else
      let idempotencyKey := default "" idempotencyKey in
      let apiKey := default "" apiKey in
      let fingerprint := computeFingerprint body in
      checked <-
        catch (existing <- checkIdempotency mw idempotencyKey apiKey
                             fingerprint requestId ;;
               ret (inl existing))
              (fun e => match e with
                        | ThrownResponse r => ret (inr r)
                        | _ => throw e
                        end) ;;
      match checked with
      | inr e => ret (addTraceabilityHeaders e requestId)
      | inl (Some existing) =>
          ret (addTraceabilityHeaders
                 (jsonResponse (BodyValidation existing) (status_of existing))
                 requestId)
      | inl None =>
          result <- call_performValidation body ;;
          let result :=
            set_idempotency result
              (Some {| key := idempotencyKey; replayed := false |}) in
          storeIdempotentResponse mw idempotencyKey apiKey fingerprint result ;;;
          ret (addTraceabilityHeaders
                 (jsonResponse (BodyValidation result) (status_of result))
                 requestId)
      end.

(** [fetch] for a POST /api/validate call: the route, and the handler of
    anything it throws. *)
Definition fetch `{Platform} (mw : Middleware) (call : ValidateCall) : M Response :=
  catch (validate_route mw call)
        (fun _ =>
           ret (addTraceabilityHeaders
                  (jsonResponse
                     (BodyError "INTERNAL_ERROR" "An internal error occurred"
                        (Some (call_requestId call))) 500)
                  (call_requestId call))).


(** ** The request, the environment and the rest of the Worker *)

(** [env], without the KV namespace (which is part of the world): the two
    variables are strings when they are configured. *)
Record Env : Type := {
  VALIDATION_API_KEYS : option string;
  SERVICE_VERSION : option string;
}.

(** What [fetch] reads of a request: the method, the path of its URL, its
    headers (keyed by the lowercased header name, as [Headers] keeps them) and
    what [request.json()] gives ([None] when it throws). A body that parses is
    read at the type that index.ts casts it to; a [type] or [content] that is
    absent is the empty string, which the route treats alike. *)
Record Request : Type := {
  method : string;
  pathname : string;
  request_headers : gmap string string;
  request_json : option ValidationRequest;
}.

Definition lower (c : ascii) : ascii :=
  let n := N_of_ascii c in
  if ((65 <=? n) && (n <=? 90))%N then ascii_of_N (n + 32) else c.

Fixpoint lowercase (s : string) : string :=
  match s with
  | "" => ""
  | String c s' => String (lower c) (lowercase s')
  end.

(** [request.headers.get(name)] *)
Definition headers_get (request : Request) (name : string) : option string :=
  request_headers request !! lowercase name.

(** *** request-id.ts *)

(** [getRequestId]; [randomUUID] is the value that [crypto.randomUUID()]
    returns when [generateRequestId] calls it. *)
Definition getRequestId (request : Request) (randomUUID : string) : string :=
  match headers_get request "x-request-id" with
  | Some clientRequestId =>
      if negb (String.eqb clientRequestId "")
         && (0 <? String.length clientRequestId)%nat
         && (String.length clientRequestId <? 256)%nat
      then clientRequestId
      else randomUUID
  | None => randomUUID
  end.

(** *** middleware/auth.ts *)

(** [json] of itty-router builds a response from a body and a status; the
    headers that the library sets are taken as given. *)
Class IttyRouter : Type := { json_headers : list (string * string) }.

Definition json `{IttyRouter} (body : Body) (status : Z) : Response :=
  {| status := status; body := body; headers := json_headers |}.

Definition parseApiKeys (raw : option string) : list string :=
  match raw with
  | None => []
  | Some raw =>
      if String.eqb raw "" then []
      else List.filter (fun s => negb (String.eqb s ""))
             (map Js.trim (Js.split ","%char raw))
  end.

(** [requireAuth] returns a response, or [undefined] ([None]) to continue. On
    that path it also sets the property [apiKey] of the request, which
    nothing in the sources reads. *)
Definition requireAuth `{IttyRouter} (request : Request) (env : Env)
    (requestId : string) : option Response :=
  let presented := Js.trim <$> headers_get request "x-api-key" in
  let allowedKeys := parseApiKeys (VALIDATION_API_KEYS env) in
  if (length allowedKeys =? 0)%nat then
    Some (json
            (BodyError "CONFIG_ERROR"
               "VALIDATION_API_KEYS is not configured. For local dev, set it in .dev.vars. For deploy, set via wrangler secret put."
               (request_id_member requestId))
            500)
  else if negb (present presented)
          || negb (Js.includes allowedKeys (Js.ToString presented)) then
    Some (json
            (BodyError "UNAUTHORIZED" "Missing or invalid x-api-key"
               (request_id_member requestId))
            401)
  else None.

(** *** index.ts: the whole of [fetch] *)

(** A response of the Worker: one of the responses above, or one whose body
    is a JSON document written out in index.ts (health, types). *)
Inductive WorkerResponse : Type :=
| Core (r : Response)
| Document (status : Z) (document : Json) (headers : list (string * string)).

Definition response_status (response : WorkerResponse) : Z :=
  match response with
  | Core r => status r
  | Document status _ _ => status
  end.

Definition response_headers (response : WorkerResponse) : list (string * string) :=
  match response with
  | Core r => headers r
  | Document _ _ headers => headers
  end.

(** [jsonResponse] on a document. *)
Definition jsonDocument (document : Json) (status : Z) : WorkerResponse :=
  Document status document
    [("Content-Type", "application/json; charset=utf-8");
     ("Cache-Control", "no-store")].

(** [addTraceabilityHeaders] on a response of the Worker. *)
Definition traceable (response : WorkerResponse) (requestId : string)
  : WorkerResponse :=
  match response with
  | Core r => Core (addTraceabilityHeaders r requestId)
  | Document status document headers =>
      Document status document
        (headers ++
         [("X-Request-Id", requestId);
          ("X-RateLimit-Limit", "120");
          ("X-RateLimit-Policy", "advisory; enforced=false")])
  end.

Definition notFound (requestId : string) : Response :=
  jsonResponse
    (BodyError "NOT_FOUND" "Endpoint not found" (request_id_member requestId))
    404.

(** [env.SERVICE_VERSION || '1.0.0'] *)
Definition service_version (env : Env) : string :=
  match SERVICE_VERSION env with
  | Some v => if String.eqb v "" then "1.0.0" else v
  | None => "1.0.0"
  end.

Definition health_document (env : Env) : Json :=
  JObject
    [("ok", JBool true);
     ("status",
      JObject [("service", JString "rapidtools-validation");
               ("version", JString (service_version env))])].

Definition types_document : Json :=
  JObject
    [("ok", JBool true);
     ("types",
      JArray
        [JObject
           [("type", JString "csv.timeseries.ga4.v1");
            ("description",
             JString "CSV timeseries validation for Google Analytics 4 data");
            ("requiredHeaders",
             JArray [JString "date"; JString "sessions"; JString "users"]);
            ("optionalHeaders", JArray [JString "pageviews"]);
            ("options",
             JObject
               [("allowPageviewsMissing", JString "boolean (default: false)");
                ("requireSortedByDateAsc", JString "boolean (default: false)");
                ("allowDuplicateDates", JString "boolean (default: false)");
                ("maxRows", JString "number (default: 100000)")])]])].

(** The call that the POST /api/validate route makes of a request whose body
    has parsed. *)
Definition validate_call (request : Request) (body : ValidationRequest)
    (requestId : string) : ValidateCall :=
  {| call_body := body;
     Idempotency_Key := headers_get request "Idempotency-Key";
     x_api_key := headers_get request "x-api-key";
     call_requestId := requestId |}.

Module Worker.

(** The body of the [try] of [fetch]. *)
Definition route `{Platform} `{IttyRouter} (mw : Middleware)
    (request : Request) (env : Env) (requestId : string) : M WorkerResponse :=
  let path := pathname request in
  let method := Js.toUpperCase (method request) in
  if String.eqb method "GET" && String.eqb path "/health" then
    ret (traceable (jsonDocument (health_document env) 200) requestId)
  else
    let maybeAuthResponse :=
      if Js.startsWith path "/api/" then requireAuth request env requestId
      else None in
    match maybeAuthResponse with
    | Some response => ret (traceable (Core response) requestId)
    | None =>
        if String.eqb method "GET" && String.eqb path "/api/types" then
          ret (traceable (jsonDocument types_document 200) requestId)
        else if String.eqb method "POST" && String.eqb path "/api/validate" then
          match request_json request with
          | None =>
              ret (traceable
                     (Core (jsonResponse
                              (BodyError "INVALID_JSON"
                                 "Request body must be valid JSON"
                                 (Some requestId)) 400))
                     requestId)
          | Some body =>
              response <- validate_route mw (validate_call request body requestId) ;;
              ret (Core response)
          end
        else
          ret (traceable (Core (notFound requestId)) requestId)
    end.

(** [fetch] of the default export. *)
Definition fetch `{Platform} `{IttyRouter} (mw : Middleware)
    (request : Request) (env : Env) (randomUUID : string) : M WorkerResponse :=
  let requestId := getRequestId request randomUUID in
  catch (route mw request env requestId)
        (fun _ =>
           ret (traceable
                  (Core (jsonResponse
                           (BodyError "INTERNAL_ERROR" "An internal error occurred"
                              (Some requestId)) 500))
                  requestId)).

End Worker.
(** ** Notions used to state the properties *)

(** The finding-code table of the specification's section 6. *)
Definition spec_finding_codes : list string :=
  ["INVALID_CONTENT_ENCODING"; "EMPTY_CONTENT"; "MISSING_REQUIRED_HEADERS";
   "INVALID_ROW_FORMAT"; "INVALID_DATE_FORMAT"; "DUPLICATE_DATE";
   "INVALID_SESSIONS_VALUE"; "INVALID_USERS_VALUE"; "INVALID_PAGEVIEWS_VALUE";
   "NOT_SORTED_BY_KEY"; "MAX_ROWS_EXCEEDED"; "MISSING_OPTIONAL_HEADER"].

(** That table with the ordering finding under the code the validator uses. *)
Definition finding_codes : list string :=
  ["INVALID_CONTENT_ENCODING"; "EMPTY_CONTENT"; "MISSING_REQUIRED_HEADERS";
   "INVALID_ROW_FORMAT"; "INVALID_DATE_FORMAT"; "DUPLICATE_DATE";
   "INVALID_SESSIONS_VALUE"; "INVALID_USERS_VALUE"; "INVALID_PAGEVIEWS_VALUE";
   "NOT_SORTED_BY_DATE"; "MAX_ROWS_EXCEEDED"; "MISSING_OPTIONAL_HEADER"].

(** The codes of the findings that [validateRow] can add. *)
Definition row_finding_codes : list string :=
  ["INVALID_ROW_FORMAT"; "INVALID_DATE_FORMAT"; "DUPLICATE_DATE";
   "INVALID_SESSIONS_VALUE"; "INVALID_USERS_VALUE"; "INVALID_PAGEVIEWS_VALUE"].

(** The finding of the optional-header check, when it fires. *)
Definition optional_header_findings (headers : list string)
    (options : GA4ValidationOptions) : list ValidationFinding :=
  if negb (Js.includes headers "pageviews")
     && negb (flag (allowPageviewsMissing options))
  then [{| level := warning; code := "MISSING_OPTIONAL_HEADER";
           message := "Optional header " +:+ in_quotes "pageviews" +:+ " is missing";
           pointer := None |}]
  else [].

(** The findings that one integer check adds. *)
Definition integer_field_findings (name findingCode : string) (rowIndex : nat)
    (value : option string) : list ValidationFinding :=
  st_findings
    (check_integer_field name findingCode rowIndex value
       {| st_findings := []; st_dates := []; st_seenDates := ∅ |}).

(** A decimal literal without a leading zero: "0", or one that starts with a
    digit other than 0. *)
Definition no_leading_zero (s : string) : bool :=
  match s with
  | String "0" "" => true
  | String "0" _ => false
  | _ => true
  end.

(** Two JSON values with the same content: the members of an object may come
    in any order, at every depth; the keys of an object are distinct. *)
Inductive same_value : Json -> Json -> Prop :=
| same_null : same_value JNull JNull
| same_bool b : same_value (JBool b) (JBool b)
| same_number z : same_value (JNumber z) (JNumber z)
| same_string s : same_value (JString s) (JString s)
| same_array items1 items2 :
    Forall2 same_value items1 items2 ->
    same_value (JArray items1) (JArray items2)
| same_object members1 members2 :
    NoDup (map fst members1) ->
    NoDup (map fst members2) ->
    (forall k, option_Forall2 same_value (member k members1) (member k members2)) ->
    same_value (JObject members1) (JObject members2).

(** Two requests that differ at most in the order of the keys inside their
    options and context. *)
Definition same_request (r1 r2 : ValidationRequest) : Prop :=
  type r1 = type r2 /\ content r1 = content r2
  /\ option_Forall2 same_value (options r1) (options r2)
  /\ option_Forall2 same_value (context r1) (context r2).

(** The number of calls of the engine that a trace records. *)
Definition is_engine_invocation (ev : Event) : bool :=
  match ev with
  | EngineInvoked _ _ => true
  | _ => false
  end.

Definition engine_invocations (events : list Event) : nat :=
  length (List.filter is_engine_invocation events).

(** The world at another time of day. *)
Definition at_time (t : Z) (w : World) : World :=
  {| IDEMPOTENCY_KV := IDEMPOTENCY_KV w; Date_now := t; trace := trace w |}.

Definition empty_world (t : Z) : World :=
  {| IDEMPOTENCY_KV := ∅; Date_now := t; trace := [] |}.

(** The call of [fetch] that carries request [R] under token [T]. *)
Definition handle_call (R : ValidationRequest) (T apiKey requestId : string)
  : ValidateCall :=
  {| call_body := R; Idempotency_Key := Some T; x_api_key := Some apiKey;
     call_requestId := requestId |}.

(** *** Histories of calls of the middleware *)

Inductive MiddlewareCall : Type :=
| CallCheck (idempotencyKey apiKey fingerprint requestId : string)
| CallStore (idempotencyKey apiKey fingerprint : string)
    (response : ValidationResponse).

(** What a call of [checkIdempotency] decides. *)
Inductive Outcome : Type :=
| Hit (response : ValidationResponse)
| Miss
| Conflict (r : Response)
| Failed (e : JsError).

Definition outcome_of (c : Completion Thrown (option ValidationResponse)) : Outcome :=
  match c with
  | Normal (Some response) => Hit response
  | Normal None => Miss
  | Throw (ThrownResponse r) => Conflict r
  | Throw (ThrownError e) => Failed e
  end.

Definition is_miss (o : Outcome) : bool :=
  match o with
  | Miss => true
  | _ => false
  end.

(** The outcomes of the checks of a history, run in order from world [w]. *)
Fixpoint run_history (mw : Middleware) (calls : list MiddlewareCall) (w : World)
  : list Outcome :=
  match calls with
  | [] => []
  | CallCheck k a f rid :: rest =>
      let '(c, w') := checkIdempotency mw k a f rid w in
      outcome_of c :: run_history mw rest w'
  | CallStore k a f response :: rest =>
      let '(_, w') := storeIdempotentResponse mw k a f response w in
      run_history mw rest w'
  end.

(** A history in which every store is made as [fetch] makes it: in a state
    where the check of the same key and fingerprint misses. *)
Fixpoint stores_after_miss (mw : Middleware) (calls : list MiddlewareCall)
    (w : World) : bool :=
  match calls with
  | [] => true
  | CallCheck k a f rid :: rest =>
      stores_after_miss mw rest (snd (checkIdempotency mw k a f rid w))
  | CallStore k a f response :: rest =>
      is_miss (outcome_of (fst (checkIdempotency mw k a f "" w)))
      && stores_after_miss mw rest (snd (storeIdempotentResponse mw k a f response w))
  end.

Fixpoint colon_free (s : string) : bool :=
  match s with
  | "" => true
  | String c s' => negb (Ascii.eqb c ":") && colon_free s'
  end.

(** Keys without a colon, and fingerprints that are non-empty and without a
    colon (as hex digests are). *)
Definition plain_call (call : MiddlewareCall) : bool :=
  match call with
  | CallCheck k _ f _ | CallStore k _ f _ =>
      colon_free k && colon_free f && negb (String.eqb f "")
  end.

(** *** A platform to run examples on

    The statements below hold on every platform; the examples need one to
    compute with. The digest of the example platform is not SHA-256: it
    writes the code of each character in hex after "00". *)

Definition base64_value (c : ascii) : option N :=
  let n := N_of_ascii c in
  if ((65 <=? n) && (n <=? 90))%N then Some (n - 65)%N
  else if ((97 <=? n) && (n <=? 122))%N then Some (n - 71)%N
  else if ((48 <=? n) && (n <=? 57))%N then Some (n + 4)%N
  else if (n =? 43)%N then Some 62%N
  else if (n =? 47)%N then Some 63%N
  else None.

Definition byte_string (n : N) : string := String (ascii_of_N (n mod 256)) "".

Fixpoint base64_bytes (values : list N) : string :=
  match values with
  | a :: b :: c :: d :: rest =>
      let n := (a * 262144 + b * 4096 + c * 64 + d)%N in
      byte_string (n / 65536) +:+ byte_string (n / 256) +:+ byte_string n
      +:+ base64_bytes rest
  | [a; b; c] =>
      let n := (a * 262144 + b * 4096 + c * 64)%N in
      byte_string (n / 65536) +:+ byte_string (n / 256)
  | [a; b] => byte_string ((a * 262144 + b * 4096) / 65536)
  | _ => ""
  end.

Definition is_ascii_whitespace (c : ascii) : bool :=
  match N_of_ascii c with
  | 9 | 10 | 12 | 13 | 32 => true
  | _ => false
  end%N.

Definition strip_padding (cs : list ascii) : list ascii :=
  if (length cs mod 4 =? 0)%nat then
    match rev cs with
    | "="%char :: "="%char :: rest => rev rest
    | "="%char :: rest => rev rest
    | _ => cs
    end
  else cs.

(** The forgiving base64 decoding of [atob]. *)
Definition example_atob (data : string) : option string :=
  let cs := List.filter (fun c => negb (is_ascii_whitespace c))
              (list_ascii_of_string data) in
  let cs := strip_padding cs in
  if (length cs mod 4 =? 1)%nat then None
  else base64_bytes <$> mapM base64_value cs.

Fixpoint hex_of_string (s : string) : string :=
  match s with
  | "" => ""
  | String c s' =>
      let n := N_of_ascii c in
      String (hex_digit (n / 16)) (String (hex_digit (n mod 16)) (hex_of_string s'))
  end.

Definition example_digest (s : string) : string := "00" +:+ hex_of_string s.

Definition example_platform : Platform :=
  {| sha256 := example_digest;
     atob := example_atob;
     TextDecoder_decode := fun binaryString => binaryString |}.

Definition LF : string := String "010" "".

(** The request body of the README. *)
Definition readme_request : ValidationRequest :=
  {| type := "csv.timeseries.ga4.v1";
     content := "text:date,sessions,users" +:+ LF +:+ "2024-01-01,150,120";
     options := None;
     context := None |}.

(** A finding of a row: an error with one of the row codes. *)
Definition row_finding (f : ValidationFinding) : Prop :=
  level f = error /\ In (code f) row_finding_codes.

(** The codes of the findings that [validateGA4CSV] can return. *)
Definition emitted_codes : list string :=
  ["INVALID_CONTENT_ENCODING"; "MISSING_REQUIRED_HEADERS";
   "MISSING_OPTIONAL_HEADER"; "MAX_ROWS_EXCEEDED"; "NOT_SORTED_BY_DATE"]
  ++ row_finding_codes.

(** A finding with one of those codes, a warning exactly when it is the
    optional-header finding. *)
Definition emitted_finding (f : ValidationFinding) : Prop :=
  In (code f) emitted_codes
  /\ (level f = warning <-> code f = "MISSING_OPTIONAL_HEADER").

(** Two days out of order. *)
Definition unsorted_content : string :=
  "text:date,sessions,users" +:+ LF +:+ "2024-01-02,150,120" +:+ LF
  +:+ "2024-01-01,100,80".

Definition sorted_required : GA4ValidationOptions :=
  {| allowPageviewsMissing := None; requireSortedByDateAsc := Some true;
     allowDuplicateDates := None; maxRows := None |}.

(** Two data rows under a ceiling of one. *)
Definition two_rows_content : string :=
  "text:date,sessions,users,pageviews" +:+ LF +:+ "2024-01-01,150,120,450"
  +:+ LF +:+ "not-a-date,-5,x,y".

Definition at_most_one_row : GA4ValidationOptions :=
  {| allowPageviewsMissing := None; requireSortedByDateAsc := None;
     allowDuplicateDates := None; maxRows := Some 1%Z |}.

(** The digest of the platform is never the empty string (a SHA-256 digest
    in hex has 64 characters). *)
Definition digest_nonempty `{Platform} : Prop := forall s, sha256 s <> "".

(** The digest of the platform never contains a colon (a digest in hex is
    made of the characters 0..9 and a..f). *)
Definition digest_colon_free `{Platform} : Prop :=
  forall s, colon_free (sha256 s) = true.

(** The world after [fetch] has answered a fresh request under a token: the
    two records of the fingerprint-record middleware are stored. *)
Definition after_commit (idempotencyKey apiKeyHash fingerprint : string)
    (response : ValidationResponse) (events : list Event) (w : World) : World :=
  {| IDEMPOTENCY_KV :=
       <[ FingerprintRecord.fingerprint_name apiKeyHash idempotencyKey :=
            {| kv_value := KvText fingerprint;
               expirationTtl := IDEMPOTENCY_TTL_SECONDS |} ]>
         (<[ response_name apiKeyHash idempotencyKey fingerprint :=
               {| kv_value :=
                    KvJson {| meta_key := idempotencyKey;
                              meta_fingerprint := fingerprint;
                              meta_response := response;
                              meta_timestamp := Date_now w |};
                  expirationTtl := IDEMPOTENCY_TTL_SECONDS |} ]>
            (IDEMPOTENCY_KV w));
     Date_now := Date_now w;
     trace := trace w ++ events |}.

Definition with_events (events : list Event) (w : World) : World :=
  {| IDEMPOTENCY_KV := IDEMPOTENCY_KV w; Date_now := Date_now w;
     trace := trace w ++ events |}.


(** The README's request over other data. *)
Definition other_request : ValidationRequest :=
  {| type := type readme_request;
     content := "text:date,sessions,users" +:+ LF +:+ "2024-02-01,200,100";
     options := None; context := None |}.

(** What the engine answers to the README's request. *)
Definition readme_response : ValidationResponse :=
  Success
    {| summary := {| valid := true; issues := 0; warnings := 1; rows := 1 |};
       findings := [{| level := warning; code := "MISSING_OPTIONAL_HEADER";
                       message := "Optional header " +:+ in_quotes "pageviews" +:+ " is missing";
                       pointer := None |}];
       normalized := {| detectedHeaders := ["date"; "sessions"; "users"];
                        dateRange := Some {| range_start := "2024-01-01";
                                             range_end := "2024-01-01" |} |};
       idempotency := None |}.

(** The prefix that the list-prefix version lists. *)
Definition list_prefix (apiKeyHash k : string) : string :=
  "idem:" +:+ apiKeyHash +:+ ":" +:+ k +:+ ":".

(** The records that [storeIdempotentResponse] writes. *)
Definition json_entry (metadata : IdempotencyMetadata) : KvEntry :=
  {| kv_value := KvJson metadata; expirationTtl := IDEMPOTENCY_TTL_SECONDS |}.

Definition text_entry (text : string) : KvEntry :=
  {| kv_value := KvText text; expirationTtl := IDEMPOTENCY_TTL_SECONDS |}.

(** The relation between the store of the list-prefix version and the store
    of the fingerprint-record version after the same history: the first holds
    response records only, each is in the second too, and the second holds
    for each key the fingerprint of the one response stored under it. *)
Definition stores_agree `{Platform} (kv1 kv2 : gmap string KvEntry) : Prop :=
  (forall name e,
      kv1 !! name = Some e ->
      exists apiKey k f metadata,
        name = response_name (sha256 apiKey) k f
        /\ colon_free k = true /\ colon_free f = true /\ f <> ""
        /\ e = json_entry metadata
        /\ kv2 !! name = Some e
        /\ kv2 !! FingerprintRecord.fingerprint_name (sha256 apiKey) k
           = Some (text_entry f))
  /\ (forall apiKey k e,
        colon_free k = true ->
        kv2 !! FingerprintRecord.fingerprint_name (sha256 apiKey) k = Some e ->
        exists f, e = text_entry f
                  /\ is_Some (kv1 !! response_name (sha256 apiKey) k f)).

Definition worlds_agree `{Platform} (w1 w2 : World) : Prop :=
  Date_now w1 = Date_now w2
  /\ stores_agree (IDEMPOTENCY_KV w1) (IDEMPOTENCY_KV w2).

(** A history as [fetch] produces it: a first request under the token
    "order:7", then another request under the token "order". *)
Definition colon_history `{Platform} : list MiddlewareCall :=
  [CallCheck "order:7" "key-1" (computeFingerprint readme_request) "request-1";
   CallStore "order:7" "key-1" (computeFingerprint readme_request)
     (set_idempotency readme_response
        (Some {| key := "order:7"; replayed := false |}));
   CallCheck "order" "key-1" (computeFingerprint other_request) "request-2"].

(** A history under tokens without colons: a first request, its retry, and
    another request under the same token and under a fresh one. *)
Definition plain_history `{Platform} : list MiddlewareCall :=
  [CallCheck "retry-1" "key-1" (computeFingerprint readme_request) "request-1";
   CallStore "retry-1" "key-1" (computeFingerprint readme_request)
     (set_idempotency readme_response
        (Some {| key := "retry-1"; replayed := false |}));
   CallCheck "retry-1" "key-1" (computeFingerprint readme_request) "request-2";
   CallCheck "retry-1" "key-1" (computeFingerprint other_request) "request-3";
   CallCheck "retry-2" "key-1" (computeFingerprint other_request) "request-4"].

(** The README's request with the month 13. *)
Definition invalid_month_request : ValidationRequest :=
  {| type := type readme_request;
     content := "text:date,sessions,users" +:+ LF +:+ "2024-13-01,100,50";
     options := None; context := None |}.

(** *** More notions of the validator *)

(** The finding of a content that does not decode. *)
Definition encoding_finding : ValidationFinding :=
  {| level := error; code := "INVALID_CONTENT_ENCODING";
     message := "Content must be prefixed with " +:+ in_quotes "base64:"
                +:+ " or " +:+ in_quotes "text:";
     pointer := None |}.

(** The required headers that a header row lacks, in the order of
    [requiredHeaders]. *)
Definition missing_headers (headers : list string) : list string :=
  List.filter (fun h => negb (Js.includes headers h)) requiredHeaders.

(** The number of findings of a level, and of a code. *)
Definition count_level (l : Level) (fs : list ValidationFinding) : nat :=
  length (filter (fun f => level f = l) fs).

Definition count_code (c : string) (fs : list ValidationFinding) : nat :=
  length (List.filter (fun f => String.eqb (code f) c) fs).

(** The text of the date cell of a row. *)
Definition row_date (dateIdx : Z) (row : list string) : string :=
  Js.ToString (Js.get row dateIdx).

(** A row whose date the callback accepts: it has enough columns and
    [isValidDate] returns true. *)
Definition date_accepted (dateIdx : Z) (row : list string) : bool :=
  (3 <=? length row)%nat
  && match isValidDate (Js.get row dateIdx) with
     | Normal true => true
     | _ => false
     end.

(** The dates that the callback pushes to [dates], in row order. *)
Definition accepted_dates (dateIdx : Z) (dataRows : list (list string))
  : list string :=
  map (row_date dateIdx) (List.filter (date_accepted dateIdx) dataRows).

(** A cell that the pageviews check skips: no such column, no such cell, or
    an empty cell. *)
Definition pageviews_skipped (pageviewsIdx : Z) (row : list string) : bool :=
  negb ((0 <=? pageviewsIdx)%Z
        && bool_decide (Js.get row pageviewsIdx <> None)
        && bool_decide (Js.get row pageviewsIdx <> Some "")).

(** A row that passes every check of a cell. *)
Definition clean_row (dateIdx sessionsIdx usersIdx pageviewsIdx : Z)
    (row : list string) : bool :=
  date_accepted dateIdx row
  && isNonNegativeInteger (Js.get row sessionsIdx)
  && isNonNegativeInteger (Js.get row usersIdx)
  && (pageviews_skipped pageviewsIdx row
      || isNonNegativeInteger (Js.get row pageviewsIdx)).

(** The year, month and day that a text of the shape YYYY-MM-DD writes. *)
Definition date_fields (s : string) : Z * Z * Z :=
  (Z.of_N (Js.digits_value (String.substring 0 4 s)),
   Z.of_N (Js.digits_value (String.substring 5 2 s)),
   Z.of_N (Js.digits_value (String.substring 8 2 s))).

(** The month and day fields with which V8 reads the text as an ISO date. *)
Definition iso_fields (m d : Z) : bool :=
  ((1 <=? m) && (m <=? 12) && (1 <=? d) && (d <=? 31))%Z.

(** The year and month fields with which V8's legacy parser reads a text
    that is no ISO date: as a month and a day. *)
Definition legacy_fields (y m : Z) : bool :=
  ((1 <=? y) && (y <=? 12) && (1 <=? m) && (m <=? 31))%Z.

(** The year that the legacy parser makes of the day field. *)
Definition legacy_year (d : Z) : Z :=
  if (d <=? 49)%Z then (2000 + d)%Z else (1900 + d)%Z.

(** A text that matches the pattern of [isValidDate] and that [Date] reads
    neither way: its month is not 01..12 or its day is not 01..31, and its
    year is not 0001..0012 or its month is not 01..31. *)
Definition unreadable_date (s : string) : bool :=
  let '(y, m, d) := date_fields s in
  Js.test_iso_date s && negb (iso_fields m d) && negb (legacy_fields y m).

(** A row on which the callback does not throw. *)
Definition safe_row (dateIdx : Z) (row : list string) : bool :=
  (length row <? 3)%nat || negb (unreadable_date (row_date dateIdx row)).

(** The first and the last of a list of dates. *)
Definition range_of (dates : list string) : option DateRange :=
  match dates with
  | [] => None
  | first :: _ =>
      Some {| range_start := first; range_end := List.last dates first |}
  end.

(** The Gregorian calendar. *)
Definition leap_year (y : Z) : bool :=
  ((y mod 4 =? 0) && (negb (y mod 100 =? 0) || (y mod 400 =? 0)))%Z.

Definition days_in_month (y m : Z) : Z :=
  match m with
  | 2 => if leap_year y then 29 else 28
  | 4 | 6 | 9 | 11 => 30
  | _ => 31
  end%Z.

(** A text of the shape YYYY-MM-DD that names a day of the calendar. *)
Definition calendar_date (s : string) : bool :=
  let '(y, m, d) := date_fields s in
  Js.test_iso_date s
  && ((1 <=? m) && (m <=? 12) && (1 <=? d) && (d <=? days_in_month y m))%Z.

(** The state in which the loop over the data rows starts. *)
Definition initial_state (headers : list string) (options : GA4ValidationOptions)
  : RowState :=
  {| st_findings := optional_header_findings headers options;
     st_dates := []; st_seenDates := ∅ |}.

(** The loop over the data rows, with the columns where the header row has
    them. *)
Definition run_rows (options : GA4ValidationOptions) (headers : list string)
    (dataRows : list (list string)) : Completion JsError RowState :=
  forEach_rows
    (validateRow options (Js.indexOf headers "date")
       (Js.indexOf headers "sessions") (Js.indexOf headers "users")
       (Js.indexOf headers "pageviews"))
    (initial_state headers options) dataRows 0.

(** The finding of the ordering check, when it fires. *)
Definition ordering_findings (options : GA4ValidationOptions)
    (dates : list string) : list ValidationFinding :=
  if flag (requireSortedByDateAsc options) && (0 <? length dates)%nat
     && some_differs dates (Js.sort dates)
  then [{| level := error; code := "NOT_SORTED_BY_DATE";
           message := "Dates are not sorted in ascending order";
           pointer := None |}]
  else [].

(** The result that the validator builds after the loop. *)
Definition aggregate (headers : list string) (rowCount : nat)
    (findings : list ValidationFinding) (dates : list string)
  : ValidationSuccess :=
  {| summary := {| valid := (count_level error findings =? 0)%nat;
                   issues := count_level error findings;
                   warnings := count_level warning findings;
                   rows := rowCount |};
     findings := findings;
     normalized := {| detectedHeaders := headers; dateRange := range_of dates |};
     idempotency := None |}.

(** A content whose data rows the validator checks: it decodes, its header
    row has the required headers and its data rows are no more than
    [maxRows]. *)
Definition rows_checked `{Platform} (content : string)
    (options : GA4ValidationOptions) (headers : list string)
    (dataRows : list (list string)) : Prop :=
  exists csvText,
    decodeContent content = Normal csvText
    /\ parseCSV csvText = headers :: dataRows
    /\ Forall (fun h => Js.includes headers h = true) requiredHeaders
    /\ (Z.of_nat (length dataRows) <= default DEFAULT_MAX_ROWS (maxRows options))%Z.

(** The fields that [Date] makes of a year, a month and a day of month up
    to 31: the day itself, or the day it is carried to in the next month. *)
Definition rolled (y m d : Z) : Z * Z * Z :=
  if (d <=? days_in_month y m)%Z then (y, m, d)
  else (y, m + 1, d - days_in_month y m)%Z.

(** The integers from 0 up to [n], [n] excluded. *)
Definition Z_range (n : nat) : list Z := map Z.of_nat (seq 0 n).

Definition digit_chars : list ascii :=
  ["0"; "1"; "2"; "3"; "4"; "5"; "6"; "7"; "8"; "9"]%char.

(** A field of [toISOString]: a number padded with zeros to a width. *)
Definition field_text (width : nat) (z : Z) : string :=
  Js.pad width (Js.Z_toString z).

(** The number that a field of digits writes. *)
Definition field_value (s : string) : Z := Z.of_N (Js.digits_value s).

(** The first ten characters of [toISOString]. *)
Definition iso_text (y m d : Z) : string :=
  field_text 4 y +:+ "-" +:+ field_text 2 m +:+ "-" +:+ field_text 2 d.

(** *** The findings of the rows, by code *)

(** A row that has fewer cells than there are required headers. *)
Definition short_row (row : list string) : bool :=
  (length row <? length requiredHeaders)%nat.

(** A row with enough cells whose date the callback rejects. *)
Definition rejected_date (dateIdx : Z) (row : list string) : bool :=
  negb (short_row row) && negb (date_accepted dateIdx row).

(** A row with enough cells whose cell in a column is not a non-negative
    integer. *)
Definition rejected_cell (idx : Z) (row : list string) : bool :=
  negb (short_row row) && negb (isNonNegativeInteger (Js.get row idx)).

Definition rejected_pageviews (pageviewsIdx : Z) (row : list string) : bool :=
  negb (pageviews_skipped pageviewsIdx row) && rejected_cell pageviewsIdx row.

(** The codes of the findings of a row, each with the rows that get it. *)
Definition row_checks (dateIdx sessionsIdx usersIdx pageviewsIdx : Z)
  : list (string * (list string -> bool)) :=
  [("INVALID_ROW_FORMAT", short_row);
   ("INVALID_DATE_FORMAT", rejected_date dateIdx);
   ("INVALID_SESSIONS_VALUE", rejected_cell sessionsIdx);
   ("INVALID_USERS_VALUE", rejected_cell usersIdx);
   ("INVALID_PAGEVIEWS_VALUE", rejected_pageviews pageviewsIdx)].

(** *** More contents *)

Definition example_headers : list string := ["date"; "sessions"; "users"].

(** The data rows of [unsorted_content], and the result of the validator on
    it when the ordering is required. *)
Definition unsorted_rows : list (list string) :=
  [["2024-01-02"; "150"; "120"]; ["2024-01-01"; "100"; "80"]].

Definition unsorted_result : ValidationSuccess :=
  {| summary := {| valid := false; issues := 1; warnings := 1; rows := 2 |};
     findings :=
       [{| level := warning; code := "MISSING_OPTIONAL_HEADER";
           message := "Optional header " +:+ in_quotes "pageviews" +:+ " is missing";
           pointer := None |};
        {| level := error; code := "NOT_SORTED_BY_DATE";
           message := "Dates are not sorted in ascending order";
           pointer := None |}];
     normalized :=
       {| detectedHeaders := example_headers;
          dateRange := Some {| range_start := "2024-01-02";
                               range_end := "2024-01-01" |} |};
     idempotency := None |}.

(** A date given twice. *)
Definition repeated_content : string :=
  "text:date,sessions,users" +:+ LF +:+ "2024-01-01,150,120" +:+ LF
  +:+ "2024-01-01,100,80".

Definition repeated_rows : list (list string) :=
  [["2024-01-01"; "150"; "120"]; ["2024-01-01"; "100"; "80"]].

(** A header row without the header users. *)
Definition missing_users_content : string :=
  "text:date,sessions,pageviews" +:+ LF +:+ "2024-01-01,100,200".

(** The content of the README's request, and the same in base64. *)
Definition readme_text : string :=
  "date,sessions,users" +:+ LF +:+ "2024-01-01,150,120".

Definition readme_base64 : string :=
  "ZGF0ZSxzZXNzaW9ucyx1c2VycwoyMDI0LTAxLTAxLDE1MCwxMjA=".

(** The data rows of [two_rows_content]. *)
Definition two_rows : list (list string) :=
  [["2024-01-01"; "150"; "120"; "450"]; ["not-a-date"; "-5"; "x"; "y"]].

(** *** Notions of the canonical texts and of the fingerprint *)

(** Where a reader of a JSON text stands: outside a string literal, inside
    one, or inside one just after a backslash; and how many brackets and
    braces are open. *)
Inductive ScanMode : Type := Outside | Inside | Escaped.

Definition scan_step (st : ScanMode * nat) (c : ascii) : option (ScanMode * nat) :=
  let '(mode, depth) := st in
  match mode with
  | Escaped => Some (Inside, depth)
  | Inside =>
      if Ascii.eqb c "034" then Some (Outside, depth)
      else if Ascii.eqb c "092" then Some (Escaped, depth)
      else Some (Inside, depth)
  | Outside =>
      if Ascii.eqb c "034" then Some (Inside, depth)
      else if Ascii.eqb c "092" then None
      else if Ascii.eqb c "{" || Ascii.eqb c "[" then Some (Outside, S depth)
      else if Ascii.eqb c "}" || Ascii.eqb c "]" then
        match depth with
        | O => None
        | S depth' => Some (Outside, depth')
        end
      else Some (Outside, depth)
  end.

Fixpoint scan (st : ScanMode * nat) (s : string) : option (ScanMode * nat) :=
  match s with
  | "" => Some st
  | String c s' =>
      match scan_step st c with
      | Some st' => scan st' s'
      | None => None
      end
  end.

(** A character that is no quotation mark, backslash, bracket or brace. *)
Definition plain (c : ascii) : bool :=
  negb (Ascii.eqb c "034" || Ascii.eqb c "092" || Ascii.eqb c "{"
        || Ascii.eqb c "[" || Ascii.eqb c "}" || Ascii.eqb c "]").

Fixpoint all_plain (s : string) : bool :=
  match s with
  | "" => true
  | String c s' => plain c && all_plain s'
  end.




(** The text that [computeFingerprint] hashes. *)
Definition composite `{Platform} (request : ValidationRequest) : string :=
  type request +:+ sha256 (content request)
  +:+ stableStringify (Some (or_empty_object (options request)))
  +:+ stableStringify (Some (or_empty_object (context request))).
















(** *** More notions of the protocol *)

(** An event that reads the store. *)
Definition is_read (ev : Event) : bool :=
  match ev with
  | KvGet _ | KvList _ => true
  | _ => false
  end.

(** One of the two versions of the middleware that the sources hold. *)
Definition source_middleware `{Platform} (mw : Middleware) : Prop :=
  mw = list_prefix_middleware \/ mw = fingerprint_record_middleware.

(** The answer of [fetch] that carries a validation response. *)
Definition validation_answer (response : ValidationResponse) (requestId : string)
  : Response :=
  addTraceabilityHeaders
    (jsonResponse (BodyValidation response) (status_of response)) requestId.

(** The answer of [fetch] that carries an error of the route. *)
Definition error_answer (code message : string) (status : Z) (requestId : string)
  : Response :=
  addTraceabilityHeaders
    (jsonResponse (BodyError code message (Some requestId)) status) requestId.

(** What the engine answers to [other_request]. *)
Definition other_response : ValidationResponse :=
  Success
    {| summary := {| valid := true; issues := 0; warnings := 1; rows := 1 |};
       findings := [{| level := warning; code := "MISSING_OPTIONAL_HEADER";
                       message := "Optional header " +:+ in_quotes "pageviews" +:+ " is missing";
                       pointer := None |}];
       normalized := {| detectedHeaders := ["date"; "sessions"; "users"];
                        dateRange := Some {| range_start := "2024-02-01";
                                             range_end := "2024-02-01" |} |};
       idempotency := None |}.

(** A call that carries request [R] without an Idempotency-Key. *)
Definition tokenless_call (R : ValidationRequest) (apiKey requestId : string)
  : ValidateCall :=
  {| call_body := R; Idempotency_Key := None; x_api_key := Some apiKey;
     call_requestId := requestId |}.

(** *** Notions of the Worker *)

(** A string that holds the character [c]. *)
Fixpoint has_char (c : ascii) (s : string) : bool :=
  match s with
  | "" => false
  | String x s' => Ascii.eqb x c || has_char c s'
  end.

(** The number of times that a string holds the character [c]. *)
Fixpoint count_char (c : ascii) (s : string) : nat :=
  match s with
  | "" => 0
  | String x s' => (if Ascii.eqb x c then 1 else 0) + count_char c s'
  end.

(** The three headers that [addTraceabilityHeaders] sets. *)
Definition traceability_headers (requestId : string) : list (string * string) :=
  [("X-Request-Id", requestId);
   ("X-RateLimit-Limit", "120");
   ("X-RateLimit-Policy", "advisory; enforced=false")].

(** The request that reaches the validation: POST /api/validate with a body
    that parses, from a caller that [requireAuth] lets through. *)
Definition reaches_validation `{IttyRouter} (request : Request) (env : Env)
    (requestId : string) : Prop :=
  Js.toUpperCase (method request) = "POST"
  /\ pathname request = "/api/validate"
  /\ requireAuth request env requestId = None
  /\ is_Some (request_json request).

(** The types that a document of the shape of [types_document] lists. *)
Definition listed_types (document : Json) : list string :=
  match document with
  | JObject members =>
      match member "types" members with
      | Some (JArray items) =>
          omap (fun item =>
                  match item with
                  | JObject fields =>
                      match member "type" fields with
                      | Some (JString t) => Some t
                      | _ => None
                      end
                  | _ => None
                  end) items
      | _ => []
      end
  | _ => []
  end.

(** *** Requests *)

Definition example_router : IttyRouter :=
  {| json_headers := [("content-type", "application/json; charset=utf-8")] |}.

(** Two keys configured, with white space after the comma. *)
Definition example_env : Env :=
  {| VALIDATION_API_KEYS := Some "key-1, key-2"; SERVICE_VERSION := None |}.

(** The README's request, from a caller with the second key. *)
Definition readme_post : Request :=
  {| method := "POST"; pathname := "/api/validate";
     request_headers := {[ "x-api-key" := "key-2" ]};
     request_json := Some readme_request |}.

(** The same without a key. *)
Definition anonymous_post : Request :=
  {| method := "POST"; pathname := "/api/validate";
     request_headers := ∅;
     request_json := Some readme_request |}.

(** An unknown route outside /api/. *)
Definition unknown_get : Request :=
  {| method := "GET"; pathname := "/status";
     request_headers := {[ "x-request-id" := "client-7" ]};
     request_json := None |}.

(** * Properties *)

(** ** The validator *)

Section Validator.
Context `{Platform}.

Lemma split_not_empty sep s : Js.split sep s <> [].
Proof.
  destruct s as [|c s]; simpl; [discriminate|].
  destruct (Ascii.eqb c sep); [discriminate|].
  destruct (Js.split sep s); discriminate.
Qed.

Lemma parseCSV_not_empty csvText : parseCSV csvText <> [].
Proof.
  unfold parseCSV. intros Hnil. apply map_eq_nil in Hnil.
  by apply split_not_empty in Hnil.
Qed.

Lemma check_integer_field_findings name findingCode rowIndex value st :
  st_findings (check_integer_field name findingCode rowIndex value st)
  = st_findings st ++ integer_field_findings name findingCode rowIndex value.
Proof.
  unfold integer_field_findings, check_integer_field.
  destruct (negb (isNonNegativeInteger value)); simpl; [done|].
  by rewrite app_nil_r.
Qed.

Lemma check_integer_field_dates name findingCode rowIndex value st :
  st_dates (check_integer_field name findingCode rowIndex value st) = st_dates st.
Proof. unfold check_integer_field. by destruct (negb _). Qed.

Lemma integer_field_findings_cases name findingCode rowIndex value :
  (isNonNegativeInteger value = true
   /\ integer_field_findings name findingCode rowIndex value = [])
  \/ (isNonNegativeInteger value = false
      /\ exists f, integer_field_findings name findingCode rowIndex value = [f]
                   /\ level f = error /\ code f = findingCode).
Proof.
  unfold integer_field_findings, check_integer_field.
  destruct (isNonNegativeInteger value); simpl; [left; split; reflexivity|].
  right. split; [done|]. eexists. split; [reflexivity|]. by split.
Qed.

(** The findings that the callback adds for a row with enough columns: those
    of the date, then those of the integer checks. *)
Lemma validateRow_findings options dateIdx sessionsIdx usersIdx pageviewsIdx
    st row idx st' :
  validateRow options dateIdx sessionsIdx usersIdx pageviewsIdx st row idx
    = Normal st' ->
  (length row < 3 /\ exists f, st_findings st' = st_findings st ++ [f]
      /\ level f = error /\ code f = "INVALID_ROW_FORMAT")
  \/ (3 <= length row /\ exists dateFindings,
      Forall (fun f => level f = error
                       /\ In (code f) ["INVALID_DATE_FORMAT"; "DUPLICATE_DATE"])
        dateFindings
      /\ length dateFindings <= 1
      /\ st_findings st' =
         st_findings st ++ dateFindings
         ++ integer_field_findings "sessions" "INVALID_SESSIONS_VALUE" (idx + 2)
              (Js.get row sessionsIdx)
         ++ integer_field_findings "users" "INVALID_USERS_VALUE" (idx + 2)
              (Js.get row usersIdx)
         ++ (if (0 <=? pageviewsIdx)%Z
                && bool_decide (Js.get row pageviewsIdx <> None)
                && bool_decide (Js.get row pageviewsIdx <> Some "")
             then integer_field_findings "pageviews" "INVALID_PAGEVIEWS_VALUE"
                    (idx + 2) (Js.get row pageviewsIdx)
             else [])).
Proof.
  unfold validateRow. simpl length.
  destruct (length row <? 3)%nat eqn:Hlen.
  - intros [= <-]. left. apply Nat.ltb_lt in Hlen. split; [done|].
    eexists. simpl. split; [reflexivity|]. by split.
  - apply Nat.ltb_ge in Hlen. right. split; [done|].
    destruct (isValidDate (Js.get row dateIdx)) as [dateOk|e] eqn:Hdate;
      simpl in *; [|discriminate].
    injection H0 as <-.
    set (fs := integer_field_findings "sessions" _ _ _).
    set (fu := integer_field_findings "users" _ _ _).
    set (guard := (_ && _ && _)).
    assert (Hp : forall st0,
      st_findings (if guard
                   then check_integer_field "pageviews" "INVALID_PAGEVIEWS_VALUE"
                          (idx + 2) (Js.get row pageviewsIdx) st0
                   else st0)
      = st_findings st0 ++
        (if guard then integer_field_findings "pageviews"
                         "INVALID_PAGEVIEWS_VALUE" (idx + 2)
                         (Js.get row pageviewsIdx) else [])).
    { intros st0. destruct guard.
      - apply check_integer_field_findings.
      - by rewrite app_nil_r. }
    assert (Hshape : forall st0 dateFindings,
      st_findings st0 = st_findings st ++ dateFindings ->
      st_findings
        (if guard
         then check_integer_field "pageviews" "INVALID_PAGEVIEWS_VALUE"
                (idx + 2) (Js.get row pageviewsIdx)
                (check_integer_field "users" "INVALID_USERS_VALUE" (idx + 2)
                   (Js.get row usersIdx)
                   (check_integer_field "sessions" "INVALID_SESSIONS_VALUE"
                      (idx + 2) (Js.get row sessionsIdx) st0))
         else check_integer_field "users" "INVALID_USERS_VALUE" (idx + 2)
                (Js.get row usersIdx)
                (check_integer_field "sessions" "INVALID_SESSIONS_VALUE"
                   (idx + 2) (Js.get row sessionsIdx) st0))
      = st_findings st ++ dateFindings ++ fs ++ fu ++
        (if guard then integer_field_findings "pageviews"
                         "INVALID_PAGEVIEWS_VALUE" (idx + 2)
                         (Js.get row pageviewsIdx) else [])).
    { intros st0 dateFindings Hst0. rewrite Hp, !check_integer_field_findings.
      rewrite Hst0. by rewrite <- !app_assoc. }
    destruct dateOk; simpl.
    + destruct (bool_decide (_ ∈ _)) eqn:Hseen.
      * destruct (negb (flag (allowDuplicateDates options))) eqn:Hdup.
        -- eexists.
           split; [|split; [|apply Hshape; simpl; reflexivity]];
             [|simpl; lia].
           constructor; [|constructor]. simpl. split; [done|]. auto.
        -- exists []. split; [constructor|]. split; [simpl; lia|].
           apply Hshape. simpl. by rewrite app_nil_r.
      * exists []. split; [constructor|]. split; [simpl; lia|].
        apply Hshape. simpl. by rewrite app_nil_r.
    + eexists.
      split; [|split; [|apply Hshape; simpl; reflexivity]]; [|simpl; lia].
      constructor; [|constructor]. simpl. split; [done|]. auto.
Qed.

Lemma integer_field_findings_row name findingCode rowIndex value :
  In findingCode row_finding_codes ->
  Forall row_finding (integer_field_findings name findingCode rowIndex value).
Proof.
  intros Hin.
  destruct (integer_field_findings_cases name findingCode rowIndex value)
    as [[_ ->]|[_ (f & -> & Hl & Hc)]]; [constructor|].
  constructor; [|constructor]. split; [done|]. by rewrite Hc.
Qed.

Lemma validateRow_row_findings options dateIdx sessionsIdx usersIdx
    pageviewsIdx st row idx st' :
  validateRow options dateIdx sessionsIdx usersIdx pageviewsIdx st row idx
    = Normal st' ->
  exists new, st_findings st' = st_findings st ++ new /\ Forall row_finding new.
Proof.
  intros Hrow. apply validateRow_findings in Hrow
    as [(_ & f & -> & Hl & Hc)|(_ & dateFindings & Hd & _ & ->)].
  - exists [f]. split; [done|]. constructor; [|constructor].
    split; [done|]. rewrite Hc. simpl. auto.
  - eexists. split; [reflexivity|].
    repeat apply Forall_app_2.
    + eapply Forall_impl; [exact Hd|]. intros f [Hl Hc]. split; [done|].
      simpl in *. intuition.
    + apply integer_field_findings_row. simpl. auto.
    + apply integer_field_findings_row. simpl. auto 6.
    + destruct (_ && _ && _); [|constructor].
      apply integer_field_findings_row. simpl. auto 8.
Qed.

Lemma forEach_rows_findings options dateIdx sessionsIdx usersIdx pageviewsIdx
    dataRows :
  forall st idx st',
  forEach_rows (validateRow options dateIdx sessionsIdx usersIdx pageviewsIdx)
    st dataRows idx = Normal st' ->
  exists new, st_findings st' = st_findings st ++ new /\ Forall row_finding new.
Proof.
  induction dataRows as [|row rest IH]; intros st idx st'; simpl.
  - intros [= <-]. exists []. split; [by rewrite app_nil_r|constructor].
  - destruct (validateRow _ _ _ _ _ st row idx) as [st1|e] eqn:Hrow;
      simpl; [|discriminate].
    intros Hrest. apply validateRow_row_findings in Hrow as (new1 & Hst1 & Hnew1).
    apply IH in Hrest as (new2 & -> & Hnew2).
    exists (new1 ++ new2). split.
    + by rewrite Hst1, app_assoc.
    + by apply Forall_app_2.
Qed.

Lemma row_finding_emitted f : row_finding f -> emitted_finding f.
Proof.
  intros [Hl Hc]. split.
  - unfold emitted_codes. apply in_or_app. by right.
  - rewrite Hl. split; [discriminate|]. intros Heq. rewrite Heq in Hc.
    simpl in Hc. intuition discriminate.
Qed.

Lemma optional_header_findings_emitted headers options :
  Forall emitted_finding (optional_header_findings headers options).
Proof.
  unfold optional_header_findings. destruct (_ && _); constructor; [|constructor].
  split; simpl; [auto|done].
Qed.

Ltac emitted_error :=
  split; simpl; [auto 8|split; discriminate].

(** Every finding that the validator returns has one of the emitted codes. *)
Lemma validateGA4CSV_findings content options result :
  validateGA4CSV content options = Normal result ->
  Forall emitted_finding (findings result).
Proof.
  unfold validateGA4CSV.
  destruct (decodeContent content) as [csvText|e].
  2: { intros [= <-]. simpl. constructor; [emitted_error|constructor]. }
  destruct (parseCSV csvText) as [|headers dataRows] eqn:Hrows.
  { by apply parseCSV_not_empty in Hrows. }
  destruct (0 <? length _)%nat.
  { intros [= <-]. simpl. constructor; [emitted_error|constructor]. }
  fold (optional_header_findings headers options).
  change ([] ++ ?x) with x.
  destruct (_ <? _)%Z.
  { intros [= <-]. simpl. apply Forall_app_2.
    - unfold optional_header_findings.
      destruct (_ && _); simpl; constructor; [|constructor].
      split; simpl; [auto|done].
    - constructor; [emitted_error|constructor]. }
  destruct (forEach_rows _ _ _ _) as [st|e] eqn:Hloop; simpl; [|discriminate].
  apply forEach_rows_findings in Hloop as (new & Hst & Hnew). simpl in Hst.
  intros [= <-]. simpl.
  assert (Hbase : Forall emitted_finding (st_findings st)).
  { rewrite Hst. apply Forall_app_2.
    - unfold optional_header_findings.
      destruct (_ && _); simpl; constructor; [|constructor].
      split; simpl; [auto|done].
    - eapply Forall_impl; [exact Hnew|]. apply row_finding_emitted. }
  destruct (flag (requireSortedByDateAsc options) && _); [|done].
  destruct (some_differs _ _); [|done].
  apply Forall_app_2; [done|]. constructor; [emitted_error|constructor].
Qed.

(** The only throw of the validator is the RangeError of [toISOString] on a
    date that matches the pattern and is invalid. *)
Lemma isValidDate_throws dateStr e :
  isValidDate dateStr = Throw e ->
  e = RangeError "Invalid time value"
  /\ Js.test_iso_date (Js.ToString dateStr) = true
  /\ Js.Date_of_iso (Js.ToString dateStr) = None.
Proof.
  unfold isValidDate.
  destruct (Js.test_iso_date (Js.ToString dateStr)); simpl; [|discriminate].
  destruct (Js.Date_of_iso (Js.ToString dateStr)) as [tv|]; simpl.
  - unfold Js.toISOString.
    by destruct (Js.civil_from_days (tv / Js.msPerDay)) as [[y m] d].
  - by intros [= <-].
Qed.

Lemma validateRow_throws options dateIdx sessionsIdx usersIdx pageviewsIdx
    st row idx e :
  validateRow options dateIdx sessionsIdx usersIdx pageviewsIdx st row idx
    = Throw e ->
  isValidDate (Js.get row dateIdx) = Throw e.
Proof.
  unfold validateRow.
  destruct (length row <? length requiredHeaders)%nat; [discriminate|].
  destruct (isValidDate (Js.get row dateIdx)) as [dateOk|e0]; simpl;
    [discriminate|]. by intros [= <-].
Qed.

Lemma forEach_rows_throws options dateIdx sessionsIdx usersIdx pageviewsIdx
    dataRows :
  forall st idx e,
  forEach_rows (validateRow options dateIdx sessionsIdx usersIdx pageviewsIdx)
    st dataRows idx = Throw e ->
  exists row, In row dataRows /\ isValidDate (Js.get row dateIdx) = Throw e.
Proof.
  induction dataRows as [|row rest IH]; intros st idx e; simpl; [discriminate|].
  destruct (validateRow _ _ _ _ _ st row idx) as [st1|e1] eqn:Hrow; simpl.
  - intros (row' & Hin & Hthrow)%IH. exists row'. auto.
  - intros [= <-]. exists row. split; [by left|]. by eapply validateRow_throws.
Qed.

Lemma validateGA4CSV_throws content options e :
  validateGA4CSV content options = Throw e ->
  e = RangeError "Invalid time value".
Proof.
  unfold validateGA4CSV.
  destruct (decodeContent content) as [csvText|e0]; [|discriminate].
  destruct (parseCSV csvText) as [|headers dataRows]; [discriminate|].
  destruct (0 <? length _)%nat; [discriminate|].
  destruct (_ <? _)%Z; [discriminate|].
  destruct (forEach_rows _ _ _ _) as [st|e1] eqn:Hloop; simpl; [discriminate|].
  intros [= <-].
  apply forEach_rows_throws in Hloop as (row & _ & Hthrow).
  by apply isValidDate_throws in Hthrow as [-> _].
Qed.

End Validator.

Section ValidatorClaims.
Context `{Platform}.

(** C10. [parseCSV] returns at least one row for every text, so the
    EMPTY_CSV branch of the validator is never taken and no result carries
    that finding; the empty payload "text:" is reported as
    MISSING_REQUIRED_HEADERS with a row count of 0. *)
Theorem empty_csv_unreachable :
  (forall csvText, parseCSV csvText <> [])
  /\ (forall content options result,
        validateGA4CSV content options = Normal result ->
        forall f, In f (findings result) -> code f <> "EMPTY_CSV")
  /\ validateGA4CSV "text:" no_options
     = Normal
         (buildErrorResponse
            [{| level := error; code := "MISSING_REQUIRED_HEADERS";
                message := "Missing required headers: date, sessions, users";
                pointer := Some (PointerMissing ["date"; "sessions"; "users"]) |}]
            0).
Proof.
  split; [exact parseCSV_not_empty|]. split; [|reflexivity].
  intros content options result Hres f Hf Hcode.
  apply validateGA4CSV_findings in Hres.
  rewrite Forall_forall in Hres. apply list_elem_of_In in Hf.
  destruct (Hres f Hf) as [Hin _]. rewrite Hcode in Hin.
  simpl in Hin. intuition discriminate.
Qed.

(** C6, amended. Every finding that the validator returns carries a code of
    the table in which the ordering finding is NOT_SORTED_BY_DATE, and it is
    a warning exactly when its code is MISSING_OPTIONAL_HEADER. *)
Theorem findings_drawn_from_table content options result :
  validateGA4CSV content options = Normal result ->
  Forall (fun f => In (code f) finding_codes
                   /\ (level f = warning <-> code f = "MISSING_OPTIONAL_HEADER"))
    (findings result).
Proof.
  intros Hres. apply validateGA4CSV_findings in Hres.
  eapply Forall_impl; [exact Hres|]. intros f [Hin Hlevel]. split; [|done].
  simpl in Hin. simpl. intuition.
Qed.

(** C8. When the content decodes, its header row has the required headers
    and the data rows outnumber [maxRows] (100000 when the option is
    absent), the validator returns: after the optional-header warning, if
    any, exactly one MAX_ROWS_EXCEEDED error and no finding of a row; the
    row count of the summary is the number of data rows. *)
Theorem max_rows_exceeded content options csvText headers dataRows :
  decodeContent content = Normal csvText ->
  parseCSV csvText = headers :: dataRows ->
  Forall (fun h => Js.includes headers h = true) requiredHeaders ->
  (default DEFAULT_MAX_ROWS (maxRows options) < Z.of_nat (length dataRows))%Z ->
  exists result f,
    validateGA4CSV content options = Normal result
    /\ findings result = optional_header_findings headers options ++ [f]
    /\ code f = "MAX_ROWS_EXCEEDED" /\ level f = error
    /\ pointer f = Some (PointerMaxRows (default DEFAULT_MAX_ROWS (maxRows options))
                           (length dataRows))
    /\ rows (summary result) = length dataRows
    /\ valid (summary result) = false
    /\ issues (summary result) = 1.
Proof.
  intros Hdecode Hparse Hheaders Hmax.
  unfold validateGA4CSV. rewrite Hdecode, Hparse.
  assert (Hmissing :
    filter (fun h => negb (Js.includes headers h) = true) requiredHeaders = []).
  { unfold requiredHeaders in *.
    repeat match goal with
           | Hf : Forall _ (_ :: _) |- _ =>
               apply Forall_cons_1 in Hf as [? Hf]
           end.
    rewrite !filter_cons, filter_nil.
    repeat (destruct (decide _) as [Hd|_];
            [exfalso; revert Hd;
             repeat match goal with
                    | Hi : Js.includes _ _ = true |- _ => rewrite Hi; clear Hi
                    end; simpl; discriminate|]).
    done. }
  rewrite Hmissing. simpl (0 <? length [])%nat. cbv iota.
  fold (optional_header_findings headers options).
  change ([] ++ ?x) with x.
  apply Z.ltb_lt in Hmax. rewrite Hmax.
  eexists _, _. split; [reflexivity|]. simpl.
  split; [reflexivity|]. do 5 (split; [reflexivity|]).
  unfold optional_header_findings. destruct (_ && _); reflexivity.
Qed.

(** C3. The validator throws on a date whose month is 13: the text matches
    the pattern of [isValidDate], the date built from it is invalid, and
    [toISOString] raises a RangeError that nothing catches. *)
Theorem invalid_month_throws :
  validateGA4CSV ("text:date,sessions,users" +:+ LF +:+ "2024-13-01,100,50")
    no_options
  = Throw (RangeError "Invalid time value").
Proof. reflexivity. Qed.

End ValidatorClaims.

(** ** The integer check *)

Section IntegerCheck.

Lemma all_digits_uint s :
  Js.all_digits s = true ->
  exists d, NilEmpty.uint_of_string s = Some d
            /\ nb_digits d = String.length s.
Proof.
  induction s as [|c s IH]; simpl.
  - exists Nil. done.
  - intros [Hc Hs]%andb_prop. destruct (IH Hs) as (d & Hd & Hlen).
    rewrite Hd. unfold Js.is_digit in Hc.
    destruct c as [[|] [|] [|] [|] [|] [|] [|] [|]]; try discriminate Hc;
      simpl; eexists; (split; [reflexivity|]); simpl; by rewrite Hlen.
Qed.

Lemma of_lu_bound d : (DecimalPos.Unsigned.of_lu d < 10 ^ N.of_nat (nb_digits d))%N.
Proof.
  induction d; simpl nb_digits;
    rewrite ?Nat2N.inj_succ, ?N.pow_succ_r'; simpl DecimalPos.Unsigned.of_lu;
    try lia.
Qed.

Lemma of_uint_bound d : (N.of_uint d < 10 ^ N.of_nat (nb_digits d))%N.
Proof.
  unfold N.of_uint. rewrite DecimalPos.Unsigned.of_uint_alt.
  rewrite <- (nb_digits_rev d). apply of_lu_bound.
Qed.

Lemma digits_value_bound s :
  Js.all_digits s = true ->
  (Js.digits_value s < 10 ^ N.of_nat (String.length s))%N.
Proof.
  intros (d & Hd & Hlen)%all_digits_uint. unfold Js.digits_value.
  rewrite Hd, <- Hlen. apply of_uint_bound.
Qed.

Lemma string_of_uint_length d :
  String.length (NilEmpty.string_of_uint d) = nb_digits d.
Proof. induction d; simpl; congruence. Qed.

Lemma string_of_uint_inj d d' :
  NilEmpty.string_of_uint d = NilEmpty.string_of_uint d' -> d = d'.
Proof.
  intros Heq. apply (f_equal NilEmpty.uint_of_string) in Heq.
  rewrite !NilEmpty.usu in Heq. congruence.
Qed.

(** Printing the number that a digit string denotes gives the string back
    exactly when the string has no leading zero. *)
Lemma decimal_digits_value s :
  Js.test_digits s = true ->
  String.eqb (Js.decimal (Js.digits_value s)) s = no_leading_zero s.
Proof.
  intros Htest.
  assert (Hs : s <> "") by (by destruct s).
  assert (Hall : Js.all_digits s = true) by (by destruct s).
  destruct (all_digits_uint s Hall) as (d & Hd & Hlen).
  unfold Js.decimal, Js.digits_value. rewrite Hd.
  rewrite DecimalN.Unsigned.to_of.
  apply NilEmpty.sus in Hd. subst s.
  destruct d as [|d|d|d|d|d|d|d|d|d|d]; try done;
    try (simpl; rewrite String.eqb_refl; reflexivity).
  rewrite unorm_D0.
  assert (Hnil : d = Nil \/ d <> Nil) by (destruct d; [by left|by right..]).
  destruct Hnil as [->|Hd]; [reflexivity|].
  transitivity false.
  - apply String.eqb_neq. intros Heq.
    apply (f_equal String.length) in Heq.
    pose proof (nb_digits_unorm d Hd) as Hle.
    pose proof (unorm_nonnil d) as Hnn.
    assert (Hz : NilZero.string_of_uint (unorm d)
                 = NilEmpty.string_of_uint (unorm d)).
    { destruct (unorm d); done. }
    rewrite Hz, string_of_uint_length in Heq. simpl in Heq.
    rewrite string_of_uint_length in Heq. lia.
  - simpl. destruct (NilEmpty.string_of_uint d) eqn:Hstr; [|done].
    destruct d; done.
Qed.

Lemma pow10_15_lt_pow2_53 : (10 ^ 15 < 2 ^ 53)%N.
Proof. reflexivity. Qed.

Lemma isNonNegativeInteger_exact s :
  Js.test_digits s = true -> (Js.digits_value s < 2 ^ 53)%N ->
  isNonNegativeInteger (Some s) = no_leading_zero s.
Proof.
  intros Htest Hsmall. unfold isNonNegativeInteger. simpl Js.ToString.
  rewrite Htest. simpl negb. cbv iota.
  unfold Js.parseInt10, Js.round_to_double, Js.Number_toString.
  apply N.ltb_lt in Hsmall. rewrite Hsmall, Hsmall.
  by apply decimal_digits_value.
Qed.

(** Every digit string of at most 15 characters denotes a number that a
    double holds exactly. *)
Lemma isNonNegativeInteger_short s :
  Js.test_digits s = true -> String.length s <= 15 ->
  isNonNegativeInteger (Some s) = no_leading_zero s.
Proof.
  intros Htest Hlen. apply isNonNegativeInteger_exact; [done|].
  assert (Hall : Js.all_digits s = true) by (by destruct s).
  pose proof (digits_value_bound s Hall) as Hbound.
  eapply N.lt_le_trans; [exact Hbound|].
  etransitivity; [|apply N.lt_le_incl, pow10_15_lt_pow2_53].
  apply N.pow_le_mono_r; lia.
Qed.

(** Above 2^53 the check also rejects the literals that a double does not
    hold: 2^53 + 1 reads as 2^53 and prints differently. *)
Lemma isNonNegativeInteger_rounds :
  isNonNegativeInteger (Some "9007199254740992") = true
  /\ isNonNegativeInteger (Some "9007199254740993") = false
  /\ isNonNegativeInteger (Some "1000000000000000000000") = false.
Proof. split; [|split]; vm_compute; reflexivity. Qed.

(** C7, amended. The check accepts only strings of decimal digits; among
    the digit strings that denote a number below 2^53 (every string of at
    most 15 digits does) it accepts exactly those without a leading zero. A
    rejected value adds one finding with the code of its field and an
    accepted value none. In a row with enough columns whose date check
    returns, the callback runs the check on sessions and on users, and on
    pageviews when the column exists and the cell is not empty; in a row
    whose date check throws, the callback throws before it checks a
    number. *)
Theorem integer_check_accepts :
  (forall value,
      isNonNegativeInteger value = true ->
      Js.test_digits (Js.ToString value) = true)
  /\ (forall s,
        Js.test_digits s = true -> (Js.digits_value s < 2 ^ 53)%N ->
        isNonNegativeInteger (Some s) = no_leading_zero s)
  /\ (forall name findingCode rowIndex value,
        (isNonNegativeInteger value = true
         /\ integer_field_findings name findingCode rowIndex value = [])
        \/ (isNonNegativeInteger value = false
            /\ exists f,
                integer_field_findings name findingCode rowIndex value = [f]
                /\ level f = error /\ code f = findingCode))
  /\ (forall options dateIdx sessionsIdx usersIdx pageviewsIdx st row idx,
        3 <= length row ->
        match isValidDate (Js.get row dateIdx) with
        | Throw e =>
            validateRow options dateIdx sessionsIdx usersIdx pageviewsIdx
              st row idx = Throw e
        | Normal _ =>
            exists st' dateFindings,
              validateRow options dateIdx sessionsIdx usersIdx pageviewsIdx
                st row idx = Normal st'
              /\ Forall (fun f =>
                           In (code f) ["INVALID_DATE_FORMAT"; "DUPLICATE_DATE"])
                   dateFindings
              /\ st_findings st' =
                 st_findings st ++ dateFindings
                 ++ integer_field_findings "sessions" "INVALID_SESSIONS_VALUE"
                      (idx + 2) (Js.get row sessionsIdx)
                 ++ integer_field_findings "users" "INVALID_USERS_VALUE"
                      (idx + 2) (Js.get row usersIdx)
                 ++ (if (0 <=? pageviewsIdx)%Z
                        && bool_decide (Js.get row pageviewsIdx <> None)
                        && bool_decide (Js.get row pageviewsIdx <> Some "")
                     then integer_field_findings "pageviews"
                            "INVALID_PAGEVIEWS_VALUE" (idx + 2)
                            (Js.get row pageviewsIdx)
                     else [])
        end).
Proof.
  split; [|split; [exact isNonNegativeInteger_exact|split]].
  - intros value. unfold isNonNegativeInteger.
    by destruct (Js.test_digits (Js.ToString value)).
  - apply integer_field_findings_cases.
  - intros options dateIdx sessionsIdx usersIdx pageviewsIdx st row idx Hlen.
    assert (Hlong : (length row <? length requiredHeaders)%nat = false)
      by (apply Nat.ltb_ge; simpl; lia).
    destruct (isValidDate (Js.get row dateIdx)) as [dateOk|e] eqn:Hdate.
    + assert (Hreturns :
        exists st', validateRow options dateIdx sessionsIdx usersIdx
                      pageviewsIdx st row idx = Normal st').
      { unfold validateRow. rewrite Hlong, Hdate. cbn [cbind]. eauto. }
      destruct Hreturns as [st' Hrow]. exists st'.
      pose proof Hrow as Hfindings.
      apply validateRow_findings in Hfindings
        as [(Hshort & _)|(_ & dateFindings & Hd & _ & Hst)]; [lia|].
      exists dateFindings. split; [done|]. split; [|done].
      eapply Forall_impl; [exact Hd|]. by intros f [_ Hc].
    + unfold validateRow. by rewrite Hlong, Hdate.
Qed.

End IntegerCheck.

(** ** The validator on examples *)

Lemma empty_csv_unreachable_witness :
  parseCSV "" = [[""]]
  /\ code {| level := error; code := "MISSING_REQUIRED_HEADERS";
             message := "Missing required headers: date, sessions, users";
             pointer := Some (PointerMissing ["date"; "sessions"; "users"]) |}
     <> "EMPTY_CSV".
Proof.
  destruct (@empty_csv_unreachable example_platform) as (_ & Hnever & Hempty).
  split; [reflexivity|].
  apply (Hnever "text:" no_options _ Hempty). simpl. by left.
Defined.

(** C6 as stated fails: with the dates out of order and the ordering
    required, the validator returns a finding whose code, NOT_SORTED_BY_DATE,
    is not in the table of the specification. *)
Lemma findings_drawn_from_table_counterexample :
  exists result,
    @validateGA4CSV example_platform unsorted_content sorted_required
      = Normal result
    /\ exists f, In f (findings result)
                 /\ code f = "NOT_SORTED_BY_DATE"
                 /\ ~ In (code f) spec_finding_codes.
Proof.
  eexists. split; [vm_compute; reflexivity|].
  eexists. split; [right; left; reflexivity|].
  split; [reflexivity|]. simpl. intuition discriminate.
Qed.

Lemma findings_drawn_from_table_witness :
  Forall (fun f => In (code f) finding_codes
                   /\ (level f = warning <-> code f = "MISSING_OPTIONAL_HEADER"))
    [{| level := warning; code := "MISSING_OPTIONAL_HEADER";
        message := "Optional header " +:+ in_quotes "pageviews" +:+ " is missing";
        pointer := None |};
     {| level := error; code := "NOT_SORTED_BY_DATE";
        message := "Dates are not sorted in ascending order";
        pointer := None |}].
Proof.
  apply (@findings_drawn_from_table example_platform unsorted_content
           sorted_required
           {| summary := {| valid := false; issues := 1; warnings := 1; rows := 2 |};
              findings := _;
              normalized :=
                {| detectedHeaders := ["date"; "sessions"; "users"];
                   dateRange := Some {| range_start := "2024-01-02";
                                        range_end := "2024-01-01" |} |};
              idempotency := None |}).
  vm_compute. reflexivity.
Defined.

(** The specification's fourth example: a ceiling of 1 and 2 data rows. The
    second row is malformed in every field and no finding reports it. *)
Lemma max_rows_exceeded_witness :
  exists result f,
    @validateGA4CSV example_platform two_rows_content at_most_one_row
      = Normal result
    /\ findings result = [f]
    /\ code f = "MAX_ROWS_EXCEEDED" /\ level f = error
    /\ pointer f = Some (PointerMaxRows 1 2)
    /\ rows (summary result) = 2
    /\ valid (summary result) = false
    /\ issues (summary result) = 1.
Proof.
  apply (@max_rows_exceeded example_platform two_rows_content at_most_one_row
           (Js.substring_from 5 two_rows_content)
           ["date"; "sessions"; "users"; "pageviews"]
           [["2024-01-01"; "150"; "120"; "450"]; ["not-a-date"; "-5"; "x"; "y"]]).
  - vm_compute. reflexivity.
  - vm_compute. reflexivity.
  - repeat constructor.
  - vm_compute. reflexivity.
Defined.

(** C7 as stated fails: "007" matches [^\d+$] and the check rejects it. *)
Lemma integer_check_accepts_counterexample :
  Js.test_digits "007" = true /\ isNonNegativeInteger (Some "007") = false.
Proof. split; reflexivity. Qed.

Lemma integer_check_accepts_witness :
  Js.test_digits "150" = true
  /\ isNonNegativeInteger (Some "150") = true
  /\ isNonNegativeInteger (Some "007") = false.
Proof.
  destruct integer_check_accepts as (Hdigits & Hshort & _).
  split; [apply (Hdigits (Some "150")); reflexivity|].
  split.
  - apply (Hshort "150"); [reflexivity|vm_compute; reflexivity].
  - apply (Hshort "007"); [reflexivity|vm_compute; reflexivity].
Defined.

(** ** The call of the engine from [fetch] *)

Section EngineCall.
Context {P : Platform}.

Lemma call_performValidation_run req w :
  call_performValidation req w
  = (match performValidation req with
     | Normal response => Normal response
     | Throw e => Throw (ThrownError e)
     end,
     {| IDEMPOTENCY_KV := IDEMPOTENCY_KV w; Date_now := Date_now w;
        trace := trace w ++ [EngineInvoked (content req) (options req)] |}).
Proof.
  unfold call_performValidation, bind, log, lift. simpl.
  by destruct (performValidation req).
Qed.

End EngineCall.

(** ** The canonical form and the fingerprint *)

Section Fingerprint.
Context `{Platform}.

Lemma Json_nested_ind (P : Json -> Prop) :
  P JNull ->
  (forall b, P (JBool b)) ->
  (forall z, P (JNumber z)) ->
  (forall s, P (JString s)) ->
  (forall items, Forall P items -> P (JArray items)) ->
  (forall members, Forall (fun kv => P (snd kv)) members -> P (JObject members)) ->
  forall v, P v.
Proof.
  intros Hnull Hbool Hnumber Hstring Harray Hobject.
  fix IH 1. intros [|b|z|s|items|members].
  - exact Hnull.
  - apply Hbool.
  - apply Hnumber.
  - apply Hstring.
  - apply Harray. induction items as [|item items IHitems]; constructor.
    + apply IH.
    + exact IHitems.
  - apply Hobject.
    induction members as [|[k v] members IHmembers]; constructor.
    + simpl. apply IH.
    + exact IHmembers.
Qed.

Lemma member_map {A B} (f : A -> B) key (members : list (string * A)) :
  member key (map (fun '(k, v) => (k, f v)) members) = f <$> member key members.
Proof.
  induction members as [|[k v] members IH]; simpl; [done|].
  by destruct (String.eqb k key).
Qed.

Lemma member_Some_In {A} key (members : list (string * A)) v :
  member key members = Some v -> In (key, v) members.
Proof.
  induction members as [|[k v'] members IH]; simpl; [done|].
  destruct (String.eqb_spec k key) as [->|Hne].
  - intros [= ->]. by left.
  - intros Hm. right. by apply IH.
Qed.

Lemma member_is_Some {A} key (members : list (string * A)) :
  is_Some (member key members) <-> key ∈ map fst members.
Proof.
  induction members as [|[k v] members IH]; simpl.
  - split; [by intros [? ?]|by intros ?%elem_of_nil].
  - rewrite elem_of_cons. destruct (String.eqb_spec k key) as [->|Hne].
    + split; [by left|by eexists].
    + rewrite IH. split; [by right|]. intros [?|?]; [congruence|done].
Qed.

Lemma sort_Permutation_eq (keys1 keys2 : list string) :
  keys1 ≡ₚ keys2 -> Js.sort keys1 = Js.sort keys2.
Proof.
  intros Hperm. unfold Js.sort.
  apply (Sorted_unique String.le); try apply Sorted_merge_sort; try apply _.
  by rewrite !merge_sort_Permutation.
Qed.

Lemma same_members_keys members1 members2 :
  NoDup (map fst members1) -> NoDup (map fst members2) ->
  (forall k, option_Forall2 same_value (member k members1) (member k members2)) ->
  map fst members1 ≡ₚ map fst members2.
Proof.
  intros Hnd1 Hnd2 Hsame. apply NoDup_Permutation; [done..|].
  intros k. rewrite <- !member_is_Some.
  destruct (Hsame k); split; intros [? ?]; done.
Qed.

(** Two values with the same content have the same canonical form. *)
Lemma stableStringify_same v1 :
  forall v2, same_value v1 v2 ->
  stableStringify_value v1 = stableStringify_value v2.
Proof.
  induction v1 as [|b|z|s|items IH|members IH] using Json_nested_ind;
    intros v2 Hsame; inversion Hsame; subst; try reflexivity.
  - simpl. do 3 f_equal. clear Hsame.
    match goal with
    | Hf : Forall2 _ _ _ |- _ => induction Hf as [|???? Hxy Hrest IHrest]
    end; [done|].
    apply Forall_cons_1 in IH as [IHx IHxs]. simpl. f_equal; auto.
  - match goal with
    | Hnd1 : NoDup (map fst members), Hnd2 : NoDup (map fst ?m2),
      Hk : forall k, option_Forall2 _ _ _ |- _ =>
        pose proof (same_members_keys _ _ Hnd1 Hnd2 Hk) as Hperm;
        pose proof Hk as Hmembers
    end.
    simpl. rewrite (sort_Permutation_eq _ _ Hperm).
    do 3 f_equal. apply map_ext_in. intros key _.
    assert (Hvalue :
      stableStringify_value <$> member key members
      = stableStringify_value <$> member key members2).
    { specialize (Hmembers key).
      destruct (member key members) as [x|] eqn:Hx;
        inversion Hmembers as [x' y Hxy|]; subst; [|done].
      simpl. apply (f_equal Some).
      apply member_Some_In, list_elem_of_In in Hx.
      rewrite Forall_forall in IH. by apply (IH _ Hx). }
    by rewrite !member_map, Hvalue.
Qed.

Lemma truthy_same v1 v2 : same_value v1 v2 -> truthy v1 = truthy v2.
Proof. by destruct 1. Qed.

Lemma same_empty_object : same_value (JObject []) (JObject []).
Proof. constructor; [constructor..|]. intros k. constructor. Qed.

Lemma or_empty_object_same value1 value2 :
  option_Forall2 same_value value1 value2 ->
  same_value (or_empty_object value1) (or_empty_object value2).
Proof.
  intros [v1 v2 Hsame|]; simpl; [|apply same_empty_object].
  rewrite <- (truthy_same _ _ Hsame).
  destruct (truthy v1); [done|apply same_empty_object].
Qed.

(** C5. Two requests with the same type and content whose options and
    context hold the same members, in whatever order at whatever depth,
    have the same fingerprint. *)
Theorem fingerprint_ignores_key_order request1 request2 :
  same_request request1 request2 ->
  computeFingerprint request1 = computeFingerprint request2.
Proof.
  intros (Htype & Hcontent & Hoptions & Hcontext). unfold computeFingerprint.
  simpl stableStringify.
  rewrite Htype, Hcontent.
  rewrite (stableStringify_same _ _ (or_empty_object_same _ _ Hoptions)).
  by rewrite (stableStringify_same _ _ (or_empty_object_same _ _ Hcontext)).
Qed.

End Fingerprint.

(** Concrete values compared member by member. *)
Ltac same_json :=
  lazymatch goal with
  | |- same_value (JObject _) (JObject _) =>
      apply same_object;
      [ apply (bool_decide_unpack _); vm_compute; exact I
      | apply (bool_decide_unpack _); vm_compute; exact I
      | let k := fresh "k" in
        intros k; cbn [member];
        repeat match goal with
               | |- context [String.eqb ?a ?b] =>
                   first
                     [ is_var b; destruct (String.eqb_spec a b); subst;
                       try discriminate
                     | let r := eval vm_compute in (String.eqb a b) in
                       change (String.eqb a b) with r; cbv iota ]
               end;
        same_json ]
  | |- same_value (JArray _) (JArray _) =>
      apply same_array; repeat (constructor; [same_json|]); constructor
  | |- same_value _ _ => constructor
  | |- option_Forall2 _ (Some _) (Some _) => constructor; same_json
  | |- option_Forall2 _ None None => constructor
  end.

Lemma fingerprint_ignores_key_order_witness :
  @computeFingerprint example_platform
    {| type := "csv.timeseries.ga4.v1"; content := content readme_request;
       options := Some (JObject [("maxRows", JNumber 10);
                                 ("allowDuplicateDates", JBool true)]);
       context := Some (JObject [("source", JString "nightly");
                                 ("run", JObject [("id", JString "7");
                                                  ("shard", JString "b")])]) |}
  = @computeFingerprint example_platform
      {| type := "csv.timeseries.ga4.v1"; content := content readme_request;
         options := Some (JObject [("allowDuplicateDates", JBool true);
                                   ("maxRows", JNumber 10)]);
         context := Some (JObject [("run", JObject [("shard", JString "b");
                                                    ("id", JString "7")]);
                                    ("source", JString "nightly")]) |}.
Proof.
  apply fingerprint_ignores_key_order.
  split; [reflexivity|]. split; [reflexivity|]. simpl.
  split; same_json.
Defined.

(** ** The idempotency protocol of [fetch], with the fingerprint-record
       middleware *)

Section Protocol.
Context `{Platform}.

Lemma eqb_false_of_ne s : s <> "" -> String.eqb s "" = false.
Proof. by intros ?%String.eqb_neq. Qed.

Lemma fingerprint_name_not_response_name h k h' k' f :
  FingerprintRecord.fingerprint_name h k <> response_name h' k' f.
Proof. unfold FingerprintRecord.fingerprint_name, response_name. discriminate. Qed.

Lemma engine_invocations_app events1 events2 :
  engine_invocations (events1 ++ events2)
  = engine_invocations events1 + engine_invocations events2.
Proof.
  unfold engine_invocations. by rewrite List.filter_app, length_app.
Qed.

Lemma engine_invocations_cons ev events :
  engine_invocations (ev :: events)
  = (if is_engine_invocation ev then 1 else 0) + engine_invocations events.
Proof. unfold engine_invocations. simpl. by destruct (is_engine_invocation ev). Qed.

Lemma engine_invocations_nil : engine_invocations [] = 0.
Proof. reflexivity. Qed.

(** A request under a token that has no fingerprint record: the engine
    runs, and its marked result is stored and returned. *)
Lemma fetch_fresh R T apiKey requestId result w :
  type R <> "" -> content R <> "" -> T <> "" -> Js.trim apiKey <> "" ->
  IDEMPOTENCY_KV w
    !! FingerprintRecord.fingerprint_name (sha256 (Js.trim apiKey)) T = None ->
  performValidation R = Normal result ->
  let marked := set_idempotency result (Some {| key := T; replayed := false |}) in
  fetch fingerprint_record_middleware (handle_call R T apiKey requestId) w
  = (Normal (addTraceabilityHeaders
               (jsonResponse (BodyValidation marked) (status_of marked))
               requestId),
     after_commit T (sha256 (Js.trim apiKey)) (computeFingerprint R) marked
       [KvGet (FingerprintRecord.fingerprint_name (sha256 (Js.trim apiKey)) T);
        EngineInvoked (content R) (options R);
        KvPut (response_name (sha256 (Js.trim apiKey)) T (computeFingerprint R));
        KvPut (FingerprintRecord.fingerprint_name (sha256 (Js.trim apiKey)) T)]
       w).
Proof.
  intros Htype Hcontent HT Hkey Hfresh Hresult marked.
  unfold fetch, validate_route, catch, bind. simpl.
  rewrite (eqb_false_of_ne _ Htype), (eqb_false_of_ne _ Hcontent).
  rewrite (eqb_false_of_ne _ HT), (eqb_false_of_ne _ Hkey). simpl.
  unfold FingerprintRecord.checkIdempotency, kv_get_text, bind, log, ret. simpl.
  rewrite Hfresh. simpl.
  unfold call_performValidation, bind, log, lift. simpl. rewrite Hresult.
  unfold ret. simpl.
  unfold FingerprintRecord.storeIdempotentResponse, kv_put, bind, now, log.
  simpl. unfold after_commit. simpl.
  by rewrite <- !app_assoc.
Qed.

(** A request whose fingerprint and response are on record: the stored
    response is returned with the replay mark, and the engine does not run. *)
Lemma fetch_replay R T apiKey requestId metadata ttl1 ttl2 w :
  type R <> "" -> content R <> "" -> T <> "" -> Js.trim apiKey <> "" ->
  computeFingerprint R <> "" ->
  IDEMPOTENCY_KV w
    !! FingerprintRecord.fingerprint_name (sha256 (Js.trim apiKey)) T
    = Some {| kv_value := KvText (computeFingerprint R); expirationTtl := ttl1 |} ->
  IDEMPOTENCY_KV w
    !! response_name (sha256 (Js.trim apiKey)) T (computeFingerprint R)
    = Some {| kv_value := KvJson metadata; expirationTtl := ttl2 |} ->
  let replayed := set_idempotency (meta_response metadata) (replayed_mark T) in
  fetch fingerprint_record_middleware (handle_call R T apiKey requestId) w
  = (Normal (addTraceabilityHeaders
               (jsonResponse (BodyValidation replayed) (status_of replayed))
               requestId),
     with_events
       [KvGet (FingerprintRecord.fingerprint_name (sha256 (Js.trim apiKey)) T);
        KvGet (response_name (sha256 (Js.trim apiKey)) T (computeFingerprint R))]
       w).
Proof.
  intros Htype Hcontent HT Hkey Hfp Hrecord Hresponse replayed.
  unfold fetch, validate_route, catch, bind. simpl.
  rewrite (eqb_false_of_ne _ Htype), (eqb_false_of_ne _ Hcontent).
  rewrite (eqb_false_of_ne _ HT), (eqb_false_of_ne _ Hkey). simpl.
  unfold FingerprintRecord.checkIdempotency, kv_get_text, kv_get_json,
    bind, log, ret. simpl.
  rewrite Hrecord. simpl.
  rewrite (eqb_false_of_ne _ Hfp), String.eqb_refl. simpl.
  rewrite Hresponse. simpl. unfold with_events. simpl.
  by rewrite <- !app_assoc.
Qed.


Lemma status_of_set_idempotency response mark :
  status_of (set_idempotency response mark) = status_of response.
Proof. by destruct response. Qed.

Lemma payload_set_idempotency response mark :
  payload (set_idempotency response mark) = payload response.
Proof. by destruct response. Qed.

Lemma response_idempotency_set response mark :
  response_idempotency (set_idempotency response mark) = mark.
Proof. by destruct response. Qed.

(** A request under a token that has no fingerprint record, on which the
    engine throws: the handler of [fetch] answers 500, and nothing is
    stored. *)
Lemma fetch_engine_throws R T apiKey requestId e w :
  type R <> "" -> content R <> "" -> T <> "" -> Js.trim apiKey <> "" ->
  IDEMPOTENCY_KV w
    !! FingerprintRecord.fingerprint_name (sha256 (Js.trim apiKey)) T = None ->
  performValidation R = Throw e ->
  fetch fingerprint_record_middleware (handle_call R T apiKey requestId) w
  = (Normal (addTraceabilityHeaders
               (jsonResponse
                  (BodyError "INTERNAL_ERROR" "An internal error occurred"
                     (Some requestId)) 500)
               requestId),
     with_events
       [KvGet (FingerprintRecord.fingerprint_name (sha256 (Js.trim apiKey)) T);
        EngineInvoked (content R) (options R)]
       w).
Proof.
  intros Htype Hcontent HT Hkey Hfresh Hresult.
  unfold fetch, validate_route, catch, bind. simpl.
  rewrite (eqb_false_of_ne _ Htype), (eqb_false_of_ne _ Hcontent).
  rewrite (eqb_false_of_ne _ HT), (eqb_false_of_ne _ Hkey). simpl.
  unfold FingerprintRecord.checkIdempotency, kv_get_text, bind, log, ret. simpl.
  rewrite Hfresh. simpl.
  unfold call_performValidation, bind, log, lift. simpl. rewrite Hresult.
  unfold ret, with_events. simpl.
  by rewrite <- !app_assoc.
Qed.

(** C1, amended. Under a non-empty token that has no record yet, for a
    request with a type and a content, two calls in sequence (the second at
    any later time, under any request id) are both answered. When the
    engine returns a response for the request, the two answers have the
    same status and the same result payload, the first marked
    [replayed = false] and the second [replayed = true], and the engine
    runs once, in the first call. When the engine throws on the request,
    both calls are answered 500 INTERNAL_ERROR, nothing is stored and the
    engine runs in each call. *)
Theorem idempotent_replay R T apiKey requestId1 requestId2 t w :
  digest_nonempty ->
  type R <> "" -> content R <> "" -> T <> "" -> Js.trim apiKey <> "" ->
  IDEMPOTENCY_KV w
    !! FingerprintRecord.fingerprint_name (sha256 (Js.trim apiKey)) T = None ->
  exists r1 w1 r2 w2,
    fetch fingerprint_record_middleware (handle_call R T apiKey requestId1) w
      = (Normal r1, w1)
    /\ fetch fingerprint_record_middleware (handle_call R T apiKey requestId2)
         (at_time t w1) = (Normal r2, w2)
    /\ match performValidation R with
       | Normal result =>
           exists response1 response2,
             body r1 = BodyValidation response1
             /\ body r2 = BodyValidation response2
             /\ payload response1 = payload result
             /\ payload response2 = payload result
             /\ status r1 = status r2
             /\ response_idempotency response1
                = Some {| key := T; replayed := false |}
             /\ response_idempotency response2
                = Some {| key := T; replayed := true |}
             /\ engine_invocations (trace w1) = S (engine_invocations (trace w))
             /\ engine_invocations (trace w2) = engine_invocations (trace w1)
       | Throw _ =>
           body r1 = BodyError "INTERNAL_ERROR" "An internal error occurred"
                       (Some requestId1)
           /\ body r2 = BodyError "INTERNAL_ERROR" "An internal error occurred"
                          (Some requestId2)
           /\ status r1 = 500%Z /\ status r2 = 500%Z
           /\ IDEMPOTENCY_KV w2 = IDEMPOTENCY_KV w
           /\ engine_invocations (trace w1) = S (engine_invocations (trace w))
           /\ engine_invocations (trace w2) = S (engine_invocations (trace w1))
       end.
Proof.
  intros Hdigest Htype Hcontent HT Hkey Hfresh.
  destruct (performValidation R) as [result|e] eqn:Hresult.
  - eexists _, _, _, _.
    split; [by apply fetch_fresh|].
    split.
    { eapply fetch_replay; try done.
      - apply Hdigest.
      - simpl. apply lookup_insert_eq.
      - simpl. rewrite lookup_insert_ne
          by apply fingerprint_name_not_response_name.
        apply lookup_insert_eq. }
    eexists _, _. simpl. split; [reflexivity|]. split; [reflexivity|].
    rewrite !payload_set_idempotency, !status_of_set_idempotency,
      !response_idempotency_set.
    do 5 (split; [reflexivity|]).
    rewrite !engine_invocations_app, !engine_invocations_cons,
      engine_invocations_nil. simpl. lia.
  - eexists _, _, _, _.
    split; [by eapply fetch_engine_throws|].
    split; [by eapply fetch_engine_throws|].
    simpl. do 5 (split; [reflexivity|]).
    rewrite !engine_invocations_app, !engine_invocations_cons,
      engine_invocations_nil. simpl. lia.
Qed.

End Protocol.

(** ** The protocol on examples *)

Lemma example_digest_nonempty : @digest_nonempty example_platform.
Proof. intros s. discriminate. Qed.

(** On the request of C3, [fetch] answers 500 and stores nothing, so a retry
    under the same token runs the engine again. *)
Lemma invalid_month_internal_error :
  fst (@fetch example_platform (@fingerprint_record_middleware example_platform)
         (handle_call invalid_month_request "retry-1" "key-1" "request-1")
         (empty_world 0))
  = Normal
      (addTraceabilityHeaders
         (jsonResponse
            (BodyError "INTERNAL_ERROR" "An internal error occurred"
               (Some "request-1")) 500)
         "request-1")
  /\ IDEMPOTENCY_KV
       (snd (@fetch example_platform
               (@fingerprint_record_middleware example_platform)
               (handle_call invalid_month_request "retry-1" "key-1" "request-1")
               (empty_world 0)))
     = ∅.
Proof. split; vm_compute; reflexivity. Qed.

(** ** The two versions of the middleware *)

Section Versions.
Context `{Platform}.

(** *** Names of records *)

Lemma colon_split x : forall x' r r',
  colon_free x = true -> colon_free x' = true ->
  x +:+ ":" +:+ r = x' +:+ ":" +:+ r' -> x = x' /\ r = r'.
Proof.
  induction x as [|c x IH]; intros [|c' x'] r r' Hx Hx' Heq; simpl in *.
  - by injection Heq.
  - injection Heq as <- _. simpl in Hx'. discriminate.
  - injection Heq as -> _. simpl in Hx. discriminate.
  - injection Heq as -> Heq.
    apply andb_prop in Hx as [_ Hx]. apply andb_prop in Hx' as [_ Hx'].
    destruct (IH _ _ _ Hx Hx' Heq) as [-> ->]. done.
Qed.

Lemma append_String a s t : String a s +:+ t = String a (s +:+ t).
Proof. reflexivity. Qed.

Lemma append_empty t : "" +:+ t = t.
Proof. reflexivity. Qed.

Lemma prefix_String a s b t :
  String.prefix (String a s) (String b t)
  = if ascii_dec a b then String.prefix s t else false.
Proof. reflexivity. Qed.

Lemma colon_prefix x : forall x' r r',
  colon_free x = true -> colon_free x' = true ->
  String.prefix (x +:+ ":" +:+ r) (x' +:+ ":" +:+ r') = true ->
  x = x' /\ String.prefix r r' = true.
Proof.
  induction x as [|c x IH]; intros [|c' x'] r r' Hx Hx' Hp;
    rewrite ?append_String, ?append_empty, ?append_String in Hp;
    rewrite prefix_String in Hp; cbn [colon_free] in Hx, Hx'.
  - destruct (ascii_dec ":" ":"); done.
  - destruct (ascii_dec ":" c') as [<-|]; [|done].
    simpl in Hx'. discriminate.
  - destruct (ascii_dec c ":") as [->|]; [|done].
    simpl in Hx. discriminate.
  - destruct (ascii_dec c c') as [->|]; [|done].
    apply andb_prop in Hx as [_ Hx]. apply andb_prop in Hx' as [_ Hx'].
    destruct (IH _ _ _ Hx Hx' Hp) as [-> ?]. done.
Qed.

Lemma prefix_append p s : String.prefix p (p +:+ s) = true.
Proof.
  induction p as [|c p IH]; [by destruct s|].
  rewrite append_String, prefix_String.
  by destruct (ascii_dec c c).
Qed.

Lemma prefix_append_both p a b :
  String.prefix a b = true -> String.prefix (p +:+ a) (p +:+ b) = true.
Proof.
  intros Hab. induction p as [|c p IH]; [done|].
  rewrite !append_String, prefix_String. by destruct (ascii_dec c c).
Qed.

Lemma response_name_inj h k f h' k' f' :
  colon_free h = true -> colon_free h' = true ->
  colon_free k = true -> colon_free k' = true ->
  response_name h k f = response_name h' k' f' ->
  h = h' /\ k = k' /\ f = f'.
Proof.
  intros Hh Hh' Hk Hk' Heq. unfold response_name in Heq. simpl in Heq.
  injection Heq as Heq.
  apply colon_split in Heq as [-> Heq]; [|done..].
  apply colon_split in Heq as [-> ->]; done.
Qed.

Lemma fingerprint_name_inj h k h' k' :
  colon_free h = true -> colon_free h' = true ->
  FingerprintRecord.fingerprint_name h k = FingerprintRecord.fingerprint_name h' k' ->
  h = h' /\ k = k'.
Proof.
  intros Hh Hh' Heq. unfold FingerprintRecord.fingerprint_name in Heq.
  simpl in Heq. injection Heq as Heq.
  by apply colon_split in Heq.
Qed.

Lemma list_prefix_response_name h k h' k' f' :
  colon_free h = true -> colon_free h' = true ->
  colon_free k = true -> colon_free k' = true ->
  String.prefix (list_prefix h k) (response_name h' k' f') = true ->
  h = h' /\ k = k'.
Proof.
  intros Hh Hh' Hk Hk' Hp. unfold list_prefix, response_name in Hp.
  rewrite !append_String, !append_empty, !prefix_String in Hp.
  repeat (destruct (ascii_dec _ _) in Hp; [|done]).
  apply colon_prefix in Hp as [-> Hp]; [|done..].
  change (k +:+ ":") with (k +:+ ":" +:+ "") in Hp.
  apply colon_prefix in Hp as [-> _]; done.
Qed.

Lemma list_prefix_of_response_name h k f :
  String.prefix (list_prefix h k) (response_name h k f) = true.
Proof.
  unfold list_prefix, response_name.
  do 4 apply prefix_append_both. apply prefix_append.
Qed.

(** *** The two versions, run *)

Lemma list_nonempty_iff (kv : gmap string KvEntry) p :
  (0 <? length (filter (fun name => String.prefix p name = true)
                  (map fst (map_to_list kv))))%nat = true
  <-> exists name e, kv !! name = Some e /\ String.prefix p name = true.
Proof.
  split.
  - intros Hlen%Nat.ltb_lt.
    destruct (filter _ _) as [|name names] eqn:Hfilter; [simpl in Hlen; lia|].
    assert (Hin : name ∈ filter (fun name => String.prefix p name = true)
                            (map fst (map_to_list kv))).
    { rewrite Hfilter. left. }
    apply list_elem_of_filter in Hin as [Hp Hin].
    apply list_elem_of_In, in_map_iff in Hin as ([name' e] & <- & Hin).
    apply list_elem_of_In, elem_of_map_to_list in Hin. by exists name', e.
  - intros (name & e & Hlookup & Hp). apply Nat.ltb_lt.
    assert (Hin : name ∈ filter (fun name => String.prefix p name = true)
                            (map fst (map_to_list kv))).
    { apply list_elem_of_filter. split; [done|].
      apply list_elem_of_In, in_map_iff. exists (name, e). split; [done|].
      by apply list_elem_of_In, elem_of_map_to_list. }
    destruct (filter _ _); [by apply elem_of_nil in Hin|simpl; lia].
Qed.

Lemma ListPrefix_check_run k a f rid w :
  ListPrefix.checkIdempotency k a f rid w
  = match IDEMPOTENCY_KV w !! response_name (sha256 a) k f with
    | Some {| kv_value := KvJson metadata |} =>
        (Normal (Some (set_idempotency (meta_response metadata) (replayed_mark k))),
         with_events [KvGet (response_name (sha256 a) k f)] w)
    | Some {| kv_value := KvText _ |} =>
        (Throw (ThrownError (Error "SyntaxError: Unexpected token")),
         with_events [KvGet (response_name (sha256 a) k f)] w)
    | None =>
        (if (0 <? length (filter (fun name => String.prefix (list_prefix (sha256 a) k) name = true)
                            (map fst (map_to_list (IDEMPOTENCY_KV w)))))%nat
         then Throw (ThrownResponse (conflict_response rid))
         else Normal None,
         with_events [KvGet (response_name (sha256 a) k f);
                      KvList (list_prefix (sha256 a) k)] w)
    end.
Proof.
  unfold ListPrefix.checkIdempotency, kv_get_json, kv_list, bind, log, ret,
    throw, with_events. simpl.
  destruct (IDEMPOTENCY_KV w !! _) as [[[m|text] ttl]|]; simpl; [done..|].
  fold (list_prefix (sha256 a) k).
  destruct (0 <? _)%nat; simpl; by rewrite <- app_assoc.
Qed.

Lemma FingerprintRecord_check_run k a f rid w :
  FingerprintRecord.checkIdempotency k a f rid w
  = match IDEMPOTENCY_KV w !! FingerprintRecord.fingerprint_name (sha256 a) k with
    | None =>
        (Normal None,
         with_events [KvGet (FingerprintRecord.fingerprint_name (sha256 a) k)] w)
    | Some {| kv_value := KvJson _ |} =>
        (Throw (ThrownError (TypeError "JSON record read as text")),
         with_events [KvGet (FingerprintRecord.fingerprint_name (sha256 a) k)] w)
    | Some {| kv_value := KvText stored |} =>
        if String.eqb stored "" then
          (Normal None,
           with_events [KvGet (FingerprintRecord.fingerprint_name (sha256 a) k)] w)
        else if negb (String.eqb stored f) then
          (Throw (ThrownResponse (conflict_response rid)),
           with_events [KvGet (FingerprintRecord.fingerprint_name (sha256 a) k)] w)
        else
          match IDEMPOTENCY_KV w !! response_name (sha256 a) k f with
          | Some {| kv_value := KvJson metadata |} =>
              (Normal (Some (set_idempotency (meta_response metadata)
                               (replayed_mark k))),
               with_events
                 [KvGet (FingerprintRecord.fingerprint_name (sha256 a) k);
                  KvGet (response_name (sha256 a) k f)] w)
          | Some {| kv_value := KvText _ |} =>
              (Throw (ThrownError (Error "SyntaxError: Unexpected token")),
               with_events
                 [KvGet (FingerprintRecord.fingerprint_name (sha256 a) k);
                  KvGet (response_name (sha256 a) k f)] w)
          | None =>
              (Normal None,
               with_events
                 [KvGet (FingerprintRecord.fingerprint_name (sha256 a) k);
                  KvGet (response_name (sha256 a) k f)] w)
          end
    end.
Proof.
  unfold FingerprintRecord.checkIdempotency, kv_get_text, kv_get_json, bind,
    log, ret, throw, with_events. simpl.
  destruct (IDEMPOTENCY_KV w !! FingerprintRecord.fingerprint_name _ _)
    as [[[m|stored] ttl]|]; simpl; [done| |done].
  destruct (String.eqb stored ""); simpl; [done|].
  destruct (negb (String.eqb stored f)); simpl; [done|].
  destruct (IDEMPOTENCY_KV w !! response_name _ _ _) as [[[m|text] ttl']|];
    simpl; by rewrite <- app_assoc.
Qed.

Lemma ListPrefix_store_run k a f response w :
  ListPrefix.storeIdempotentResponse k a f response w
  = (Normal tt,
     {| IDEMPOTENCY_KV :=
          <[ response_name (sha256 a) k f :=
               json_entry {| meta_key := k; meta_fingerprint := f;
                             meta_response := response;
                             meta_timestamp := Date_now w |} ]>
            (IDEMPOTENCY_KV w);
        Date_now := Date_now w;
        trace := trace w ++ [KvPut (response_name (sha256 a) k f)] |}).
Proof. reflexivity. Qed.

Lemma FingerprintRecord_store_run k a f response w :
  FingerprintRecord.storeIdempotentResponse k a f response w
  = (Normal tt,
     after_commit k (sha256 a) f response
       [KvPut (response_name (sha256 a) k f);
        KvPut (FingerprintRecord.fingerprint_name (sha256 a) k)] w).
Proof.
  unfold FingerprintRecord.storeIdempotentResponse, kv_put, bind, now, log,
    after_commit. simpl. by rewrite <- app_assoc.
Qed.

(** *** Replay with the list-prefix version *)

(** X28. Replay with the list-prefix version of the middleware: when no
    record name starts with the prefix of the token, a first request under
    the token is answered with the result of the engine marked
    [replayed = false], and the same request under the same token is then
    answered with the same result and status, marked [replayed = true],
    without a call of the engine. *)
Lemma idempotent_replay_list_prefix R T apiKey result requestId1 requestId2 t w :
  type R <> "" -> content R <> "" -> T <> "" -> Js.trim apiKey <> "" ->
  (forall name e,
      IDEMPOTENCY_KV w !! name = Some e ->
      String.prefix (list_prefix (sha256 (Js.trim apiKey)) T) name = false) ->
  performValidation R = Normal result ->
  exists w1 w2,
    fetch list_prefix_middleware (handle_call R T apiKey requestId1) w
    = (Normal (addTraceabilityHeaders
                 (jsonResponse
                    (BodyValidation
                       (set_idempotency result
                          (Some {| key := T; replayed := false |})))
                    (status_of result)) requestId1), w1)
    /\ fetch list_prefix_middleware (handle_call R T apiKey requestId2)
         (at_time t w1)
       = (Normal (addTraceabilityHeaders
                    (jsonResponse
                       (BodyValidation
                          (set_idempotency result
                             (Some {| key := T; replayed := true |})))
                       (status_of result)) requestId2), w2)
    /\ engine_invocations (trace w2) = engine_invocations (trace w1).
Proof.
  intros Htype Hcontent HT Hkey Hfresh Hresult.
  assert (Hexact :
    IDEMPOTENCY_KV w
      !! response_name (sha256 (Js.trim apiKey)) T (computeFingerprint R) = None).
  { destruct (IDEMPOTENCY_KV w !! _) as [e|] eqn:Hname; [|done].
    specialize (Hfresh _ _ Hname).
    by rewrite list_prefix_of_response_name in Hfresh. }
  assert (Hlist :
    (0 <? length (filter (fun name =>
                            String.prefix (list_prefix (sha256 (Js.trim apiKey)) T)
                              name = true)
                    (map fst (map_to_list (IDEMPOTENCY_KV w)))))%nat = false).
  { destruct (0 <? _)%nat eqn:Hsome; [|done].
    apply list_nonempty_iff in Hsome as (name & e & Hname & Hprefix).
    by rewrite (Hfresh _ _ Hname) in Hprefix. }
  eexists _, _. split; [|split].
  - unfold fetch, validate_route, catch, bind. simpl.
    rewrite (eqb_false_of_ne _ Htype), (eqb_false_of_ne _ Hcontent).
    rewrite (eqb_false_of_ne _ HT), (eqb_false_of_ne _ Hkey). simpl.
    rewrite ListPrefix_check_run, Hexact, Hlist. simpl.
    unfold call_performValidation, bind, log, lift. simpl.
    rewrite Hresult. unfold ret. simpl.
    by rewrite status_of_set_idempotency.
  - unfold fetch, validate_route, catch, bind. simpl.
    rewrite (eqb_false_of_ne _ Htype), (eqb_false_of_ne _ Hcontent).
    rewrite (eqb_false_of_ne _ HT), (eqb_false_of_ne _ Hkey). simpl.
    rewrite ListPrefix_check_run. simpl.
    rewrite lookup_insert_eq. simpl.
    rewrite 2!status_of_set_idempotency.
    destruct result; reflexivity.
  - simpl.
    rewrite !engine_invocations_app, !engine_invocations_cons,
      engine_invocations_nil. simpl. lia.
Qed.

(** *** Agreement *)

Lemma check_worlds_agree k a f rid w1 w2 :
  worlds_agree w1 w2 ->
  worlds_agree (snd (ListPrefix.checkIdempotency k a f rid w1))
    (snd (FingerprintRecord.checkIdempotency k a f rid w2)).
Proof.
  intros [Hnow Hkv].
  rewrite ListPrefix_check_run, FingerprintRecord_check_run.
  destruct (IDEMPOTENCY_KV w1 !! _) as [[[m|text] ttl]|];
    destruct (IDEMPOTENCY_KV w2 !! FingerprintRecord.fingerprint_name _ _)
      as [[[m2|stored] ttl2]|];
    try destruct (String.eqb stored "");
    try destruct (negb (String.eqb stored f));
    try destruct (IDEMPOTENCY_KV w2 !! response_name _ _ _)
      as [[[m3|text3] ttl3]|];
    done.
Qed.

Lemma check_outcomes_agree k a f rid w1 w2 :
  digest_colon_free ->
  worlds_agree w1 w2 ->
  colon_free k = true -> colon_free f = true -> f <> "" ->
  outcome_of (fst (ListPrefix.checkIdempotency k a f rid w1))
  = outcome_of (fst (FingerprintRecord.checkIdempotency k a f rid w2)).
Proof.
  intros Hdigest [_ [Hleft Hright]] Hk Hf Hne.
  rewrite ListPrefix_check_run, FingerprintRecord_check_run.
  destruct (IDEMPOTENCY_KV w1 !! response_name (sha256 a) k f) as [e|] eqn:Hexact.
  - (* the response is on record in the first store *)
    destruct (Hleft _ _ Hexact)
      as (a' & k' & f' & m & Hname & Hk' & Hf' & Hne' & -> & Hin2 & Hfp2).
    apply response_name_inj in Hname as (Ha & <- & <-); [|done..].
    rewrite <- Ha in Hfp2. rewrite Hfp2, Hin2. simpl.
    apply String.eqb_neq in Hne. rewrite Hne, String.eqb_refl. done.
  - destruct (0 <? _)%nat eqn:Hlist.
    + (* another response of the key is on record *)
      apply list_nonempty_iff in Hlist as (name & e & Hname & Hprefix).
      destruct (Hleft _ _ Hname)
        as (a' & k' & f' & m & -> & Hk' & Hf' & Hne' & -> & Hin2 & Hfp2).
      apply list_prefix_response_name in Hprefix as [Ha <-]; [|done..].
      rewrite <- Ha in Hfp2, Hname. rewrite Hfp2. simpl.
      apply String.eqb_neq in Hne'. rewrite Hne'.
      assert (Hdiff : f' <> f) by (intros ->; congruence).
      apply String.eqb_neq in Hdiff. rewrite Hdiff. done.
    + (* nothing is on record for the key *)
      destruct (IDEMPOTENCY_KV w2 !! FingerprintRecord.fingerprint_name _ _)
        as [e|] eqn:Hfp2; [|done].
      destruct (Hright _ _ _ Hk Hfp2) as (f' & -> & [e1 Hin1]).
      assert (Hsome : (0 <? length
                         (filter (fun name => String.prefix (list_prefix (sha256 a) k) name = true)
                            (map fst (map_to_list (IDEMPOTENCY_KV w1)))))%nat = true).
      { apply list_nonempty_iff. exists (response_name (sha256 a) k f'), e1.
        split; [done|]. apply list_prefix_of_response_name. }
      congruence.
Qed.

(** The first version misses only when no response of the key is on record. *)
Lemma ListPrefix_miss k a f rid w :
  is_miss (outcome_of (fst (ListPrefix.checkIdempotency k a f rid w))) = true ->
  forall name e,
    IDEMPOTENCY_KV w !! name = Some e ->
    String.prefix (list_prefix (sha256 a) k) name = false.
Proof.
  rewrite ListPrefix_check_run.
  destruct (IDEMPOTENCY_KV w !! _) as [[[m|text] ttl]|]; [done..|].
  destruct (0 <? _)%nat eqn:Hlist; [done|]. intros _ name e Hname.
  destruct (String.prefix _ name) eqn:Hprefix; [|done].
  assert ((0 <? length
             (filter (fun name => String.prefix (list_prefix (sha256 a) k) name = true)
                (map fst (map_to_list (IDEMPOTENCY_KV w)))))%nat = true).
  { apply list_nonempty_iff. by exists name, e. }
  congruence.
Qed.

Lemma store_worlds_agree k a f response w1 w2 :
  digest_colon_free ->
  worlds_agree w1 w2 ->
  colon_free k = true -> colon_free f = true -> f <> "" ->
  is_miss (outcome_of (fst (ListPrefix.checkIdempotency k a f "" w1))) = true ->
  worlds_agree (snd (ListPrefix.storeIdempotentResponse k a f response w1))
    (snd (FingerprintRecord.storeIdempotentResponse k a f response w2)).
Proof.
  intros Hdigest [Hnow [Hleft Hright]] Hk Hf Hne Hmiss.
  pose proof (ListPrefix_miss _ _ _ _ _ Hmiss) as Hnone.
  rewrite ListPrefix_store_run, FingerprintRecord_store_run.
  unfold after_commit, worlds_agree. cbn [snd IDEMPOTENCY_KV Date_now].
  split; [done|]. rewrite <- Hnow. split.
  - intros name e Hname.
    destruct (decide (name = response_name (sha256 a) k f)) as [->|Hother].
    + rewrite lookup_insert_eq in Hname. injection Hname as <-.
      eexists a, k, f, _. do 5 (split; [done|]). split.
      * rewrite lookup_insert_ne by apply fingerprint_name_not_response_name.
        apply lookup_insert_eq.
      * apply lookup_insert_eq.
    + rewrite lookup_insert_ne in Hname by done.
      destruct (Hleft _ _ Hname)
        as (a' & k' & f' & m & -> & Hk' & Hf' & Hne' & -> & Hin2 & Hfp2).
      eexists a', k', f', m. do 5 (split; [done|]).
      assert (Hfpname :
        FingerprintRecord.fingerprint_name (sha256 a) k
        <> FingerprintRecord.fingerprint_name (sha256 a') k').
      { intros Heq. apply fingerprint_name_inj in Heq as [Ha <-]; [|done..].
        specialize (Hnone _ _ Hname). rewrite <- Ha in Hnone.
        by rewrite list_prefix_of_response_name in Hnone. }
      split.
      * rewrite lookup_insert_ne by apply fingerprint_name_not_response_name.
        by rewrite lookup_insert_ne.
      * rewrite lookup_insert_ne by done.
        rewrite lookup_insert_ne; [done|].
        intros Heq. symmetry in Heq.
        by apply fingerprint_name_not_response_name in Heq.
  - intros a' k' e Hk' Hfp.
    destruct (decide (FingerprintRecord.fingerprint_name (sha256 a) k
                      = FingerprintRecord.fingerprint_name (sha256 a') k'))
      as [Heq|Hother].
    + rewrite <- Heq, lookup_insert_eq in Hfp. injection Hfp as <-.
      apply fingerprint_name_inj in Heq as [<- <-]; [|done..].
      exists f. split; [done|]. rewrite lookup_insert_eq. by eexists.
    + rewrite lookup_insert_ne in Hfp by done.
      rewrite lookup_insert_ne in Hfp.
      2: { intros Heq. symmetry in Heq.
           by apply fingerprint_name_not_response_name in Heq. }
      destruct (Hright _ _ _ Hk' Hfp) as (f' & -> & Hsome).
      exists f'. split; [done|].
      destruct (decide (response_name (sha256 a) k f
                        = response_name (sha256 a') k' f')) as [<-|Hne2].
      * rewrite lookup_insert_eq. by eexists.
      * by rewrite lookup_insert_ne.
Qed.

Lemma empty_worlds_agree t : worlds_agree (empty_world t) (empty_world t).
Proof.
  split; [done|]. split.
  - intros name e Hname. cbn [empty_world IDEMPOTENCY_KV] in Hname.
    by rewrite lookup_empty in Hname.
  - intros a k e _ Hfp. cbn [empty_world IDEMPOTENCY_KV] in Hfp.
    by rewrite lookup_empty in Hfp.
Qed.

Lemma histories_agree calls :
  digest_colon_free ->
  forall w1 w2,
  worlds_agree w1 w2 ->
  forallb plain_call calls = true ->
  stores_after_miss list_prefix_middleware calls w1 = true ->
  run_history list_prefix_middleware calls w1
  = run_history fingerprint_record_middleware calls w2.
Proof.
  intros Hdigest.
  induction calls as [|[k a f rid|k a f response] calls IH];
    intros w1 w2 Hagree Hplain Hprotocol; [done|..];
    cbn [run_history stores_after_miss forallb checkIdempotency
           storeIdempotentResponse list_prefix_middleware
           fingerprint_record_middleware plain_call] in *.
  - apply andb_prop in Hplain as [Hcall Hplain].
    apply andb_prop in Hcall as [Hcall Hne]. apply andb_prop in Hcall as [Hk Hf].
    apply negb_true_iff, String.eqb_neq in Hne.
    pose proof (check_outcomes_agree k a f rid w1 w2 Hdigest Hagree Hk Hf Hne)
      as Houtcome.
    pose proof (check_worlds_agree k a f rid w1 w2 Hagree) as Hnext.
    destruct (ListPrefix.checkIdempotency k a f rid w1) as [c1 w1'].
    destruct (FingerprintRecord.checkIdempotency k a f rid w2) as [c2 w2'].
    cbn [fst snd] in *. rewrite Houtcome. f_equal. by apply IH.
  - apply andb_prop in Hplain as [Hcall Hplain].
    apply andb_prop in Hcall as [Hcall Hne]. apply andb_prop in Hcall as [Hk Hf].
    apply negb_true_iff, String.eqb_neq in Hne.
    apply andb_prop in Hprotocol as [Hmiss Hprotocol].
    pose proof (store_worlds_agree k a f response w1 w2 Hdigest Hagree Hk Hf
                  Hne Hmiss) as Hnext.
    destruct (ListPrefix.storeIdempotentResponse k a f response w1) as [c1 w1'].
    destruct (FingerprintRecord.storeIdempotentResponse k a f response w2)
      as [c2 w2'].
    cbn [fst snd] in *. by apply IH.
Qed.

(** C9, amended. On a history in which keys have no colon, fingerprints are
    non-empty and have no colon, and every store is made where the check of
    the same key and fingerprint misses (as [fetch] makes it), the two
    versions decide the same outcome at every check, from the empty store,
    provided digests have no colon. *)
Theorem versions_agree calls t :
  digest_colon_free ->
  forallb plain_call calls = true ->
  stores_after_miss list_prefix_middleware calls (empty_world t) = true ->
  run_history list_prefix_middleware calls (empty_world t)
  = run_history fingerprint_record_middleware calls (empty_world t).
Proof.
  intros Hdigest Hplain Hprotocol.
  by apply histories_agree; [|apply empty_worlds_agree|..].
Qed.

End Versions.

(** ** The two versions on examples *)

Lemma hex_digit_not_colon n : Ascii.eqb (hex_digit n) ":" = false.
Proof.
  destruct n as [|p]; [reflexivity|].
  do 4 (destruct p as [p|p|]; try reflexivity).
Qed.

Lemma example_digest_colon_free : @digest_colon_free example_platform.
Proof.
  intros s. unfold sha256, example_platform, example_digest.
  change (colon_free (hex_of_string s) = true).
  induction s as [|c s IH]; [reflexivity|].
  cbn [hex_of_string colon_free]. by rewrite !hex_digit_not_colon, IH.
Qed.

(** C9 as stated fails: after a request under the token "order:7", the
    list-prefix version answers a request under the token "order" with a
    conflict (the stored name starts with the prefix it lists), and the
    fingerprint-record version with a miss. *)
Lemma versions_agree_counterexample :
  run_history (@list_prefix_middleware example_platform)
    (@colon_history example_platform) (empty_world 0)
  = [Miss; Conflict (conflict_response "request-2")]
  /\ run_history (@fingerprint_record_middleware example_platform)
       (@colon_history example_platform) (empty_world 0)
     = [Miss; Miss]
  /\ stores_after_miss (@list_prefix_middleware example_platform)
       (@colon_history example_platform) (empty_world 0) = true.
Proof. split; [|split]; vm_compute; reflexivity. Qed.

Lemma versions_agree_witness :
  run_history (@list_prefix_middleware example_platform)
    (@plain_history example_platform) (empty_world 0)
  = run_history (@fingerprint_record_middleware example_platform)
      (@plain_history example_platform) (empty_world 0).
Proof.
  apply (@versions_agree example_platform (@plain_history example_platform) 0).
  - exact example_digest_colon_free.
  - vm_compute. reflexivity.
  - vm_compute. reflexivity.
Defined.

(** ** More on the validator *)

Section ValidatorMore.
Context `{Platform}.

Lemma count_level_app l fs1 fs2 :
  count_level l (fs1 ++ fs2) = count_level l fs1 + count_level l fs2.
Proof. unfold count_level. by rewrite filter_app, length_app. Qed.

Lemma count_level_total fs :
  count_level error fs + count_level warning fs = length fs.
Proof.
  unfold count_level. induction fs as [|f fs IH]; [done|].
  rewrite !filter_cons. destruct (level f) eqn:Hl.
  - rewrite decide_True by done. rewrite decide_False by done. simpl. lia.
  - rewrite decide_False by done. rewrite decide_True by done. simpl. lia.
Qed.

Lemma buildErrorResponse_summary fs f rowCount :
  level f = error ->
  let result := buildErrorResponse (fs ++ [f]) rowCount in
  issues (summary result) = count_level error (findings result)
  /\ warnings (summary result) = count_level warning (findings result)
  /\ valid (summary result) = false
  /\ 0 < issues (summary result).
Proof.
  intros Hl. simpl. fold (count_level error (fs ++ [f])).
  fold (count_level warning (fs ++ [f])).
  split; [done|]. split; [done|]. split; [done|].
  rewrite count_level_app. unfold count_level at 2.
  rewrite filter_cons, decide_True by done. simpl. lia.
Qed.

Lemma filter_bool {A} (f : A -> bool) (l : list A) :
  filter (fun x => f x = true) l = List.filter f l.
Proof.
  induction l as [|x l IH]; [done|]. rewrite filter_cons. simpl.
  destruct (f x) eqn:Hx.
  - rewrite decide_True by done. by rewrite IH.
  - rewrite decide_False by discriminate. done.
Qed.

(** The validator unfolded, by the place where it returns. *)
Lemma validateGA4CSV_undecoded content options e :
  decodeContent content = Throw e ->
  validateGA4CSV content options
  = Normal (buildErrorResponse [encoding_finding] 0).
Proof. intros Hdecode. unfold validateGA4CSV. by rewrite Hdecode. Qed.

Lemma validateGA4CSV_missing content options csvText headers dataRows :
  decodeContent content = Normal csvText ->
  parseCSV csvText = headers :: dataRows ->
  missing_headers headers <> [] ->
  validateGA4CSV content options
  = Normal
      (buildErrorResponse
         [{| level := error; code := "MISSING_REQUIRED_HEADERS";
             message := "Missing required headers: "
                        +:+ Js.join ", " (missing_headers headers);
             pointer := Some (PointerMissing (missing_headers headers)) |}]
         0).
Proof.
  intros Hdecode Hparse Hmissing. unfold validateGA4CSV.
  rewrite Hdecode, Hparse, filter_bool. fold (missing_headers headers).
  destruct (missing_headers headers) as [|h hs]; [done|]. reflexivity.
Qed.

Lemma validateGA4CSV_rows content options csvText headers dataRows :
  decodeContent content = Normal csvText ->
  parseCSV csvText = headers :: dataRows ->
  missing_headers headers = [] ->
  validateGA4CSV content options
  = if (default DEFAULT_MAX_ROWS (maxRows options) <? Z.of_nat (length dataRows))%Z
    then Normal
           (buildErrorResponse
              (optional_header_findings headers options ++
               [{| level := error; code := "MAX_ROWS_EXCEEDED";
                   message := "CSV has " +:+ Js.decimal (N.of_nat (length dataRows))
                              +:+ " rows, exceeding maximum of "
                              +:+ Js.Z_toString
                                    (default DEFAULT_MAX_ROWS (maxRows options));
                   pointer := Some (PointerMaxRows
                                      (default DEFAULT_MAX_ROWS (maxRows options))
                                      (length dataRows)) |}])
              (length dataRows))
    else
      let* st := run_rows options headers dataRows in
      Normal (aggregate headers (length dataRows)
                (st_findings st ++ ordering_findings options (st_dates st))
                (st_dates st)).
Proof.
  intros Hdecode Hparse Hmissing. unfold validateGA4CSV.
  rewrite Hdecode, Hparse, filter_bool. fold (missing_headers headers).
  rewrite Hmissing. change (0 <? length (@nil string))%nat with false.
  cbv iota. change ([] ++ ?x) with x.
  fold (optional_header_findings headers options).
  destruct (_ <? _)%Z; [reflexivity|].
  fold (initial_state headers options). fold (run_rows options headers dataRows).
  destruct (run_rows options headers dataRows) as [st|e]; [|reflexivity].
  simpl. unfold aggregate, ordering_findings, range_of, count_level.
  destruct (flag (requireSortedByDateAsc options) && (0 <? length (st_dates st))%nat);
    simpl; [|by rewrite app_nil_r].
  destruct (some_differs _ _); [done|by rewrite app_nil_r].
Qed.

Lemma optional_header_findings_warning headers options :
  Forall (fun f => level f = warning /\ code f = "MISSING_OPTIONAL_HEADER")
    (optional_header_findings headers options).
Proof.
  unfold optional_header_findings. destruct (_ && _); repeat constructor.
Qed.

Lemma ordering_findings_error options dates :
  Forall (fun f => level f = error /\ code f = "NOT_SORTED_BY_DATE")
    (ordering_findings options dates).
Proof.
  unfold ordering_findings. destruct (_ && _); repeat constructor.
Qed.

Lemma run_rows_findings options headers dataRows st :
  run_rows options headers dataRows = Normal st ->
  exists new,
    st_findings st = optional_header_findings headers options ++ new
    /\ Forall row_finding new.
Proof. intros Hrun. by apply forEach_rows_findings in Hrun. Qed.

(** The counts of the summary, by the place where the validator returns. *)
Lemma summary_counts content options result :
  validateGA4CSV content options = Normal result ->
  issues (summary result) = count_level error (findings result)
  /\ warnings (summary result) = count_level warning (findings result)
  /\ (valid (summary result) = true <-> issues (summary result) = 0).
Proof.
  intros Hresult.
  destruct (decodeContent content) as [csvText|e] eqn:Hdecode.
  2: { rewrite (validateGA4CSV_undecoded _ _ _ Hdecode) in Hresult.
       injection Hresult as <-.
       destruct (buildErrorResponse_summary [] encoding_finding 0 eq_refl)
         as (Hi & Hw & Hv & Hpos).
       split; [exact Hi|]. split; [exact Hw|].
       change ([] ++ [encoding_finding]) with [encoding_finding] in *.
       rewrite Hv. split; [discriminate|lia]. }
  destruct (parseCSV csvText) as [|headers dataRows] eqn:Hparse.
  { by apply parseCSV_not_empty in Hparse. }
  destruct (missing_headers headers) as [|h hs] eqn:Hmissing.
  2: { rewrite (validateGA4CSV_missing _ _ _ _ _ Hdecode Hparse) in Hresult
         by (rewrite Hmissing; discriminate).
       injection Hresult as <-.
       match goal with
       | |- context [buildErrorResponse [?f] 0] =>
           destruct (buildErrorResponse_summary [] f 0 eq_refl)
             as (Hi & Hw & Hv & Hpos);
           change ([] ++ [f]) with [f] in *
       end.
       split; [exact Hi|]. split; [exact Hw|].
       rewrite Hv. split; [discriminate|lia]. }
  rewrite (validateGA4CSV_rows _ _ _ _ _ Hdecode Hparse Hmissing) in Hresult.
  destruct (_ <? _)%Z.
  - injection Hresult as <-.
    match goal with
    | |- context [buildErrorResponse (?fs ++ [?f]) ?n] =>
        destruct (buildErrorResponse_summary fs f n eq_refl)
          as (Hi & Hw & Hv & Hpos)
    end.
    split; [exact Hi|]. split; [exact Hw|].
    rewrite Hv. split; [discriminate|lia].
  - destruct (run_rows options headers dataRows) as [st|e]; [|discriminate].
    injection Hresult as <-. simpl.
    split; [done|]. split; [done|]. apply Nat.eqb_eq.
Qed.

(** X1. The summary agrees with the findings: [issues] counts the errors
    and [warnings] the warnings, every finding is one or the other, and the
    content is valid exactly when there is no error. *)
Theorem summary_counts_findings content options result :
  validateGA4CSV content options = Normal result ->
  issues (summary result) = count_level error (findings result)
  /\ warnings (summary result) = count_level warning (findings result)
  /\ issues (summary result) + warnings (summary result)
     = length (findings result)
  /\ (valid (summary result) = true <-> issues (summary result) = 0).
Proof.
  intros Hresult.
  destruct (summary_counts _ _ _ Hresult) as (Hi & Hw & Hv).
  split; [done|]. split; [done|]. split; [|done].
  rewrite Hi, Hw. apply count_level_total.
Qed.

(** After decoding, no finding is the finding of the encoding. *)
Lemma decoded_findings content options csvText result :
  decodeContent content = Normal csvText ->
  validateGA4CSV content options = Normal result ->
  Forall (fun f => code f <> "INVALID_CONTENT_ENCODING") (findings result).
Proof.
  intros Hdecode Hresult.
  destruct (parseCSV csvText) as [|headers dataRows] eqn:Hparse.
  { by apply parseCSV_not_empty in Hparse. }
  destruct (missing_headers headers) as [|h hs] eqn:Hmissing.
  2: { rewrite (validateGA4CSV_missing _ _ _ _ _ Hdecode Hparse) in Hresult
         by (rewrite Hmissing; discriminate).
       injection Hresult as <-. simpl. by repeat constructor. }
  rewrite (validateGA4CSV_rows _ _ _ _ _ Hdecode Hparse Hmissing) in Hresult.
  assert (Hoptional :
    Forall (fun f => code f <> "INVALID_CONTENT_ENCODING")
      (optional_header_findings headers options)).
  { eapply Forall_impl; [apply optional_header_findings_warning|].
    by intros f [_ ->]. }
  destruct (_ <? _)%Z.
  - injection Hresult as <-. simpl. apply Forall_app_2; [done|].
    by repeat constructor.
  - destruct (run_rows options headers dataRows) as [st|e] eqn:Hrun;
      [|discriminate].
    injection Hresult as <-. simpl.
    apply run_rows_findings in Hrun as (new & -> & Hnew).
    repeat apply Forall_app_2; [done| |].
    + eapply Forall_impl; [exact Hnew|]. intros f [_ Hcode] Heq.
      rewrite Heq in Hcode. simpl in Hcode. intuition discriminate.
    + eapply Forall_impl; [apply ordering_findings_error|].
      by intros f [_ ->].
Qed.

(** X2. A content that has neither prefix, or whose base64 text the
    platform does not decode, gets the one finding
    INVALID_CONTENT_ENCODING, with no row counted and no header detected;
    and that finding is returned for no other content. *)
Theorem undecodable_content content options :
  ((Js.startsWith content "base64:" = false
    /\ Js.startsWith content "text:" = false)
   \/ (Js.startsWith content "base64:" = true
       /\ atob (Js.substring_from 7 content) = None) ->
   validateGA4CSV content options
   = Normal (buildErrorResponse [encoding_finding] 0))
  /\ (forall result,
        validateGA4CSV content options = Normal result ->
        Exists (fun f => code f = "INVALID_CONTENT_ENCODING") (findings result) ->
        (Js.startsWith content "base64:" = false
         /\ Js.startsWith content "text:" = false)
        \/ (Js.startsWith content "base64:" = true
            /\ atob (Js.substring_from 7 content) = None)).
Proof.
  split.
  - intros Hcontent.
    assert (exists e, decodeContent content = Throw e) as [e Hdecode].
    { unfold decodeContent.
      destruct Hcontent as [[-> ->]|[-> ->]]; eauto. }
    by eapply validateGA4CSV_undecoded.
  - intros result Hresult Hfinding.
    destruct (decodeContent content) as [csvText|e] eqn:Hdecode.
    + pose proof (decoded_findings _ _ _ _ Hdecode Hresult) as Hnone.
      apply Exists_exists in Hfinding as (f & Hin & Hcode).
      rewrite Forall_forall in Hnone. by destruct (Hnone f Hin).
    + unfold decodeContent in Hdecode.
      destruct (Js.startsWith content "base64:"); [right|left].
      * split; [done|]. by destruct (atob _).
      * split; [done|]. by destruct (Js.startsWith content "text:").
Qed.

(** X3. When the header row lacks a required header, the validator stops
    there: the one finding is MISSING_REQUIRED_HEADERS, whose pointer lists
    the required headers that are missing; no optional-header warning is
    given, no data row is counted and no header is reported as detected. *)
Theorem missing_required_headers content options csvText headers dataRows :
  decodeContent content = Normal csvText ->
  parseCSV csvText = headers :: dataRows ->
  Exists (fun h => Js.includes headers h = false) requiredHeaders ->
  exists result f missing,
    validateGA4CSV content options = Normal result
    /\ findings result = [f]
    /\ level f = error /\ code f = "MISSING_REQUIRED_HEADERS"
    /\ pointer f = Some (PointerMissing missing)
    /\ (forall h, In h missing
                  <-> In h requiredHeaders /\ Js.includes headers h = false)
    /\ rows (summary result) = 0
    /\ valid (summary result) = false
    /\ detectedHeaders (normalized result) = [].
Proof.
  intros Hdecode Hparse Hlacks.
  assert (Hspec : forall h, In h (missing_headers headers)
                            <-> In h requiredHeaders /\ Js.includes headers h = false).
  { intros h. unfold missing_headers. rewrite List.filter_In.
    by rewrite negb_true_iff. }
  assert (Hmissing : missing_headers headers <> []).
  { apply Exists_exists in Hlacks as (h & Hin & Hh).
    apply list_elem_of_In in Hin.
    intros Hnil. assert (Hm : In h (missing_headers headers)) by by apply Hspec.
    by rewrite Hnil in Hm. }
  eexists _, _, (missing_headers headers).
  split; [by eapply validateGA4CSV_missing|].
  simpl. by repeat (split; [reflexivity|]).
Qed.

(** *** The loop over the rows *)

Lemma count_code_app c fs1 fs2 :
  count_code c (fs1 ++ fs2) = count_code c fs1 + count_code c fs2.
Proof. unfold count_code. by rewrite List.filter_app, length_app. Qed.

Lemma count_code_integer c name findingCode rowIndex value :
  findingCode <> c ->
  count_code c (integer_field_findings name findingCode rowIndex value) = 0.
Proof.
  intros Hne.
  destruct (integer_field_findings_cases name findingCode rowIndex value)
    as [[_ ->]|[_ (f & -> & _ & Hc)]]; [done|].
  unfold count_code. simpl. rewrite Hc.
  apply String.eqb_neq in Hne. by rewrite Hne.
Qed.

Lemma integer_field_findings_accepted name findingCode rowIndex value :
  isNonNegativeInteger value = true ->
  integer_field_findings name findingCode rowIndex value = [].
Proof.
  intros Hok.
  destruct (integer_field_findings_cases name findingCode rowIndex value)
    as [[_ ->]|[Hno _]]; [done|congruence].
Qed.

Lemma check_integer_field_seen name findingCode rowIndex value st :
  st_seenDates (check_integer_field name findingCode rowIndex value st)
  = st_seenDates st.
Proof. unfold check_integer_field. by destruct (negb _). Qed.

(** What the callback does to the state on one row. *)
Lemma validateRow_step options dateIdx sessionsIdx usersIdx pageviewsIdx
    st row idx st' :
  validateRow options dateIdx sessionsIdx usersIdx pageviewsIdx st row idx
    = Normal st' ->
  let d := row_date dateIdx row in
  let repeated :=
    date_accepted dateIdx row && bool_decide (d ∈ st_seenDates st) in
  st_dates st'
  = st_dates st ++ (if date_accepted dateIdx row then [d] else [])
  /\ st_seenDates st'
     = (if date_accepted dateIdx row then {[ d ]} ∪ st_seenDates st
        else st_seenDates st)
  /\ exists new,
       st_findings st' = st_findings st ++ new
       /\ count_code "DUPLICATE_DATE" new
          = (if repeated && negb (flag (allowDuplicateDates options))
             then 1 else 0)
       /\ (clean_row dateIdx sessionsIdx usersIdx pageviewsIdx row = true ->
           length new = count_code "DUPLICATE_DATE" new).
Proof.
  intros Hrow d repeated. subst repeated.
  unfold validateRow in Hrow. unfold clean_row, date_accepted.
  change (length requiredHeaders) with 3 in Hrow.
  destruct (length row <? 3)%nat eqn:Hlen.
  { injection Hrow as <-. apply Nat.ltb_lt in Hlen.
    replace (3 <=? length row)%nat with false
      by (symmetry; apply Nat.leb_gt; lia).
    simpl. rewrite app_nil_r. do 2 (split; [done|]).
    eexists. split; [reflexivity|]. split; [done|]. discriminate. }
  apply Nat.ltb_ge in Hlen.
  replace (3 <=? length row)%nat with true
    by (symmetry; apply Nat.leb_le; lia).
  destruct (isValidDate (Js.get row dateIdx)) as [dateOk|e] eqn:Hdate;
    [|discriminate].
  cbn [cbind] in Hrow. injection Hrow as <-.
  set (guard := (_ && _ && _)).
  assert (Hshape : forall st0,
    let st1 :=
      if guard
      then check_integer_field "pageviews" "INVALID_PAGEVIEWS_VALUE" (idx + 2)
             (Js.get row pageviewsIdx)
             (check_integer_field "users" "INVALID_USERS_VALUE" (idx + 2)
                (Js.get row usersIdx)
                (check_integer_field "sessions" "INVALID_SESSIONS_VALUE"
                   (idx + 2) (Js.get row sessionsIdx) st0))
      else check_integer_field "users" "INVALID_USERS_VALUE" (idx + 2)
             (Js.get row usersIdx)
             (check_integer_field "sessions" "INVALID_SESSIONS_VALUE"
                (idx + 2) (Js.get row sessionsIdx) st0) in
    st_dates st1 = st_dates st0 /\ st_seenDates st1 = st_seenDates st0
    /\ exists fields,
         st_findings st1 = st_findings st0 ++ fields
         /\ count_code "DUPLICATE_DATE" fields = 0
         /\ (isNonNegativeInteger (Js.get row sessionsIdx)
             && isNonNegativeInteger (Js.get row usersIdx)
             && (pageviews_skipped pageviewsIdx row
                 || isNonNegativeInteger (Js.get row pageviewsIdx)) = true ->
             fields = [])).
  { intros st0 st1. unfold pageviews_skipped. fold guard. subst st1.
    split; [by destruct guard; rewrite !check_integer_field_dates|].
    split; [by destruct guard; rewrite !check_integer_field_seen|].
    exists (integer_field_findings "sessions" "INVALID_SESSIONS_VALUE" (idx + 2)
              (Js.get row sessionsIdx)
            ++ integer_field_findings "users" "INVALID_USERS_VALUE" (idx + 2)
                 (Js.get row usersIdx)
            ++ (if guard
                then integer_field_findings "pageviews" "INVALID_PAGEVIEWS_VALUE"
                       (idx + 2) (Js.get row pageviewsIdx)
                else [])).
    split; [|split].
    - destruct guard; simpl;
        rewrite ?check_integer_field_findings, <- ?app_assoc; [done|].
      by rewrite app_nil_r.
    - rewrite !count_code_app, !count_code_integer by discriminate.
      destruct guard; [|done]. by rewrite count_code_integer by discriminate.
    - intros Hclean. apply andb_prop in Hclean as [Hclean Hp].
      apply andb_prop in Hclean as [Hs Hu].
      rewrite !integer_field_findings_accepted by done.
      destruct guard; [|done]. simpl in Hp.
      by rewrite integer_field_findings_accepted. }
  assert (Hfields : forall st0 dateFindings,
    st_findings st0 = st_findings st ++ dateFindings ->
    let st1 :=
      if guard
      then check_integer_field "pageviews" "INVALID_PAGEVIEWS_VALUE" (idx + 2)
             (Js.get row pageviewsIdx)
             (check_integer_field "users" "INVALID_USERS_VALUE" (idx + 2)
                (Js.get row usersIdx)
                (check_integer_field "sessions" "INVALID_SESSIONS_VALUE"
                   (idx + 2) (Js.get row sessionsIdx) st0))
      else check_integer_field "users" "INVALID_USERS_VALUE" (idx + 2)
             (Js.get row usersIdx)
             (check_integer_field "sessions" "INVALID_SESSIONS_VALUE"
                (idx + 2) (Js.get row sessionsIdx) st0) in
    st_dates st1 = st_dates st0 /\ st_seenDates st1 = st_seenDates st0
    /\ exists new,
         st_findings st1 = st_findings st ++ new
         /\ count_code "DUPLICATE_DATE" new
            = count_code "DUPLICATE_DATE" dateFindings
         /\ (isNonNegativeInteger (Js.get row sessionsIdx)
             && isNonNegativeInteger (Js.get row usersIdx)
             && (pageviews_skipped pageviewsIdx row
                 || isNonNegativeInteger (Js.get row pageviewsIdx)) = true ->
             new = dateFindings)).
  { intros st0 dateFindings Hst0 st1. subst st1.
    destruct (Hshape st0) as (Hd & Hs & fields & Hf & Hc & Hclean).
    split; [done|]. split; [done|].
    exists (dateFindings ++ fields). split; [|split].
    - by rewrite Hf, Hst0, <- app_assoc.
    - rewrite count_code_app, Hc. lia.
    - intros Hok. rewrite (Hclean Hok). by rewrite app_nil_r. }
  clear Hshape.
  destruct dateOk; cbn [negb andb].
  - destruct (bool_decide (Js.ToString (Js.get row dateIdx) ∈ st_seenDates st))
      eqn:Hseen.
    + fold (row_date dateIdx row) in Hseen. fold d in Hseen. rewrite Hseen.
      apply bool_decide_eq_true in Hseen.
      destruct (flag (allowDuplicateDates options)) eqn:Hallow; cbn [negb andb].
      * edestruct Hfields as (Hd & Hs & new & Hf & Hc & Hclean);
          [|rewrite Hd, Hs; cbn [st_dates st_seenDates];
             split; [done|]; split; [|exists new]].
        -- cbn [st_findings]. symmetry. apply app_nil_r.
        -- symmetry. apply subseteq_union_1_L. by apply singleton_subseteq_l.
        -- split; [done|]. split; [done|].
           intros Hok. rewrite (Hclean Hok). done.
      * edestruct Hfields as (Hd & Hs & new & Hf & Hc & Hclean);
          [|rewrite Hd, Hs; cbn [st_dates st_seenDates push];
             split; [done|]; split; [|exists new]].
        -- cbn [st_findings push]. reflexivity.
        -- symmetry. apply subseteq_union_1_L. by apply singleton_subseteq_l.
        -- split; [done|]. split; [done|].
           intros Hok. rewrite (Hclean Hok). done.
    + fold (row_date dateIdx row) in Hseen. fold d in Hseen. rewrite Hseen.
      cbn [andb].
      edestruct Hfields as (Hd & Hs & new & Hf & Hc & Hclean);
        [|rewrite Hd, Hs; cbn [st_dates st_seenDates];
           split; [done|]; split; [done|exists new]].
      * cbn [st_findings]. symmetry. apply app_nil_r.
      * split; [done|]. split; [done|].
        intros Hok. rewrite (Hclean Hok). done.
  - edestruct Hfields as (Hd & Hs & new & Hf & Hc & Hclean);
      [|rewrite Hd, Hs; cbn [st_dates st_seenDates push];
         split; [by rewrite app_nil_r|]; split; [done|exists new]].
    + cbn [st_findings push]. reflexivity.
    + split; [done|]. split; [done|]. discriminate.
Qed.

Lemma accepted_dates_cons dateIdx row rows :
  accepted_dates dateIdx (row :: rows)
  = (if date_accepted dateIdx row then [row_date dateIdx row] else [])
    ++ accepted_dates dateIdx rows.
Proof.
  unfold accepted_dates. simpl. by destruct (date_accepted dateIdx row).
Qed.

Lemma seen_snoc (dates : list string) d :
  list_to_set (C := gset string) (dates ++ [d])
  = {[ d ]} ∪ list_to_set dates.
Proof.
  rewrite list_to_set_app_L. simpl. rewrite union_empty_r_L.
  apply union_comm_L.
Qed.

(** What the loop does to the state: the dates it collects, the set of the
    dates seen, and the findings it adds, of which those of a repeated date
    are counted. *)
Lemma forEach_rows_run options dateIdx sessionsIdx usersIdx pageviewsIdx
    dataRows :
  forall st idx st',
  forEach_rows (validateRow options dateIdx sessionsIdx usersIdx pageviewsIdx)
    st dataRows idx = Normal st' ->
  st_seenDates st = list_to_set (st_dates st) ->
  st_dates st' = st_dates st ++ accepted_dates dateIdx dataRows
  /\ st_seenDates st' = list_to_set (st_dates st')
  /\ exists new,
       st_findings st' = st_findings st ++ new
       /\ (if flag (allowDuplicateDates options)
           then count_code "DUPLICATE_DATE" new = 0
           else count_code "DUPLICATE_DATE" new + size (st_seenDates st')
                + length (st_dates st)
                = size (st_seenDates st) + length (st_dates st'))
       /\ (forallb (clean_row dateIdx sessionsIdx usersIdx pageviewsIdx) dataRows
           = true ->
           length new = count_code "DUPLICATE_DATE" new).
Proof.
  induction dataRows as [|row rest IH]; intros st idx st'; simpl.
  - intros [= <-] Hseen. rewrite app_nil_r. split; [done|]. split; [done|].
    exists []. rewrite app_nil_r. split; [done|].
    split; [|done]. destruct (flag _); [done|]. simpl. lia.
  - destruct (validateRow _ _ _ _ _ st row idx) as [st1|e] eqn:Hrow;
      simpl; [|discriminate].
    intros Hrest Hseen.
    apply validateRow_step in Hrow
      as (Hdates1 & Hseen1 & new1 & Hnew1 & Hcount1 & Hclean1).
    assert (Hinv1 : st_seenDates st1 = list_to_set (st_dates st1)).
    { rewrite Hseen1, Hdates1.
      destruct (date_accepted dateIdx row); [|by rewrite app_nil_r].
      by rewrite seen_snoc, Hseen. }
    destruct (IH st1 (S idx) st' Hrest Hinv1)
      as (Hdates & Hinv & new2 & Hnew2 & Hcount2 & Hclean2).
    split; [|split; [done|]].
    { rewrite Hdates, Hdates1, accepted_dates_cons. by rewrite <- app_assoc. }
    exists (new1 ++ new2). split; [by rewrite Hnew2, Hnew1, app_assoc|].
    rewrite count_code_app, length_app. split.
    + destruct (flag (allowDuplicateDates options)).
      * rewrite Hcount1, Hcount2. by rewrite andb_false_r.
      * rewrite Hcount1, andb_true_r.
        rewrite Hseen1, Hdates1 in Hcount2. rewrite Hdates1 in Hdates.
        destruct (date_accepted dateIdx row); simpl in *.
        -- destruct (bool_decide (row_date dateIdx row ∈ st_seenDates st))
             eqn:Hin.
           ++ apply bool_decide_eq_true in Hin.
              rewrite (subseteq_union_1_L {[row_date dateIdx row]}
                         (st_seenDates st)) in Hcount2
                by by apply singleton_subseteq_l.
              rewrite length_app in Hcount2. simpl in Hcount2. lia.
           ++ apply bool_decide_eq_false in Hin.
              rewrite size_union, size_singleton in Hcount2
                by by apply disjoint_singleton_l.
              rewrite length_app in Hcount2. simpl in Hcount2. lia.
        -- rewrite app_nil_r in Hcount2. lia.
    + intros Hclean. apply andb_prop in Hclean as [Hrow Hrows].
      rewrite (Hclean1 Hrow), (Hclean2 Hrows). done.
Qed.

Lemma missing_headers_nil headers :
  Forall (fun h => Js.includes headers h = true) requiredHeaders ->
  missing_headers headers = [].
Proof.
  intros Hall. unfold missing_headers.
  induction Hall as [|h hs Hh _ IH]; [done|]. simpl. by rewrite Hh.
Qed.

Lemma rows_checked_run content options headers dataRows :
  rows_checked content options headers dataRows ->
  validateGA4CSV content options
  = let* st := run_rows options headers dataRows in
    Normal (aggregate headers (length dataRows)
              (st_findings st ++ ordering_findings options (st_dates st))
              (st_dates st)).
Proof.
  intros (csvText & Hdecode & Hparse & Hheaders & Hmax).
  rewrite (validateGA4CSV_rows _ _ _ _ _ Hdecode Hparse
             (missing_headers_nil _ Hheaders)).
  by apply Z.ltb_ge in Hmax as ->.
Qed.

Lemma run_rows_run options headers dataRows st :
  run_rows options headers dataRows = Normal st ->
  let dates := accepted_dates (Js.indexOf headers "date") dataRows in
  st_dates st = dates
  /\ exists new,
       st_findings st = optional_header_findings headers options ++ new
       /\ Forall row_finding new
       /\ (if flag (allowDuplicateDates options)
           then count_code "DUPLICATE_DATE" new = 0
           else count_code "DUPLICATE_DATE" new
                + size (list_to_set (C := gset string) dates)
                = length dates)
       /\ (forallb (clean_row (Js.indexOf headers "date")
                      (Js.indexOf headers "sessions")
                      (Js.indexOf headers "users")
                      (Js.indexOf headers "pageviews")) dataRows = true ->
           length new = count_code "DUPLICATE_DATE" new).
Proof.
  intros Hrun dates. pose proof Hrun as Hfindings.
  apply run_rows_findings in Hfindings as (new' & Hnew' & Hrows).
  apply forEach_rows_run in Hrun
    as (Hdates & Hseen & new & Hnew & Hcount & Hclean); [|done].
  simpl in Hdates, Hnew. split; [done|].
  assert (new' = new) as -> by (rewrite Hnew in Hnew'; by apply app_inv_head in Hnew').
  exists new. split; [done|]. split; [done|]. split; [|done].
  destruct (flag (allowDuplicateDates options)); [done|].
  rewrite Hseen, Hdates in Hcount.
  cbn [initial_state st_seenDates st_dates length] in Hcount.
  rewrite size_empty in Hcount. fold dates in Hcount. lia.
Qed.

(** *** When the callback throws *)

Lemma Date_of_iso_None s :
  Js.Date_of_iso s = None
  <-> let '(y, m, d) := date_fields s in
      iso_fields m d = false /\ legacy_fields y m = false.
Proof.
  unfold Js.Date_of_iso, date_fields, iso_fields, legacy_fields.
  destruct (_ && _ && _ && _)%Z; [split; [done|by intros [? _]]|].
  destruct (_ && _ && _ && _)%Z; [split; [done|by intros [_ ?]]|done].
Qed.

Lemma isValidDate_returns v :
  unreadable_date (Js.ToString v) = false <-> exists b, isValidDate v = Normal b.
Proof.
  unfold unreadable_date, isValidDate.
  pose proof (Date_of_iso_None (Js.ToString v)) as Hnone.
  destruct (date_fields (Js.ToString v)) as [[y m] d].
  destruct (Js.test_iso_date (Js.ToString v)); simpl; [|split; eauto].
  destruct (Js.Date_of_iso (Js.ToString v)) as [tv|]; simpl.
  - unfold Js.toISOString.
    destruct (Js.civil_from_days (tv / Js.msPerDay)) as [[cy cm] cd]. simpl.
    split; [eauto|]. intros _.
    destruct (iso_fields m d) eqn:Hiso; [reflexivity|].
    destruct (legacy_fields y m) eqn:Hlegacy; [reflexivity|].
    discriminate (proj2 Hnone (conj eq_refl eq_refl)).
  - destruct (proj1 Hnone eq_refl) as [-> ->]. simpl.
    split; [done|]. by intros [b Hb].
Qed.

Lemma validateRow_returns options dateIdx sessionsIdx usersIdx pageviewsIdx
    st row idx :
  safe_row dateIdx row = true <->
  exists st', validateRow options dateIdx sessionsIdx usersIdx pageviewsIdx
                st row idx = Normal st'.
Proof.
  unfold safe_row, validateRow. change (length requiredHeaders) with 3.
  destruct (length row <? 3)%nat; simpl; [split; eauto|].
  rewrite negb_true_iff. unfold row_date. rewrite isValidDate_returns.
  destruct (isValidDate (Js.get row dateIdx)) as [b|e]; simpl.
  - split; eauto.
  - split; [by intros [b Hb]|by intros [st' Hst']].
Qed.

Lemma forEach_rows_returns options dateIdx sessionsIdx usersIdx pageviewsIdx
    dataRows :
  forall st idx,
  forallb (safe_row dateIdx) dataRows = true <->
  exists st',
    forEach_rows (validateRow options dateIdx sessionsIdx usersIdx pageviewsIdx)
      st dataRows idx = Normal st'.
Proof.
  induction dataRows as [|row rest IH]; intros st idx; simpl; [split; eauto|].
  rewrite andb_true_iff.
  rewrite (validateRow_returns options dateIdx sessionsIdx usersIdx
             pageviewsIdx st row idx).
  destruct (validateRow _ _ _ _ _ st row idx) as [st1|e]; simpl.
  - rewrite (IH st1 (S idx)). split; [by intros [_ ?]|eauto].
  - split; [by intros [[st' Hst'] _]|by intros [st' Hst']].
Qed.

Lemma clean_row_safe dateIdx sessionsIdx usersIdx pageviewsIdx row :
  clean_row dateIdx sessionsIdx usersIdx pageviewsIdx row = true ->
  safe_row dateIdx row = true.
Proof.
  unfold clean_row, safe_row, date_accepted. intros Hclean.
  do 3 apply andb_prop in Hclean as [Hclean _].
  apply andb_prop in Hclean as [_ Hdate].
  apply orb_true_iff. right. apply negb_true_iff.
  unfold row_date. apply isValidDate_returns.
  destruct (isValidDate (Js.get row dateIdx)) as [b|e]; [eauto|done].
Qed.

(** *** The ordering check *)

Lemma some_differs_false dates :
  forall sortedDates,
  length dates = length sortedDates ->
  some_differs dates sortedDates = false <-> dates = sortedDates.
Proof.
  induction dates as [|date rest IH]; intros [|date' rest'] Hlen;
    simpl in *; try done.
  rewrite orb_false_iff, negb_false_iff, bool_decide_eq_true.
  rewrite (IH rest') by lia. split.
  - by intros [[= ->] ->].
  - by intros [= -> ->].
Qed.

Lemma sort_fixed (dates : list string) :
  Js.sort dates = dates <-> Sorted String.le dates.
Proof.
  unfold Js.sort. split.
  - intros <-. apply Sorted_merge_sort, _.
  - intros Hsorted.
    apply (Sorted_unique String.le); try apply Sorted_merge_sort;
      try apply _; [done|].
    apply merge_sort_Permutation.
Qed.

Lemma some_differs_sort dates :
  some_differs dates (Js.sort dates) = false <-> Sorted String.le dates.
Proof.
  rewrite some_differs_false.
  - rewrite <- sort_fixed. split; congruence.
  - unfold Js.sort. by rewrite merge_sort_Permutation.
Qed.

Lemma count_code_none c fs :
  Forall (fun f => code f <> c) fs -> count_code c fs = 0.
Proof.
  unfold count_code. induction 1 as [|f fs Hf _ IH]; [done|]. simpl.
  apply String.eqb_neq in Hf. by rewrite Hf.
Qed.

Lemma count_code_exists c fs :
  Exists (fun f => code f = c) fs <-> 0 < count_code c fs.
Proof.
  unfold count_code. induction fs as [|f fs IH]; simpl.
  - rewrite Exists_nil. lia.
  - rewrite Exists_cons, IH. destruct (String.eqb_spec (code f) c); simpl.
    + split; [lia|auto].
    + split; [by intros [?|?]|auto].
Qed.

Lemma row_findings_codes c new :
  ~ In c row_finding_codes -> Forall row_finding new ->
  Forall (fun f => code f <> c) new.
Proof.
  intros Hc Hnew. eapply Forall_impl; [exact Hnew|].
  intros f [_ Hin] Heq. by rewrite Heq in Hin.
Qed.

Lemma optional_header_findings_codes c headers options :
  c <> "MISSING_OPTIONAL_HEADER" ->
  Forall (fun f => code f <> c) (optional_header_findings headers options).
Proof.
  intros Hc. eapply Forall_impl; [apply optional_header_findings_warning|].
  intros f [_ Heq]. by rewrite Heq.
Qed.

Lemma ordering_findings_count options dates :
  count_code "NOT_SORTED_BY_DATE" (ordering_findings options dates)
  = if flag (requireSortedByDateAsc options) && (0 <? length dates)%nat
       && some_differs dates (Js.sort dates)
    then 1 else 0.
Proof. unfold ordering_findings. by destruct (_ && _ && _). Qed.

(** The result of a content whose rows are checked. *)
Lemma rows_checked_result content options headers dataRows result :
  rows_checked content options headers dataRows ->
  validateGA4CSV content options = Normal result ->
  let dates := accepted_dates (Js.indexOf headers "date") dataRows in
  exists new,
    result = aggregate headers (length dataRows)
               (optional_header_findings headers options ++ new
                ++ ordering_findings options dates)
               dates
    /\ Forall row_finding new
    /\ (if flag (allowDuplicateDates options)
        then count_code "DUPLICATE_DATE" new = 0
        else count_code "DUPLICATE_DATE" new
             + size (list_to_set (C := gset string) dates)
             = length dates)
    /\ (forallb (clean_row (Js.indexOf headers "date")
                   (Js.indexOf headers "sessions")
                   (Js.indexOf headers "users")
                   (Js.indexOf headers "pageviews")) dataRows = true ->
        length new = count_code "DUPLICATE_DATE" new).
Proof.
  intros Hchecked Hresult dates.
  rewrite (rows_checked_run _ _ _ _ Hchecked) in Hresult.
  destruct (run_rows options headers dataRows) as [st|e] eqn:Hrun;
    [|discriminate].
  injection Hresult as <-.
  apply run_rows_run in Hrun as (Hdates & new & Hnew & Hrows & Hcount & Hclean).
  exists new. rewrite Hdates, Hnew, <- app_assoc. done.
Qed.

(** X4. With the ordering requested, the validator reports
    NOT_SORTED_BY_DATE, once, exactly when the dates it accepted, taken in
    row order, are not in ascending order of their text (equal neighbours
    are in order); without the request it never reports it. *)
Theorem ordering_reported content options headers dataRows result :
  rows_checked content options headers dataRows ->
  validateGA4CSV content options = Normal result ->
  let dates := accepted_dates (Js.indexOf headers "date") dataRows in
  (Exists (fun f => code f = "NOT_SORTED_BY_DATE") (findings result)
   <-> flag (requireSortedByDateAsc options) = true
       /\ ~ Sorted String.le dates)
  /\ count_code "NOT_SORTED_BY_DATE" (findings result) <= 1.
Proof.
  intros Hchecked Hresult dates.
  destruct (rows_checked_result _ _ _ _ _ Hchecked Hresult)
    as (new & -> & Hrows & _ & _).
  fold dates. cbn [findings aggregate].
  assert (Hcount :
    count_code "NOT_SORTED_BY_DATE"
      (optional_header_findings headers options ++ new
       ++ ordering_findings options dates)
    = if flag (requireSortedByDateAsc options) && (0 <? length dates)%nat
         && some_differs dates (Js.sort dates)
      then 1 else 0).
  { rewrite !count_code_app, ordering_findings_count.
    rewrite (count_code_none _ (optional_header_findings headers options))
      by by apply optional_header_findings_codes.
    rewrite (count_code_none _ new); [done|].
    apply row_findings_codes; [|done]. simpl. intuition discriminate. }
  split; [|rewrite Hcount; by destruct (_ && _ && _); lia].
  rewrite count_code_exists, Hcount.
  destruct (flag (requireSortedByDateAsc options)); cbn [andb].
  2: { split; [lia|by intros [? _]]. }
  destruct (some_differs dates (Js.sort dates)) eqn:Hdiffers.
  - assert (Hunsorted : ~ Sorted String.le dates).
    { intros Hs. apply some_differs_sort in Hs. congruence. }
    destruct dates as [|date rest]; [by destruct Hunsorted; constructor|].
    simpl. split; [done|lia].
  - apply some_differs_sort in Hdiffers. rewrite andb_false_r.
    split; [lia|by intros [_ ?]].
Qed.

(** X5. Unless duplicates are allowed, the validator reports
    DUPLICATE_DATE once for every accepted date that repeats an earlier
    one: their number is the number of accepted dates less the number of
    distinct ones. With duplicates allowed it never reports it. *)
Theorem duplicate_dates_counted content options headers dataRows result :
  rows_checked content options headers dataRows ->
  validateGA4CSV content options = Normal result ->
  let dates := accepted_dates (Js.indexOf headers "date") dataRows in
  count_code "DUPLICATE_DATE" (findings result)
  = if flag (allowDuplicateDates options) then 0
    else length dates - size (list_to_set (C := gset string) dates).
Proof.
  intros Hchecked Hresult dates.
  destruct (rows_checked_result _ _ _ _ _ Hchecked Hresult)
    as (new & -> & Hrows & Hcount & _).
  fold dates in Hcount. cbn [findings aggregate].
  rewrite !count_code_app.
  rewrite (count_code_none _ (optional_header_findings headers options))
    by by apply optional_header_findings_codes.
  rewrite (count_code_none _ (ordering_findings options dates)).
  2: { eapply Forall_impl; [apply ordering_findings_error|].
       by intros f [_ ->]. }
  destruct (flag (allowDuplicateDates options)); lia.
Qed.

(** X6. For a content whose rows are checked, the summary counts every
    data row, accepted or not; the headers reported are the header row; and
    the date range runs from the first to the last accepted date in row
    order (none when no date is accepted), whatever their order. *)
Theorem result_reports_rows content options headers dataRows result :
  rows_checked content options headers dataRows ->
  validateGA4CSV content options = Normal result ->
  rows (summary result) = length dataRows
  /\ detectedHeaders (normalized result) = headers
  /\ dateRange (normalized result)
     = range_of (accepted_dates (Js.indexOf headers "date") dataRows).
Proof.
  intros Hchecked Hresult.
  by destruct (rows_checked_result _ _ _ _ _ Hchecked Hresult)
    as (new & -> & _).
Qed.

Lemma clean_rows_accepted dateIdx sessionsIdx usersIdx pageviewsIdx dataRows :
  forallb (clean_row dateIdx sessionsIdx usersIdx pageviewsIdx) dataRows = true ->
  accepted_dates dateIdx dataRows = map (row_date dateIdx) dataRows.
Proof.
  unfold accepted_dates. induction dataRows as [|row rest IH]; [done|].
  simpl. intros [Hrow Hrest]%andb_prop.
  unfold clean_row in Hrow. do 3 apply andb_prop in Hrow as [Hrow _].
  rewrite Hrow. simpl. by rewrite IH.
Qed.

(** X7. A content whose rows are checked (it decodes, its header row has
    the required headers and its data rows are no more than [maxRows]),
    whose every data row passes the checks of its cells, whose dates do not
    repeat (or may), and are in order (or need not be), is valid: the
    validator returns, with no error and no finding but the warning of the
    optional header; it counts the data rows and reports the range of their
    dates. *)
Theorem clean_content_valid content options headers dataRows :
  rows_checked content options headers dataRows ->
  let dateIdx := Js.indexOf headers "date" in
  let dates := map (row_date dateIdx) dataRows in
  forallb (clean_row dateIdx (Js.indexOf headers "sessions")
             (Js.indexOf headers "users") (Js.indexOf headers "pageviews"))
    dataRows = true ->
  flag (allowDuplicateDates options) = true \/ NoDup dates ->
  flag (requireSortedByDateAsc options) = false \/ Sorted String.le dates ->
  exists result,
    validateGA4CSV content options = Normal result
    /\ valid (summary result) = true
    /\ issues (summary result) = 0
    /\ rows (summary result) = length dataRows
    /\ findings result = optional_header_findings headers options
    /\ dateRange (normalized result) = range_of dates.
Proof.
  intros Hchecked dateIdx dates Hclean Hdup Hsorted. subst dates dateIdx.
  assert (exists st, run_rows options headers dataRows = Normal st) as [st Hrun].
  { apply forEach_rows_returns.
    apply forallb_forall. intros row Hin.
    rewrite forallb_forall in Hclean. eapply clean_row_safe. by apply Hclean. }
  assert (Hresult : exists result, validateGA4CSV content options = Normal result).
  { rewrite (rows_checked_run _ _ _ _ Hchecked), Hrun. simpl. eauto. }
  destruct Hresult as [result Hresult]. exists result. split; [done|].
  destruct (rows_checked_result _ _ _ _ _ Hchecked Hresult)
    as (new & -> & Hrows & Hcount & Hlength).
  rewrite (clean_rows_accepted _ _ _ _ _ Hclean) in *.
  set (dates := map (row_date (Js.indexOf headers "date")) dataRows) in *.
  assert (new = []) as ->.
  { apply nil_length_inv. rewrite (Hlength Hclean).
    destruct (flag (allowDuplicateDates options)); [done|].
    destruct Hdup as [|Hnodup]; [done|].
    rewrite size_list_to_set in Hcount by done. lia. }
  assert (ordering_findings options dates = []) as ->.
  { unfold ordering_findings.
    destruct Hsorted as [->|Hs]; [done|].
    apply some_differs_sort in Hs. rewrite Hs. by rewrite andb_false_r. }
  cbn [app]. rewrite app_nil_r. cbn [aggregate summary valid issues rows
    findings normalized dateRange].
  assert (count_level error (optional_header_findings headers options) = 0)
    as ->.
  { unfold optional_header_findings, count_level.
    by destruct (_ && _). }
  done.
Qed.

(** X8. A content whose rows are checked gets a result exactly when no
    row with enough columns has a date of the shape YYYY-MM-DD that [Date]
    reads neither as an ISO date (month 01..12, day 01..31) nor through
    V8's legacy parser (year 0001..0012, month 01..31); otherwise the
    validator throws. *)
Theorem validator_returns content options headers dataRows :
  rows_checked content options headers dataRows ->
  (exists result, validateGA4CSV content options = Normal result)
  <-> forallb (safe_row (Js.indexOf headers "date")) dataRows = true.
Proof.
  intros Hchecked. rewrite (rows_checked_run _ _ _ _ Hchecked).
  rewrite (forEach_rows_returns options (Js.indexOf headers "date")
             (Js.indexOf headers "sessions") (Js.indexOf headers "users")
             (Js.indexOf headers "pageviews") dataRows
             (initial_state headers options) 0).
  fold (run_rows options headers dataRows).
  destruct (run_rows options headers dataRows) as [st|e]; simpl.
  - split; eauto.
  - split; [by intros [? ?]|by intros [? ?]].
Qed.

Lemma decodeContent_base64 data :
  decodeContent ("base64:" +:+ data)
  = match atob data with
    | Some binaryString => Normal (TextDecoder_decode binaryString)
    | None =>
        Throw (InvalidCharacterError
                 "The string to be decoded is not correctly encoded.")
    end.
Proof.
  unfold decodeContent, Js.startsWith. by rewrite prefix_append.
Qed.

Lemma decodeContent_text csvText :
  decodeContent ("text:" +:+ csvText) = Normal csvText.
Proof.
  unfold decodeContent, Js.startsWith. rewrite prefix_append.
  by replace (String.prefix "base64:" ("text:" +:+ csvText)) with false.
Qed.

(** X9. A content sent in base64 is validated as the text that the
    platform decodes it to: the result is that of the same text sent with
    the prefix text:. *)
Theorem base64_as_text data binaryString options :
  atob data = Some binaryString ->
  validateGA4CSV ("base64:" +:+ data) options
  = validateGA4CSV ("text:" +:+ TextDecoder_decode binaryString) options.
Proof.
  intros Hatob. unfold validateGA4CSV.
  by rewrite decodeContent_base64, Hatob, decodeContent_text.
Qed.

End ValidatorMore.

(** ** More of the validator on examples *)

Lemma unsorted_rows_checked :
  @rows_checked example_platform unsorted_content sorted_required
    example_headers unsorted_rows.
Proof.
  exists (Js.substring_from 5 unsorted_content).
  split; [vm_compute; reflexivity|]. split; [vm_compute; reflexivity|].
  split; [repeat constructor|]. vm_compute. discriminate.
Qed.

Lemma repeated_rows_checked :
  @rows_checked example_platform repeated_content no_options
    example_headers repeated_rows.
Proof.
  exists (Js.substring_from 5 repeated_content).
  split; [vm_compute; reflexivity|]. split; [vm_compute; reflexivity|].
  split; [repeat constructor|]. vm_compute. discriminate.
Qed.

Lemma readme_rows_checked :
  @rows_checked example_platform (content readme_request) no_options
    example_headers [["2024-01-01"; "150"; "120"]].
Proof.
  exists readme_text.
  split; [vm_compute; reflexivity|]. split; [vm_compute; reflexivity|].
  split; [repeat constructor|]. vm_compute. discriminate.
Qed.

Lemma summary_counts_findings_witness :
  issues (summary unsorted_result) = count_level error (findings unsorted_result)
  /\ warnings (summary unsorted_result)
     = count_level warning (findings unsorted_result)
  /\ issues (summary unsorted_result) + warnings (summary unsorted_result)
     = length (findings unsorted_result)
  /\ (valid (summary unsorted_result) = true
      <-> issues (summary unsorted_result) = 0).
Proof.
  apply (@summary_counts_findings example_platform unsorted_content
           sorted_required unsorted_result).
  vm_compute. reflexivity.
Defined.

Lemma undecodable_content_witness :
  @validateGA4CSV example_platform readme_text no_options
  = Normal (buildErrorResponse [encoding_finding] 0).
Proof.
  apply (proj1 (@undecodable_content example_platform readme_text no_options)).
  left. split; vm_compute; reflexivity.
Defined.

Lemma missing_required_headers_witness :
  exists result f missing,
    @validateGA4CSV example_platform missing_users_content no_options
    = Normal result
    /\ findings result = [f]
    /\ level f = error /\ code f = "MISSING_REQUIRED_HEADERS"
    /\ pointer f = Some (PointerMissing missing)
    /\ (forall h, In h missing
                  <-> In h requiredHeaders
                      /\ Js.includes ["date"; "sessions"; "pageviews"] h = false)
    /\ rows (summary result) = 0
    /\ valid (summary result) = false
    /\ detectedHeaders (normalized result) = [].
Proof.
  apply (@missing_required_headers example_platform missing_users_content
           no_options (Js.substring_from 5 missing_users_content)
           ["date"; "sessions"; "pageviews"] [["2024-01-01"; "100"; "200"]]).
  - vm_compute. reflexivity.
  - vm_compute. reflexivity.
  - right. right. left. reflexivity.
Defined.

Lemma ordering_reported_witness :
  (Exists (fun f => code f = "NOT_SORTED_BY_DATE") (findings unsorted_result)
   <-> flag (requireSortedByDateAsc sorted_required) = true
       /\ ~ Sorted String.le
              (accepted_dates (Js.indexOf example_headers "date") unsorted_rows))
  /\ count_code "NOT_SORTED_BY_DATE" (findings unsorted_result) <= 1.
Proof.
  apply (@ordering_reported example_platform unsorted_content sorted_required
           example_headers unsorted_rows unsorted_result).
  - exact unsorted_rows_checked.
  - vm_compute. reflexivity.
Defined.

Lemma duplicate_dates_counted_witness :
  exists result,
    @validateGA4CSV example_platform repeated_content no_options = Normal result
    /\ count_code "DUPLICATE_DATE" (findings result) = 1
    /\ count_code "DUPLICATE_DATE" (findings result)
       = if flag (allowDuplicateDates no_options) then 0
         else length (accepted_dates (Js.indexOf example_headers "date")
                        repeated_rows)
              - size (list_to_set (C := gset string)
                        (accepted_dates (Js.indexOf example_headers "date")
                           repeated_rows)).
Proof.
  eexists. split; [vm_compute; reflexivity|]. split; [reflexivity|].
  apply (@duplicate_dates_counted example_platform repeated_content no_options
           example_headers repeated_rows).
  - exact repeated_rows_checked.
  - vm_compute. reflexivity.
Defined.

Lemma result_reports_rows_witness :
  rows (summary unsorted_result) = length unsorted_rows
  /\ detectedHeaders (normalized unsorted_result) = example_headers
  /\ dateRange (normalized unsorted_result)
     = range_of (accepted_dates (Js.indexOf example_headers "date")
                   unsorted_rows).
Proof.
  apply (@result_reports_rows example_platform unsorted_content sorted_required
           example_headers unsorted_rows unsorted_result).
  - exact unsorted_rows_checked.
  - vm_compute. reflexivity.
Defined.

Lemma clean_content_valid_witness :
  exists result,
    @validateGA4CSV example_platform (content readme_request) no_options
    = Normal result
    /\ valid (summary result) = true
    /\ issues (summary result) = 0
    /\ rows (summary result) = length [["2024-01-01"; "150"; "120"]]
    /\ findings result = optional_header_findings example_headers no_options
    /\ dateRange (normalized result)
       = range_of (map (row_date (Js.indexOf example_headers "date"))
                     [["2024-01-01"; "150"; "120"]]).
Proof.
  apply (@clean_content_valid example_platform (content readme_request)
           no_options example_headers [["2024-01-01"; "150"; "120"]]).
  - exact readme_rows_checked.
  - vm_compute. reflexivity.
  - right. apply NoDup_singleton.
  - left. reflexivity.
Defined.

Lemma validator_returns_witness :
  (exists result,
      @validateGA4CSV example_platform unsorted_content sorted_required
      = Normal result)
  <-> forallb (safe_row (Js.indexOf example_headers "date")) unsorted_rows
      = true.
Proof.
  apply (@validator_returns example_platform unsorted_content sorted_required
           example_headers unsorted_rows).
  exact unsorted_rows_checked.
Defined.

Lemma base64_as_text_witness :
  @validateGA4CSV example_platform ("base64:" +:+ readme_base64) no_options
  = @validateGA4CSV example_platform
      ("text:" +:+ @TextDecoder_decode example_platform readme_text) no_options.
Proof.
  apply (@base64_as_text example_platform readme_base64 readme_text no_options).
  vm_compute. reflexivity.
Defined.

(** Dates that V8 reads through its legacy parser, and dates that it does
    not read: the first are rejected with a finding, the second make the
    validator throw. *)
Lemma legacy_dates_examples :
  isValidDate (Some "0001-13-01") = Normal false
  /\ isValidDate (Some "0012-31-99") = Normal false
  /\ isValidDate (Some "0005-10-00") = Normal false
  /\ isValidDate (Some "0005-00-10") = Throw (RangeError "Invalid time value")
  /\ isValidDate (Some "0013-13-01") = Throw (RangeError "Invalid time value")
  /\ isValidDate (Some "0000-13-01") = Throw (RangeError "Invalid time value")
  /\ isValidDate (Some "2024-13-01") = Throw (RangeError "Invalid time value")
  /\ isValidDate (Some "2024-02-30") = Normal false
  /\ isValidDate (Some "2024-02-29") = Normal true.
Proof. repeat split; vm_compute; reflexivity. Qed.

(** ** Dates: what [isValidDate] accepts *)

Section Dates.
Local Open Scope Z_scope.

Lemma cycle_checked :
  forallb (fun y =>
    forallb (fun m =>
      forallb (fun d =>
        let '(cy, cm, cd) := Js.civil_from_days (Js.days_from_civil y (m + 1) 1 + (d + 1) - 1) in
        let '(ry, rm, rd) := rolled y (m + 1) (d + 1) in
        (cy =? ry) && (cm =? rm) && (cd =? rd))
        (Z_range 31)) (Z_range 12)) (Z_range 400) = true.
Proof. vm_compute. reflexivity. Qed.

Lemma Z_range_In n z : 0 <= z < Z.of_nat n -> In z (Z_range n).
Proof.
  intros Hz. unfold Z_range. apply in_map_iff. exists (Z.to_nat z).
  split; [lia|]. apply in_seq. lia.
Qed.

Lemma civil_cycle y m d :
  0 <= y < 400 -> 1 <= m <= 12 -> 1 <= d <= 31 ->
  Js.civil_from_days (Js.days_from_civil y m 1 + d - 1) = rolled y m d.
Proof.
  intros Hy Hm Hd. pose proof cycle_checked as Hc.
  rewrite forallb_forall in Hc.
  assert (H400 : Z.of_nat 400 = 400) by reflexivity.
  assert (H12 : Z.of_nat 12 = 12) by reflexivity.
  assert (H31 : Z.of_nat 31 = 31) by reflexivity.
  assert (Iy : In y (Z_range 400)) by (apply Z_range_In; lia).
  assert (Im : In (m - 1) (Z_range 12)) by (apply Z_range_In; lia).
  assert (Id : In (d - 1) (Z_range 31)) by (apply Z_range_In; lia).
  specialize (Hc y Iy).
  rewrite forallb_forall in Hc.
  specialize (Hc (m - 1) Im).
  rewrite forallb_forall in Hc.
  specialize (Hc (d - 1) Id).
  replace (m - 1 + 1) with m in Hc by lia.
  replace (d - 1 + 1) with d in Hc by lia.
  destruct (Js.civil_from_days _) as [[cy cm] cd].
  destruct (rolled y m d) as [[ry rm] rd].
  apply andb_prop in Hc as [Hc H3]. apply andb_prop in Hc as [H1 H2].
  f_equal; [f_equal|]; lia.
Qed.

Lemma days_from_civil_period y m d k :
  Js.days_from_civil (y + 400 * k) m d = Js.days_from_civil y m d + 146097 * k.
Proof.
  unfold Js.days_from_civil.
  set (y' := if m <=? 2 then y - 1 else y).
  replace (if m <=? 2 then y + 400 * k - 1 else y + 400 * k)
    with (y' + k * 400) by (subst y'; destruct (m <=? 2); lia).
  cbv zeta. rewrite Z.div_add by lia.
  replace (y' + k * 400 - (y' / 400 + k) * 400) with (y' - y' / 400 * 400)
    by lia.
  lia.
Qed.

Lemma civil_from_days_period z k :
  Js.civil_from_days (z + 146097 * k)
  = let '(y, m, d) := Js.civil_from_days z in (y + 400 * k, m, d).
Proof.
  unfold Js.civil_from_days.
  replace (z + 146097 * k + 719468) with (z + 719468 + k * 146097) by lia.
  rewrite Z.div_add by lia.
  set (era := (z + 719468) / 146097).
  replace (z + 719468 + k * 146097 - (era + k) * 146097)
    with (z + 719468 - era * 146097) by lia.
  set (doe := z + 719468 - era * 146097).
  set (yoe := (doe - doe / 1460 + doe / 36524 - doe / 146096) / 365).
  set (doy := doe - (365 * yoe + yoe / 4 - yoe / 100)).
  set (mp := (5 * doy + 2) / 153).
  cbv zeta.
  destruct ((if mp <? 10 then mp + 3 else mp - 9) <=? 2); f_equal; f_equal; lia.
Qed.

Lemma leap_year_period y k : leap_year (y + 400 * k) = leap_year y.
Proof.
  unfold leap_year.
  replace (y + 400 * k) with (y + (100 * k) * 4) at 1 by lia.
  replace (y + 400 * k) with (y + (4 * k) * 100) at 1 by lia.
  replace (y + 400 * k) with (y + k * 400) by lia.
  by rewrite !Z.mod_add by lia.
Qed.

Lemma days_in_month_period y m k :
  days_in_month (y + 400 * k) m = days_in_month y m.
Proof. unfold days_in_month. by rewrite leap_year_period. Qed.

Lemma civil_of_date y m d :
  1 <= m <= 12 -> 1 <= d <= 31 ->
  Js.civil_from_days (Js.days_from_civil y m 1 + d - 1) = rolled y m d.
Proof.
  intros Hm Hd.
  assert (Hy : y = y mod 400 + 400 * (y / 400))
    by (pose proof (Z.div_mod y 400 ltac:(lia)); lia).
  assert (H0 : 0 <= y mod 400 < 400) by (apply Z.mod_pos_bound; lia).
  revert Hy H0. generalize (y mod 400) (y / 400). intros y0 k -> Hy0.
  rewrite days_from_civil_period.
  replace (Js.days_from_civil y0 m 1 + 146097 * k + d - 1)
    with (Js.days_from_civil y0 m 1 + d - 1 + 146097 * k) by lia.
  rewrite civil_from_days_period, civil_cycle by done.
  unfold rolled. rewrite days_in_month_period.
  destruct (d <=? days_in_month y0 m); reflexivity.
Qed.

(** Every text of two digits, and of four, is the field that [toISOString]
    writes for its number (checked on all of them). *)
Lemma digits2_checked :
  forallb (fun c1 => forallb (fun c2 =>
    let s := String c1 (String c2 "") in
    String.eqb (field_text 2 (field_value s)) s) digit_chars) digit_chars
  = true.
Proof. vm_compute. reflexivity. Qed.

Lemma digits4_checked :
  forallb (fun c1 => forallb (fun c2 => forallb (fun c3 => forallb (fun c4 =>
    let s := String c1 (String c2 (String c3 (String c4 ""))) in
    String.eqb (field_text 4 (field_value s)) s)
    digit_chars) digit_chars) digit_chars) digit_chars
  = true.
Proof. vm_compute. reflexivity. Qed.

Lemma is_digit_In c : Js.is_digit c = true -> In c digit_chars.
Proof.
  destruct c as [[|] [|] [|] [|] [|] [|] [|] [|]]; intros Hc;
    try discriminate Hc; simpl; auto 12.
Qed.

Lemma field_text_2 c1 c2 :
  Js.is_digit c1 = true -> Js.is_digit c2 = true ->
  field_text 2 (field_value (String c1 (String c2 ""))) = String c1 (String c2 "").
Proof.
  intros H1%is_digit_In H2%is_digit_In.
  pose proof digits2_checked as Hc.
  rewrite forallb_forall in Hc. specialize (Hc c1 H1).
  rewrite forallb_forall in Hc. specialize (Hc c2 H2).
  by apply String.eqb_eq in Hc.
Qed.

Lemma field_text_4 c1 c2 c3 c4 :
  Js.is_digit c1 = true -> Js.is_digit c2 = true ->
  Js.is_digit c3 = true -> Js.is_digit c4 = true ->
  field_text 4 (field_value (String c1 (String c2 (String c3 (String c4 "")))))
  = String c1 (String c2 (String c3 (String c4 ""))).
Proof.
  intros H1%is_digit_In H2%is_digit_In H3%is_digit_In H4%is_digit_In.
  pose proof digits4_checked as Hc.
  rewrite forallb_forall in Hc. specialize (Hc c1 H1).
  rewrite forallb_forall in Hc. specialize (Hc c2 H2).
  rewrite forallb_forall in Hc. specialize (Hc c3 H3).
  rewrite forallb_forall in Hc. specialize (Hc c4 H4).
  by apply String.eqb_eq in Hc.
Qed.

Lemma iso_text_fields s :
  Js.test_iso_date s = true ->
  let '(y, m, d) := date_fields s in iso_text y m d = s.
Proof.
  unfold Js.test_iso_date.
  destruct s as [|y1 [|y2 [|y3 [|y4 [|h1 [|m1 [|m2 [|h2 [|da1 [|da2 [|? ?]]]]]]]]]]];
    try discriminate.
  intros Ht. do 9 (apply andb_prop in Ht as [Ht ?]).
  repeat match goal with Hh : Ascii.eqb _ _ = true |- _ => apply Ascii.eqb_eq in Hh as -> end.
  unfold date_fields, iso_text.
  change (String.substring 0 4 _) with (String y1 (String y2 (String y3 (String y4 "")))).
  change (String.substring 5 2 _) with (String m1 (String m2 "")).
  change (String.substring 8 2 _) with (String da1 (String da2 "")).
  fold (field_value (String y1 (String y2 (String y3 (String y4 ""))))).
  fold (field_value (String m1 (String m2 ""))).
  fold (field_value (String da1 (String da2 ""))).
  rewrite field_text_4, !field_text_2 by done. reflexivity.
Qed.

Lemma string_append_assoc (a b c : string) : (a +:+ b) +:+ c = a +:+ (b +:+ c).
Proof. induction a as [|x a IH]; [done|]. by rewrite !append_String, IH. Qed.

Lemma prefix_cancel p a b :
  String.prefix (p +:+ a) (p +:+ b) = String.prefix a b.
Proof.
  induction p as [|c p IH]; [done|].
  rewrite !append_String, prefix_String. by destruct (ascii_dec c c).
Qed.

Lemma toISOString_text t :
  Js.toISOString (Some t)
  = let '(y, m, d) := Js.civil_from_days (t / Js.msPerDay) in
    Normal (iso_text y m d +:+ "T00:00:00.000Z").
Proof.
  unfold Js.toISOString. destruct (Js.civil_from_days _) as [[y m] d].
  unfold iso_text, field_text. by rewrite !string_append_assoc.
Qed.

Lemma iso_text_next_month y m d d' :
  (1 <= m <= 11)%Z ->
  String.prefix (iso_text y m d) (iso_text y (m + 1) d' +:+ "T00:00:00.000Z")
  = false.
Proof.
  intros Hm. unfold iso_text. rewrite string_append_assoc, prefix_cancel.
  assert (Hcases : In m [1; 2; 3; 4; 5; 6; 7; 8; 9; 10; 11]%Z).
  { simpl. lia. }
  simpl in Hcases.
  repeat (destruct Hcases as [<-|Hcases]; [reflexivity|]). done.
Qed.

(** The day field of a text of the shape is below 100. *)
Lemma digits2_bound_checked :
  forallb (fun c1 => forallb (fun c2 =>
    (field_value (String c1 (String c2 "")) <? 100)%Z) digit_chars) digit_chars
  = true.
Proof. vm_compute. reflexivity. Qed.

Lemma date_fields_day s :
  Js.test_iso_date s = true ->
  let '(y, m, d) := date_fields s in 0 <= d < 100.
Proof.
  unfold Js.test_iso_date.
  destruct s as [|y1 [|y2 [|y3 [|y4 [|h1 [|m1 [|m2 [|h2 [|da1 [|da2 [|? ?]]]]]]]]]]];
    try discriminate.
  intros Ht. apply andb_prop in Ht as [Ht Hd2]. apply andb_prop in Ht as [Ht Hd1].
  apply is_digit_In in Hd1, Hd2.
  unfold date_fields.
  change (String.substring 8 2 _) with (String da1 (String da2 "")).
  fold (field_value (String da1 (String da2 ""))).
  pose proof digits2_bound_checked as Hc.
  rewrite forallb_forall in Hc. specialize (Hc da1 Hd1).
  rewrite forallb_forall in Hc. specialize (Hc da2 Hd2).
  unfold field_value in *. lia.
Qed.

(** The year that [toISOString] writes for a date of the legacy parser
    starts with 1 or 2, and a year 0001..0012 with 0. *)
Lemma legacy_years_checked :
  forallb (fun y => forallb (fun d =>
    (String.length (field_text 4 (y + 1)) =? 4)%nat
    && (String.length (field_text 4 (legacy_year d)) =? 4)%nat
    && negb (String.eqb (field_text 4 (y + 1)) (field_text 4 (legacy_year d))))
    (Z_range 100)) (Z_range 12) = true.
Proof. vm_compute. reflexivity. Qed.

Lemma prefix_differs (a b x y : string) :
  String.length a = String.length b -> a <> b ->
  String.prefix (a +:+ x) (b +:+ y) = false.
Proof.
  revert b. induction a as [|c a IH]; intros [|c' b] Hlen Hne;
    try done; simpl in Hlen.
  rewrite !append_String, prefix_String.
  destruct (ascii_dec c c') as [->|]; [|done].
  apply IH; [lia|]. by intros ->.
Qed.

Lemma iso_text_legacy y m d m' d' :
  1 <= y <= 12 -> 0 <= d < 100 ->
  String.prefix (iso_text y m d)
    (iso_text (legacy_year d) m' d' +:+ "T00:00:00.000Z") = false.
Proof.
  intros Hy Hd. pose proof legacy_years_checked as Hc.
  assert (H12 : Z.of_nat 12 = 12) by reflexivity.
  assert (H100 : Z.of_nat 100 = 100) by reflexivity.
  assert (Iy : In (y - 1) (Z_range 12)) by (apply Z_range_In; lia).
  assert (Id : In d (Z_range 100)) by (apply Z_range_In; lia).
  rewrite forallb_forall in Hc. specialize (Hc (y - 1) Iy).
  rewrite forallb_forall in Hc. specialize (Hc d Id).
  replace (y - 1 + 1) with y in Hc by lia.
  apply andb_prop in Hc as [Hc Hne]. apply andb_prop in Hc as [Hy4 Hd4].
  apply Nat.eqb_eq in Hy4, Hd4. apply negb_true_iff, String.eqb_neq in Hne.
  unfold iso_text. rewrite !string_append_assoc.
  apply prefix_differs; [congruence|done].
Qed.

Lemma rolled_year y m d : (rolled y m d).1.1 = y.
Proof. unfold rolled. by destruct (d <=? days_in_month y m). Qed.

Lemma calendar_date_iso s :
  calendar_date s = true ->
  let '(y, m, d) := date_fields s in iso_fields m d = true.
Proof.
  unfold calendar_date, iso_fields. destruct (date_fields s) as [[y m] d].
  intros Hc. apply andb_prop in Hc as [_ Hc].
  assert (days_in_month y m <= 31).
  { unfold days_in_month. destruct (leap_year y);
      repeat match goal with |- context [match ?x with _ => _ end] =>
               destruct x end; lia. }
  lia.
Qed.

Lemma isValidDate_cases v :
  isValidDate v
  = if unreadable_date (Js.ToString v)
    then Throw (RangeError "Invalid time value")
    else Normal (calendar_date (Js.ToString v)).
Proof.
  set (s := Js.ToString v).
  pose proof (calendar_date_iso s) as Hcalendar.
  unfold isValidDate, unreadable_date, calendar_date in *. fold s.
  destruct (Js.test_iso_date s) eqn:Ht; cbn [negb andb].
  2: { by destruct (date_fields s) as [[y m] d]. }
  pose proof (iso_text_fields s Ht) as Htext.
  pose proof (date_fields_day s Ht) as Hday.
  unfold Js.Date_of_iso. unfold date_fields in *.
  set (y := Z.of_N (Js.digits_value (String.substring 0 4 s))) in *.
  set (m := Z.of_N (Js.digits_value (String.substring 5 2 s))) in *.
  set (d := Z.of_N (Js.digits_value (String.substring 8 2 s))) in *.
  fold (iso_fields m d). fold (legacy_fields y m).
  destruct (iso_fields m d) eqn:Hrange; cbn [cbind negb andb].
  - unfold iso_fields in Hrange. rewrite toISOString_text.
    rewrite Z.div_mul by done.
    assert (Hm : (1 <= m <= 12)%Z /\ (1 <= d <= 31)%Z) by lia.
    destruct Hm as [Hm Hd]. rewrite civil_of_date by done.
    unfold rolled.
    assert (Hmd : ((1 <=? m) && (m <=? 12) && (1 <=? d))%Z = true) by lia.
    rewrite Hmd. cbn [andb cbind].
    destruct (d <=? days_in_month y m)%Z eqn:Hdim.
    + cbn [cbind]. unfold Js.startsWith. rewrite Htext. by rewrite prefix_append.
    + cbn [cbind]. unfold Js.startsWith. rewrite <- Htext at 1.
      rewrite iso_text_next_month; [done|].
      assert (m <> 12) by (intros ->; simpl in Hdim; lia). lia.
  - destruct ((1 <=? m) && (m <=? 12) && (1 <=? d) && (d <=? days_in_month y m))
      eqn:Hnot; [by discriminate (Hcalendar eq_refl)|].
    destruct (legacy_fields y m) eqn:Hlegacy; cbn [negb cbind]; [|done].
    unfold legacy_fields in Hlegacy. fold (legacy_year d).
    rewrite toISOString_text, Z.div_mul by done.
    rewrite civil_of_date by lia.
    pose proof (rolled_year (legacy_year d) y m) as Hyear.
    destruct (rolled (legacy_year d) y m) as [[ry rm] rd]. simpl in Hyear.
    subst ry. cbn [cbind]. unfold Js.startsWith. rewrite <- Htext at 1.
    rewrite iso_text_legacy; [done|lia|done].
Qed.

(** X10. [isValidDate] tells the days of the calendar: on a text of the
    shape YYYY-MM-DD whose month is 01..12 and whose day is 01..31 it
    returns true exactly when the month of that year has the day (leap
    years counted), a day past the end of the month being carried by [Date]
    into the next one; on a text of another shape it returns false. On a
    text of the shape whose month or day is outside those ranges it returns
    false when the year is 0001..0012 and the month field 01..31 (V8's
    legacy parser then reads a date of another year), and it throws the
    RangeError of [toISOString] otherwise. *)
Theorem isValidDate_calendar v :
  let s := Js.ToString v in
  let '(y, m, d) := date_fields s in
  isValidDate v
  = if negb (Js.test_iso_date s) then Normal false
    else if ((1 <=? m) && (m <=? 12) && (1 <=? d) && (d <=? 31))%Z
         then Normal (d <=? days_in_month y m)%Z
         else if ((1 <=? y) && (y <=? 12) && (1 <=? m) && (m <=? 31))%Z
              then Normal false
              else Throw (RangeError "Invalid time value").
Proof.
  intros s. rewrite isValidDate_cases. fold s.
  unfold unreadable_date, calendar_date, iso_fields, legacy_fields, date_fields.
  set (y := Z.of_N (Js.digits_value (String.substring 0 4 s))).
  set (m := Z.of_N (Js.digits_value (String.substring 5 2 s))).
  set (d := Z.of_N (Js.digits_value (String.substring 8 2 s))).
  destruct (Js.test_iso_date s); cbn [negb andb]; [|done].
  destruct ((1 <=? m) && (m <=? 12) && (1 <=? d) && (d <=? 31))%Z eqn:Hrange;
    cbn [negb andb].
  - assert (Hmd : ((1 <=? m) && (m <=? 12) && (1 <=? d))%Z = true) by lia.
    by rewrite Hmd.
  - assert (Hnot : ((1 <=? m) && (m <=? 12) && (1 <=? d)
                    && (d <=? days_in_month y m))%Z = false).
    { assert (days_in_month y m <= 31).
      { unfold days_in_month. destruct (leap_year y);
          repeat match goal with |- context [match ?x with _ => _ end] =>
                   destruct x end; lia. }
      lia. }
    rewrite Hnot. destruct ((1 <=? y) && _ && _ && _)%Z; reflexivity.
Qed.

End Dates.

(** ** The findings of the rows *)

Section RowFindings.
Context `{Platform}.

Lemma count_code_integer_own name findingCode rowIndex value :
  count_code findingCode (integer_field_findings name findingCode rowIndex value)
  = Nat.b2n (negb (isNonNegativeInteger value)).
Proof.
  destruct (integer_field_findings_cases name findingCode rowIndex value)
    as [[-> ->]|[-> (f & -> & _ & Hc)]]; [done|].
  unfold count_code. simpl. by rewrite Hc, String.eqb_refl.
Qed.

Lemma integer_checks_findings idx row sessionsIdx usersIdx pageviewsIdx
    (guard : bool) st :
  st_findings
    (if guard
     then check_integer_field "pageviews" "INVALID_PAGEVIEWS_VALUE" idx
            (Js.get row pageviewsIdx)
            (check_integer_field "users" "INVALID_USERS_VALUE" idx
               (Js.get row usersIdx)
               (check_integer_field "sessions" "INVALID_SESSIONS_VALUE" idx
                  (Js.get row sessionsIdx) st))
     else check_integer_field "users" "INVALID_USERS_VALUE" idx
            (Js.get row usersIdx)
            (check_integer_field "sessions" "INVALID_SESSIONS_VALUE" idx
               (Js.get row sessionsIdx) st))
  = st_findings st
    ++ integer_field_findings "sessions" "INVALID_SESSIONS_VALUE" idx
         (Js.get row sessionsIdx)
    ++ integer_field_findings "users" "INVALID_USERS_VALUE" idx
         (Js.get row usersIdx)
    ++ (if guard
        then integer_field_findings "pageviews" "INVALID_PAGEVIEWS_VALUE" idx
               (Js.get row pageviewsIdx)
        else []).
Proof.
  destruct guard; rewrite !check_integer_field_findings, <- ?app_assoc; [done|].
  by rewrite app_nil_r.
Qed.

(** The findings that the integer checks of a row add, counted by code. *)
Lemma integer_checks_counts idx row sessionsIdx usersIdx pageviewsIdx
    (guard : bool) :
  let fields :=
    integer_field_findings "sessions" "INVALID_SESSIONS_VALUE" idx
      (Js.get row sessionsIdx)
    ++ integer_field_findings "users" "INVALID_USERS_VALUE" idx
         (Js.get row usersIdx)
    ++ (if guard
        then integer_field_findings "pageviews" "INVALID_PAGEVIEWS_VALUE" idx
               (Js.get row pageviewsIdx)
        else []) in
  count_code "INVALID_ROW_FORMAT" fields = 0
  /\ count_code "INVALID_DATE_FORMAT" fields = 0
  /\ count_code "INVALID_SESSIONS_VALUE" fields
     = Nat.b2n (negb (isNonNegativeInteger (Js.get row sessionsIdx)))
  /\ count_code "INVALID_USERS_VALUE" fields
     = Nat.b2n (negb (isNonNegativeInteger (Js.get row usersIdx)))
  /\ count_code "INVALID_PAGEVIEWS_VALUE" fields
     = Nat.b2n (guard && negb (isNonNegativeInteger (Js.get row pageviewsIdx))).
Proof.
  intros fields. subst fields.
  rewrite !count_code_app, !count_code_integer_own.
  destruct guard; cbn [andb Nat.b2n];
    rewrite ?count_code_integer_own, ?count_code_integer by discriminate;
    repeat split; try reflexivity; unfold count_code; simpl; lia.
Qed.

Lemma validateRow_counts options dateIdx sessionsIdx usersIdx pageviewsIdx
    st row idx st' :
  validateRow options dateIdx sessionsIdx usersIdx pageviewsIdx st row idx
  = Normal st' ->
  exists new,
    st_findings st' = st_findings st ++ new
    /\ Forall (fun check => count_code check.1 new = Nat.b2n (check.2 row))
         (row_checks dateIdx sessionsIdx usersIdx pageviewsIdx).
Proof.
  unfold validateRow.
  assert (Hchecks : forall new,
    count_code "INVALID_ROW_FORMAT" new = Nat.b2n (short_row row)
    /\ count_code "INVALID_DATE_FORMAT" new
       = Nat.b2n (rejected_date dateIdx row)
    /\ count_code "INVALID_SESSIONS_VALUE" new
       = Nat.b2n (rejected_cell sessionsIdx row)
    /\ count_code "INVALID_USERS_VALUE" new
       = Nat.b2n (rejected_cell usersIdx row)
    /\ count_code "INVALID_PAGEVIEWS_VALUE" new
       = Nat.b2n (rejected_pageviews pageviewsIdx row) ->
    Forall (fun check => count_code check.1 new = Nat.b2n (check.2 row))
      (row_checks dateIdx sessionsIdx usersIdx pageviewsIdx)).
  { intros new (? & ? & ? & ? & ?). by repeat constructor. }
  unfold rejected_pageviews, rejected_cell, rejected_date, date_accepted,
    pageviews_skipped, short_row in Hchecks.
  rewrite negb_involutive in Hchecks.
  change (length requiredHeaders) with 3 in *.
  destruct (length row <? 3)%nat eqn:Hlen.
  { intros [= <-]. eexists. split; [reflexivity|]. apply Hchecks.
    by rewrite !andb_false_r. }
  replace (3 <=? length row)%nat with true in Hchecks
    by (symmetry; apply Nat.leb_le; by apply Nat.ltb_ge).
  destruct (isValidDate (Js.get row dateIdx)) as [dateOk|e]; [|discriminate].
  cbn [cbind]. intros [= <-]. rewrite integer_checks_findings.
  set (guard := ((_ <=? _)%Z && _ && _)) in *.
  destruct (integer_checks_counts (idx + 2) row sessionsIdx usersIdx
              pageviewsIdx guard) as (Hrow & Hdate & Hs & Hu & Hp).
  set (fields := integer_field_findings "sessions" _ _ _ ++ _) in *.
  cbn [negb andb] in Hchecks.
  assert (Hnew : forall dateFindings,
    count_code "INVALID_ROW_FORMAT" dateFindings = 0 ->
    count_code "INVALID_DATE_FORMAT" dateFindings = Nat.b2n (negb dateOk) ->
    count_code "INVALID_SESSIONS_VALUE" dateFindings = 0 ->
    count_code "INVALID_USERS_VALUE" dateFindings = 0 ->
    count_code "INVALID_PAGEVIEWS_VALUE" dateFindings = 0 ->
    Forall (fun check =>
              count_code check.1 (dateFindings ++ fields) = Nat.b2n (check.2 row))
      (row_checks dateIdx sessionsIdx usersIdx pageviewsIdx)).
  { intros dateFindings H1 H2 H3 H4 H5. apply Hchecks.
    rewrite !count_code_app, H1, H2, H3, H4, H5, Hrow, Hdate, Hs, Hu, Hp.
    destruct dateOk; cbn [negb andb Nat.b2n]; repeat split; lia. }
  destruct dateOk; cbn [negb].
  - destruct (bool_decide (_ ∈ _)); [destruct (negb (flag _))|].
    + eexists. split; [cbn [push st_findings]; rewrite <- app_assoc; reflexivity|].
      by apply Hnew.
    + exists ([] ++ fields). split; [done|]. by apply Hnew.
    + exists ([] ++ fields). split; [done|]. by apply Hnew.
  - eexists. split; [cbn [push st_findings]; rewrite <- app_assoc; reflexivity|].
    by apply Hnew.
Qed.

Lemma forEach_rows_counts options dateIdx sessionsIdx usersIdx pageviewsIdx
    dataRows :
  forall st idx st',
  forEach_rows (validateRow options dateIdx sessionsIdx usersIdx pageviewsIdx)
    st dataRows idx = Normal st' ->
  exists new,
    st_findings st' = st_findings st ++ new
    /\ Forall (fun check =>
                 count_code check.1 new = length (List.filter check.2 dataRows))
         (row_checks dateIdx sessionsIdx usersIdx pageviewsIdx).
Proof.
  induction dataRows as [|row rest IH]; intros st idx st'; simpl.
  - intros [= <-]. exists []. rewrite app_nil_r. split; [done|].
    by apply Forall_forall.
  - destruct (validateRow _ _ _ _ _ st row idx) as [st1|e] eqn:Hrow;
      simpl; [|discriminate].
    intros Hrest.
    apply validateRow_counts in Hrow as (new1 & Hnew1 & Hcount1).
    apply IH in Hrest as (new2 & Hnew2 & Hcount2).
    exists (new1 ++ new2). split; [by rewrite Hnew2, Hnew1, app_assoc|].
    rewrite Forall_forall in Hcount1, Hcount2. apply Forall_forall.
    intros check Hcheck.
    rewrite count_code_app, (Hcount1 _ Hcheck), (Hcount2 _ Hcheck).
    by destruct (check.2 row).
Qed.

(** X29. The findings of the rows, counted: for a content whose rows are
    checked, there is one INVALID_ROW_FORMAT for every data row with fewer
    than three cells, and such a row counts for no other code; of the rows with
    three cells or more, one INVALID_DATE_FORMAT for every row whose date is
    rejected, one INVALID_SESSIONS_VALUE and one INVALID_USERS_VALUE for
    every row whose cell is not a non-negative integer, and one
    INVALID_PAGEVIEWS_VALUE for every row whose pageviews cell is there, is
    not empty and is not a non-negative integer. *)
Theorem row_findings_counted content options headers dataRows result :
  rows_checked content options headers dataRows ->
  validateGA4CSV content options = Normal result ->
  let count c := count_code c (findings result) in
  let rows_where p := length (List.filter p dataRows) in
  count "INVALID_ROW_FORMAT" = rows_where short_row
  /\ count "INVALID_DATE_FORMAT"
     = rows_where (rejected_date (Js.indexOf headers "date"))
  /\ count "INVALID_SESSIONS_VALUE"
     = rows_where (rejected_cell (Js.indexOf headers "sessions"))
  /\ count "INVALID_USERS_VALUE"
     = rows_where (rejected_cell (Js.indexOf headers "users"))
  /\ count "INVALID_PAGEVIEWS_VALUE"
     = rows_where (rejected_pageviews (Js.indexOf headers "pageviews")).
Proof.
  intros Hchecked Hresult count rows_where. subst count rows_where.
  rewrite (rows_checked_run _ _ _ _ Hchecked) in Hresult.
  destruct (run_rows options headers dataRows) as [st|e] eqn:Hrun;
    [|discriminate].
  injection Hresult as <-. cbn [aggregate findings].
  unfold run_rows in Hrun.
  apply forEach_rows_counts in Hrun as (new & Hnew & Hcount).
  cbn [initial_state st_findings] in Hnew. rewrite Hnew.
  assert (Hother : forall c,
    c <> "MISSING_OPTIONAL_HEADER" -> c <> "NOT_SORTED_BY_DATE" ->
    count_code c ((optional_header_findings headers options ++ new)
                  ++ ordering_findings options (st_dates st))
    = count_code c new).
  { intros c Hoptional Hordering. rewrite !count_code_app.
    rewrite (count_code_none c (optional_header_findings headers options))
      by by apply optional_header_findings_codes.
    rewrite (count_code_none c (ordering_findings options (st_dates st))).
    - lia.
    - eapply Forall_impl; [apply ordering_findings_error|].
      intros f [_ Hcode]. by rewrite Hcode. }
  rewrite !Hother by discriminate.
  do 4 (apply Forall_cons_1 in Hcount as [? Hcount]).
  apply Forall_cons_1 in Hcount as [? _]. done.
Qed.

End RowFindings.

(** ** The findings of the rows on an example *)

Lemma two_rows_checked :
  @rows_checked example_platform two_rows_content no_options
    ["date"; "sessions"; "users"; "pageviews"] two_rows.
Proof.
  exists (Js.substring_from 5 two_rows_content).
  split; [vm_compute; reflexivity|]. split; [vm_compute; reflexivity|].
  split; [repeat constructor|]. vm_compute. discriminate.
Qed.

Lemma row_findings_counted_witness :
  exists result,
    @validateGA4CSV example_platform two_rows_content no_options = Normal result
    /\ count_code "INVALID_ROW_FORMAT" (findings result)
       = length (List.filter short_row two_rows)
    /\ count_code "INVALID_DATE_FORMAT" (findings result)
       = length (List.filter (rejected_date 0) two_rows)
    /\ count_code "INVALID_SESSIONS_VALUE" (findings result)
       = length (List.filter (rejected_cell 1) two_rows)
    /\ count_code "INVALID_USERS_VALUE" (findings result)
       = length (List.filter (rejected_cell 2) two_rows)
    /\ count_code "INVALID_PAGEVIEWS_VALUE" (findings result)
       = length (List.filter (rejected_pageviews 3) two_rows).
Proof.
  eexists. split; [vm_compute; reflexivity|].
  apply (@row_findings_counted example_platform two_rows_content no_options
           ["date"; "sessions"; "users"; "pageviews"] two_rows).
  - exact two_rows_checked.
  - vm_compute. reflexivity.
Defined.

(** ** More on the middleware and the protocol *)

Section ProtocolMore.
Context `{Platform}.

Lemma length_append (a b : string) :
  String.length (a +:+ b) = String.length a + String.length b.
Proof. induction a as [|x a IH]; [done|]. rewrite append_String. simpl. lia. Qed.

Lemma append_inj_tail (c : string) :
  forall a b, a +:+ c = b +:+ c -> a = b.
Proof.
  induction a as [|x a IH]; intros [|y b] Heq.
  - done.
  - apply (f_equal String.length) in Heq. rewrite !length_append in Heq.
    simpl in Heq. lia.
  - apply (f_equal String.length) in Heq. rewrite !length_append in Heq.
    simpl in Heq. lia.
  - rewrite !append_String in Heq. injection Heq as -> Heq.
    by rewrite (IH b Heq).
Qed.

Lemma fingerprint_name_token h k k' :
  FingerprintRecord.fingerprint_name h k = FingerprintRecord.fingerprint_name h k' ->
  k = k'.
Proof.
  unfold FingerprintRecord.fingerprint_name. intros Heq.
  by do 3 apply (inj (String.app _)) in Heq.
Qed.

Lemma fingerprint_name_caller h h' k :
  FingerprintRecord.fingerprint_name h k = FingerprintRecord.fingerprint_name h' k ->
  h = h'.
Proof.
  unfold FingerprintRecord.fingerprint_name. intros Heq.
  apply (inj (String.app _)) in Heq.
  by apply (append_inj_tail (":" +:+ k)) in Heq.
Qed.

Lemma response_name_fingerprint h k f f' :
  response_name h k f = response_name h k f' -> f = f'.
Proof.
  unfold response_name. intros Heq.
  by do 5 apply (inj (String.app _)) in Heq.
Qed.

Lemma with_events_kv events w :
  IDEMPOTENCY_KV (with_events events w) = IDEMPOTENCY_KV w.
Proof. reflexivity. Qed.

(** X11. Neither version of [checkIdempotency] writes: whatever it
    decides, the store and the clock are as before, and the events it adds
    to the trace are reads of the store. *)
Theorem check_reads_only mw k a f rid w :
  source_middleware mw ->
  let w' := snd (checkIdempotency mw k a f rid w) in
  IDEMPOTENCY_KV w' = IDEMPOTENCY_KV w
  /\ Date_now w' = Date_now w
  /\ exists events,
       trace w' = trace w ++ events /\ forallb is_read events = true.
Proof.
  intros [->| ->] w'; subst w'; cbn [checkIdempotency list_prefix_middleware
    fingerprint_record_middleware].
  - rewrite ListPrefix_check_run.
    destruct (IDEMPOTENCY_KV w !! _) as [[[m|text] ttl]|];
      cbn [snd]; do 2 (split; [reflexivity|]); eexists;
      (split; [reflexivity|reflexivity]).
  - rewrite FingerprintRecord_check_run.
    destruct (IDEMPOTENCY_KV w !! FingerprintRecord.fingerprint_name _ _)
      as [[[m|stored] ttl]|];
      try destruct (String.eqb stored "");
      try destruct (negb (String.eqb stored f));
      try destruct (IDEMPOTENCY_KV w !! response_name _ _ _)
        as [[[m3|text3] ttl3]|];
      cbn [snd]; do 2 (split; [reflexivity|]); eexists;
      (split; [reflexivity|reflexivity]).
Qed.

(** X12. What is stored is what is replayed: in either version, the check
    that follows a store under the same key, API key and (non-empty)
    fingerprint hits, whatever was in the store before, and returns the
    stored response marked as a replay under that key. *)
Theorem store_then_check_hits mw k a f rid response w :
  source_middleware mw -> f <> "" ->
  let stored := snd (storeIdempotentResponse mw k a f response w) in
  fst (checkIdempotency mw k a f rid stored)
  = Normal (Some (set_idempotency response
                    (Some {| key := k; replayed := true |})))
  /\ payload (set_idempotency response (Some {| key := k; replayed := true |}))
     = payload response.
Proof.
  intros Hmw Hf stored. subst stored. split; [|by destruct response].
  destruct Hmw as [->| ->]; cbn [checkIdempotency storeIdempotentResponse
    list_prefix_middleware fingerprint_record_middleware].
  - rewrite ListPrefix_store_run, ListPrefix_check_run. cbn [snd IDEMPOTENCY_KV].
    by rewrite lookup_insert_eq.
  - rewrite FingerprintRecord_store_run, FingerprintRecord_check_run.
    unfold after_commit. cbn [snd IDEMPOTENCY_KV].
    rewrite lookup_insert_eq.
    rewrite (eqb_false_of_ne _ Hf), String.eqb_refl. cbn [negb].
    rewrite lookup_insert_ne by apply fingerprint_name_not_response_name.
    by rewrite lookup_insert_eq.
Qed.

(** X13. After two stores under one key with different fingerprints, the
    version with a fingerprint record keeps the last fingerprint only: a
    check with the first fingerprint now conflicts and one with the second
    replays. The list-prefix version replays both. *)
Theorem last_fingerprint_wins k a f1 f2 rid response1 response2 w :
  f1 <> "" -> f2 <> "" -> f1 <> f2 ->
  let stored mw :=
    snd (storeIdempotentResponse mw k a f2 response2
           (snd (storeIdempotentResponse mw k a f1 response1 w))) in
  outcome_of (fst (FingerprintRecord.checkIdempotency k a f1 rid
                     (stored fingerprint_record_middleware)))
  = Conflict (conflict_response rid)
  /\ outcome_of (fst (FingerprintRecord.checkIdempotency k a f2 rid
                        (stored fingerprint_record_middleware)))
     = Hit (set_idempotency response2 (replayed_mark k))
  /\ outcome_of (fst (ListPrefix.checkIdempotency k a f1 rid
                        (stored list_prefix_middleware)))
     = Hit (set_idempotency response1 (replayed_mark k))
  /\ outcome_of (fst (ListPrefix.checkIdempotency k a f2 rid
                        (stored list_prefix_middleware)))
     = Hit (set_idempotency response2 (replayed_mark k)).
Proof.
  intros Hf1 Hf2 Hne stored. subst stored.
  cbn [storeIdempotentResponse list_prefix_middleware
    fingerprint_record_middleware].
  assert (Hnames : response_name (sha256 a) k f2 <> response_name (sha256 a) k f1).
  { intros Heq. by apply response_name_fingerprint in Heq. }
  rewrite !FingerprintRecord_store_run, !ListPrefix_store_run.
  rewrite !FingerprintRecord_check_run, !ListPrefix_check_run.
  unfold after_commit. cbn [snd IDEMPOTENCY_KV].
  rewrite !lookup_insert_eq.
  rewrite (eqb_false_of_ne _ Hf2), String.eqb_refl.
  assert (String.eqb f2 f1 = false) as -> by by apply String.eqb_neq.
  cbn [negb].
  rewrite (lookup_insert_ne _ (FingerprintRecord.fingerprint_name _ _)
             (response_name _ _ f2))
    by apply fingerprint_name_not_response_name.
  rewrite !lookup_insert_eq.
  rewrite (lookup_insert_ne _ (response_name _ _ f2) (response_name _ _ f1))
    by done.
  rewrite !lookup_insert_eq.
  done.
Qed.

(** *** [fetch], by what the check decides *)

Lemma fetch_shape mw call w :
  fetch mw call w
  = if String.eqb (type (call_body call)) "" then
      (Normal (error_answer "MISSING_TYPE" "Validation type is required" 400
                 (call_requestId call)), w)
    else if String.eqb (content (call_body call)) "" then
      (Normal (error_answer "MISSING_CONTENT" "Content is required" 400
                 (call_requestId call)), w)
    else fetch mw call w.
Proof.
  destruct (String.eqb (type (call_body call)) "") eqn:Htype.
  { unfold fetch, validate_route, catch, error_answer. by rewrite Htype. }
  destruct (String.eqb (content (call_body call)) "") eqn:Hcontent; [|done].
  unfold fetch, validate_route, catch, error_answer. by rewrite Htype, Hcontent.
Qed.

(** Without a token or an API key: the engine runs and nothing else happens. *)
Lemma fetch_without_token mw call w :
  type (call_body call) <> "" -> content (call_body call) <> "" ->
  present (Idempotency_Key call) = false
  \/ present (Js.trim <$> x_api_key call) = false ->
  fetch mw call w
  = (match performValidation (call_body call) with
     | Normal result => Normal (validation_answer result (call_requestId call))
     | Throw _ =>
         Normal (error_answer "INTERNAL_ERROR" "An internal error occurred" 500
                   (call_requestId call))
     end,
     with_events [EngineInvoked (content (call_body call))
                    (options (call_body call))] w).
Proof.
  intros Htype Hcontent Hnone.
  unfold fetch, validate_route, catch.
  rewrite (eqb_false_of_ne _ Htype), (eqb_false_of_ne _ Hcontent).
  assert (negb (present (Idempotency_Key call))
          || negb (present (Js.trim <$> x_api_key call)) = true) as ->.
  { destruct Hnone as [-> | ->]; [done|apply orb_true_r]. }
  unfold bind. rewrite call_performValidation_run.
  by destruct (performValidation (call_body call)).
Qed.

(** With a token and an API key: the check decides. *)
Lemma fetch_with_token mw call T apiKey w :
  type (call_body call) <> "" -> content (call_body call) <> "" ->
  Idempotency_Key call = Some T -> T <> "" ->
  x_api_key call = Some apiKey -> Js.trim apiKey <> "" ->
  let body := call_body call in
  let rid := call_requestId call in
  let failed :=
    Normal (error_answer "INTERNAL_ERROR" "An internal error occurred" 500 rid) in
  fetch mw call w
  = match checkIdempotency mw T (Js.trim apiKey) (computeFingerprint body) rid w with
    | (Normal (Some existing), w1) => (Normal (validation_answer existing rid), w1)
    | (Throw (ThrownResponse r), w1) => (Normal (addTraceabilityHeaders r rid), w1)
    | (Throw (ThrownError _), w1) => (failed, w1)
    | (Normal None, w1) =>
        let w2 := with_events [EngineInvoked (content body) (options body)] w1 in
        match performValidation body with
        | Throw _ => (failed, w2)
        | Normal result =>
            let marked :=
              set_idempotency result (Some {| key := T; replayed := false |}) in
            match storeIdempotentResponse mw T (Js.trim apiKey)
                    (computeFingerprint body) marked w2 with
            | (Normal _, w3) => (Normal (validation_answer marked rid), w3)
            | (Throw _, w3) => (failed, w3)
            end
        end
    end.
Proof.
  intros Htype Hcontent HT HTne Hkey Hkeyne body rid failed.
  unfold fetch, validate_route, catch.
  rewrite (eqb_false_of_ne _ Htype), (eqb_false_of_ne _ Hcontent).
  rewrite HT, Hkey. cbn [fmap option_fmap option_map present default].
  unfold id.
  rewrite (eqb_false_of_ne _ HTne), (eqb_false_of_ne _ Hkeyne).
  cbn [negb orb]. unfold bind at 1 2 3. fold body rid.
  destruct (checkIdempotency mw T (Js.trim apiKey) (computeFingerprint body) rid w)
    as [[[existing|]|[e|r]] w1]; cbv beta iota; unfold ret, throw;
    try reflexivity.
  unfold bind. rewrite call_performValidation_run. fold body.
  destruct (performValidation body) as [result|e]; [|reflexivity].
  cbv beta iota. unfold with_events.
  destruct (storeIdempotentResponse mw T (Js.trim apiKey) _ _ _)
    as [[[]|e] w3]; reflexivity.
Qed.

Ltac engine_count :=
  unfold with_events, after_commit; cbn [trace fst snd];
  rewrite ?engine_invocations_app, ?engine_invocations_cons,
    ?engine_invocations_nil;
  simpl; lia.

Lemma engine_invocations_reads events :
  forallb is_read events = true -> engine_invocations events = 0.
Proof.
  induction events as [|ev events IH]; [done|]. simpl.
  intros [Hev Hevents]%andb_prop. rewrite engine_invocations_cons, IH by done.
  by destruct ev.
Qed.

(** What a check of either version leaves and what it can throw. *)
Lemma check_preserves mw k a f rid w :
  source_middleware mw ->
  IDEMPOTENCY_KV (snd (checkIdempotency mw k a f rid w)) = IDEMPOTENCY_KV w
  /\ engine_invocations (trace (snd (checkIdempotency mw k a f rid w)))
     = engine_invocations (trace w)
  /\ (forall r, fst (checkIdempotency mw k a f rid w) = Throw (ThrownResponse r) ->
                r = conflict_response rid).
Proof.
  intros [->| ->]; cbn [checkIdempotency list_prefix_middleware
    fingerprint_record_middleware].
  - rewrite ListPrefix_check_run.
    destruct (IDEMPOTENCY_KV w !! _) as [[[m|text] ttl]|];
      cbn [snd fst with_events IDEMPOTENCY_KV trace];
      (split; [reflexivity|]);
      (split; [rewrite ?engine_invocations_app, ?engine_invocations_cons,
                 ?engine_invocations_nil; simpl; lia|]); try done.
    intros r. destruct (0 <? _)%nat; [by intros [= <-]|done].
  - rewrite FingerprintRecord_check_run.
    destruct (IDEMPOTENCY_KV w !! FingerprintRecord.fingerprint_name _ _)
      as [[[m|stored] ttl]|];
      try destruct (String.eqb stored "");
      try destruct (negb (String.eqb stored f));
      try destruct (IDEMPOTENCY_KV w !! response_name _ _ _)
        as [[[m3|text3] ttl3]|];
      cbn [snd fst with_events IDEMPOTENCY_KV trace];
      (split; [reflexivity|]);
      (split; [rewrite ?engine_invocations_app, ?engine_invocations_cons,
                 ?engine_invocations_nil; simpl; lia|]); try done.
    by intros r [= <-].
Qed.

Lemma store_returns mw k a f response w :
  source_middleware mw ->
  fst (storeIdempotentResponse mw k a f response w) = Normal tt
  /\ engine_invocations (trace (snd (storeIdempotentResponse mw k a f response w)))
     = engine_invocations (trace w).
Proof.
  intros [->| ->]; cbn [storeIdempotentResponse list_prefix_middleware
    fingerprint_record_middleware].
  - rewrite ListPrefix_store_run. cbn [fst snd trace].
    split; [done|].
    rewrite ?engine_invocations_app, ?engine_invocations_cons,
      ?engine_invocations_nil. simpl. lia.
  - rewrite FingerprintRecord_store_run. unfold after_commit.
    cbn [fst snd trace]. split; [done|].
    rewrite ?engine_invocations_app, ?engine_invocations_cons,
      ?engine_invocations_nil. simpl. lia.
Qed.

Lemma present_Some header :
  present header = true -> exists v, header = Some v /\ v <> "".
Proof.
  destruct header as [v|]; [|done]. simpl. intros Hv%negb_true_iff.
  exists v. split; [done|]. by apply String.eqb_neq.
Qed.

Lemma status_of_cases response : status_of response = 200%Z \/ status_of response = 422%Z.
Proof. unfold status_of. destruct (ok response); auto. Qed.

Lemma validateGA4CSV_unmarked content options result :
  validateGA4CSV content options = Normal result -> idempotency result = None.
Proof.
  intros Hresult.
  destruct (decodeContent content) as [csvText|e] eqn:Hdecode.
  2: { rewrite (validateGA4CSV_undecoded _ _ _ Hdecode) in Hresult.
       by injection Hresult as <-. }
  destruct (parseCSV csvText) as [|headers dataRows] eqn:Hparse.
  { by apply parseCSV_not_empty in Hparse. }
  destruct (missing_headers headers) as [|h hs] eqn:Hmissing.
  2: { rewrite (validateGA4CSV_missing _ _ _ _ _ Hdecode Hparse) in Hresult
         by (rewrite Hmissing; discriminate).
       by injection Hresult as <-. }
  rewrite (validateGA4CSV_rows _ _ _ _ _ Hdecode Hparse Hmissing) in Hresult.
  destruct (_ <? _)%Z; [by injection Hresult as <-|].
  destruct (run_rows options headers dataRows) as [st|e]; [|discriminate].
  by injection Hresult as <-.
Qed.

Lemma performValidation_unmarked req response :
  performValidation req = Normal response ->
  response_idempotency response = None.
Proof.
  unfold performValidation.
  destruct (String.eqb (type req) "csv.timeseries.ga4.v1"); [|by intros [= <-]].
  destruct (ga4_options (options req)) as [options|e]; [|discriminate].
  cbn [cbind].
  destruct (validateGA4CSV (content req) options) as [result|e] eqn:Hresult;
    [|discriminate].
  cbn [cbind]. destruct (negb (valid (summary result))); intros [= <-]; [done|].
  by eapply validateGA4CSV_unmarked.
Qed.

(** X14. Without an Idempotency-Key (absent or empty) the route runs the
    engine and answers with its result as it is: the store is neither read
    nor written, and the answer carries no idempotency mark. *)
Theorem without_token_no_store mw call result w :
  type (call_body call) <> "" -> content (call_body call) <> "" ->
  present (Idempotency_Key call) = false ->
  performValidation (call_body call) = Normal result ->
  fetch mw call w
  = (Normal (validation_answer result (call_requestId call)),
     with_events [EngineInvoked (content (call_body call))
                    (options (call_body call))] w)
  /\ response_idempotency result = None
  /\ IDEMPOTENCY_KV (snd (fetch mw call w)) = IDEMPOTENCY_KV w.
Proof.
  intros Htype Hcontent Hnone Hresult.
  rewrite fetch_without_token by auto. rewrite Hresult.
  split; [done|]. split; [|done]. by eapply performValidation_unmarked.
Qed.

(** X15. A request on which the engine throws is never committed: with
    either version of the middleware the store is left as it was, and
    when the engine was called the answer is 500 INTERNAL_ERROR. *)
Theorem engine_failure_not_committed mw call w e :
  source_middleware mw ->
  performValidation (call_body call) = Throw e ->
  IDEMPOTENCY_KV (snd (fetch mw call w)) = IDEMPOTENCY_KV w
  /\ (engine_invocations (trace (snd (fetch mw call w)))
      = engine_invocations (trace w)
      \/ (engine_invocations (trace (snd (fetch mw call w)))
          = S (engine_invocations (trace w))
          /\ fst (fetch mw call w)
             = Normal (error_answer "INTERNAL_ERROR" "An internal error occurred"
                         500 (call_requestId call)))).
Proof.
  intros Hmw Hthrow. rewrite fetch_shape.
  destruct (String.eqb_spec (type (call_body call)) "") as [|Htype]; [auto|].
  destruct (String.eqb_spec (content (call_body call)) "") as [|Hcontent]; [auto|].
  destruct (present (Idempotency_Key call)) eqn:HT.
  2: { rewrite fetch_without_token, Hthrow by auto. cbn [fst snd with_events].
       split; [done|]. right. split; [engine_count|done]. }
  destruct (present (Js.trim <$> x_api_key call)) eqn:Hkey.
  2: { rewrite fetch_without_token, Hthrow by auto. cbn [fst snd with_events].
       split; [done|]. right. split; [engine_count|done]. }
  apply present_Some in HT as (T & HT & HTne).
  apply present_Some in Hkey as (trimmed & Hkey & Hkeyne).
  destruct (x_api_key call) as [apiKey|] eqn:Hheader; [|done].
  injection Hkey as <-.
  rewrite (fetch_with_token mw call T apiKey w) by done. rewrite Hthrow.
  destruct (check_preserves mw T (Js.trim apiKey)
              (computeFingerprint (call_body call)) (call_requestId call) w Hmw)
    as (Hkv & Htrace & _).
  destruct (checkIdempotency mw T (Js.trim apiKey) _ _ w)
    as [[[existing|]|[e'|r]] w1]; cbn [fst snd] in *; try by auto.
  split; [done|]. right. split; [|done].
  revert Htrace. engine_count.
Qed.

(** X16. The answers of the route, with either version of the middleware:
    a body without a type is answered 400 MISSING_TYPE and one without a
    content 400 MISSING_CONTENT (the type is looked at first), and the
    world is not touched; every other call is answered with one of 200,
    409, 422 and 500; [fetch] itself never throws. *)
Theorem answers_of_the_route mw call w :
  source_middleware mw ->
  (type (call_body call) = "" ->
   fetch mw call w
   = (Normal (error_answer "MISSING_TYPE" "Validation type is required" 400
                (call_requestId call)), w))
  /\ (type (call_body call) <> "" -> content (call_body call) = "" ->
      fetch mw call w
      = (Normal (error_answer "MISSING_CONTENT" "Content is required" 400
                   (call_requestId call)), w))
  /\ (type (call_body call) <> "" -> content (call_body call) <> "" ->
      exists r w', fetch mw call w = (Normal r, w')
                   /\ In (status r) [200; 409; 422; 500]%Z).
Proof.
  intros Hmw. split; [|split].
  - intros Htype. rewrite fetch_shape, Htype. done.
  - intros Htype Hcontent. rewrite fetch_shape, Hcontent.
    by rewrite (eqb_false_of_ne _ Htype).
  - intros Htype Hcontent.
    assert (Hanswer : forall response,
      In (status (validation_answer response (call_requestId call)))
        [200; 409; 422; 500]%Z).
    { intros response. cbn [validation_answer addTraceabilityHeaders
        jsonResponse status].
      destruct (status_of_cases response) as [-> | ->]; simpl; auto. }
    assert (Hfailed :
      In (status (error_answer "INTERNAL_ERROR" "An internal error occurred" 500
                    (call_requestId call))) [200; 409; 422; 500]%Z).
    { simpl. auto. }
    destruct (present (Idempotency_Key call)) eqn:HT.
    2: { rewrite fetch_without_token by auto.
         destruct (performValidation (call_body call)); eauto. }
    destruct (present (Js.trim <$> x_api_key call)) eqn:Hkey.
    2: { rewrite fetch_without_token by auto.
         destruct (performValidation (call_body call)); eauto. }
    apply present_Some in HT as (T & HT & HTne).
    apply present_Some in Hkey as (trimmed & Hkey & Hkeyne).
    destruct (x_api_key call) as [apiKey|] eqn:Hheader; [|done].
    injection Hkey as <-.
    rewrite (fetch_with_token mw call T apiKey w) by done.
    destruct (check_preserves mw T (Js.trim apiKey)
                (computeFingerprint (call_body call)) (call_requestId call) w Hmw)
      as (_ & _ & Hconflict).
    destruct (checkIdempotency mw T (Js.trim apiKey) _ _ w)
      as [[[existing|]|[e'|r]] w1]; cbn [fst snd] in *; eauto.
    + destruct (performValidation (call_body call)) as [result|e]; eauto.
      cbv zeta.
      match goal with
      | |- context [storeIdempotentResponse mw ?k ?a ?f ?response ?w0] =>
          destruct (store_returns mw k a f response w0 Hmw) as [Hstore _];
          destruct (storeIdempotentResponse mw k a f response w0) as [c w3]
      end.
      cbn [fst] in Hstore. subst c. eauto.
    + rewrite (Hconflict r eq_refl). eexists _, _. split; [reflexivity|].
      simpl. auto.
Qed.

(** X17. Tokens do not meet: after a first request under one token, a
    request of the same caller under another token that has no record is
    answered afresh (the engine runs, the answer is marked
    [replayed = false]), whatever the two requests are. *)
Theorem other_token_is_fresh R1 R2 T1 T2 apiKey result1 result2
    requestId1 requestId2 t w :
  type R1 <> "" -> content R1 <> "" -> type R2 <> "" -> content R2 <> "" ->
  T1 <> "" -> T2 <> "" -> T1 <> T2 -> Js.trim apiKey <> "" ->
  IDEMPOTENCY_KV w
    !! FingerprintRecord.fingerprint_name (sha256 (Js.trim apiKey)) T1 = None ->
  IDEMPOTENCY_KV w
    !! FingerprintRecord.fingerprint_name (sha256 (Js.trim apiKey)) T2 = None ->
  performValidation R1 = Normal result1 ->
  performValidation R2 = Normal result2 ->
  exists r1 w1 w2,
    fetch fingerprint_record_middleware (handle_call R1 T1 apiKey requestId1) w
      = (Normal r1, w1)
    /\ fetch fingerprint_record_middleware (handle_call R2 T2 apiKey requestId2)
         (at_time t w1)
       = (Normal (validation_answer
                    (set_idempotency result2
                       (Some {| key := T2; replayed := false |}))
                    requestId2), w2)
    /\ engine_invocations (trace w2) = S (engine_invocations (trace w1)).
Proof.
  intros Htype1 Hcontent1 Htype2 Hcontent2 HT1 HT2 Hne Hkey Hfresh1 Hfresh2
    Hresult1 Hresult2.
  eexists _, _, _. split; [by apply fetch_fresh|]. split.
  - unfold validation_answer. apply fetch_fresh; try done.
    unfold after_commit, at_time. cbn [IDEMPOTENCY_KV].
    rewrite lookup_insert_ne
      by (intros Heq; by apply fingerprint_name_token in Heq).
    rewrite lookup_insert_ne; [done|].
    intros Heq. symmetry in Heq.
    by apply fingerprint_name_not_response_name in Heq.
  - unfold at_time. engine_count.
Qed.

(** X18. Callers do not meet: records are kept under the digest of the API
    key, so after a request of one caller under a token, a request under
    the same token by a caller whose key has another digest, and no record,
    is answered afresh. *)
Theorem other_caller_is_fresh R1 R2 T apiKey1 apiKey2 result1 result2
    requestId1 requestId2 t w :
  type R1 <> "" -> content R1 <> "" -> type R2 <> "" -> content R2 <> "" ->
  T <> "" -> Js.trim apiKey1 <> "" -> Js.trim apiKey2 <> "" ->
  sha256 (Js.trim apiKey1) <> sha256 (Js.trim apiKey2) ->
  IDEMPOTENCY_KV w
    !! FingerprintRecord.fingerprint_name (sha256 (Js.trim apiKey1)) T = None ->
  IDEMPOTENCY_KV w
    !! FingerprintRecord.fingerprint_name (sha256 (Js.trim apiKey2)) T = None ->
  performValidation R1 = Normal result1 ->
  performValidation R2 = Normal result2 ->
  exists r1 w1 w2,
    fetch fingerprint_record_middleware (handle_call R1 T apiKey1 requestId1) w
      = (Normal r1, w1)
    /\ fetch fingerprint_record_middleware (handle_call R2 T apiKey2 requestId2)
         (at_time t w1)
       = (Normal (validation_answer
                    (set_idempotency result2
                       (Some {| key := T; replayed := false |}))
                    requestId2), w2)
    /\ engine_invocations (trace w2) = S (engine_invocations (trace w1)).
Proof.
  intros Htype1 Hcontent1 Htype2 Hcontent2 HT Hkey1 Hkey2 Hne Hfresh1 Hfresh2
    Hresult1 Hresult2.
  eexists _, _, _. split; [by apply fetch_fresh|]. split.
  - unfold validation_answer. apply fetch_fresh; try done.
    unfold after_commit, at_time. cbn [IDEMPOTENCY_KV].
    rewrite lookup_insert_ne
      by (intros Heq; by apply fingerprint_name_caller in Heq).
    rewrite lookup_insert_ne; [done|].
    intros Heq. symmetry in Heq.
    by apply fingerprint_name_not_response_name in Heq.
  - unfold at_time. engine_count.
Qed.



End ProtocolMore.

(** ** More of the protocol on examples *)

Lemma empty_world_no_prefix prefix t name e :
  IDEMPOTENCY_KV (empty_world t) !! name = Some e ->
  String.prefix prefix name = false.
Proof. cbn [empty_world IDEMPOTENCY_KV]. by rewrite lookup_empty. Qed.

Lemma check_reads_only_witness :
  IDEMPOTENCY_KV
    (snd (@checkIdempotency (@fingerprint_record_middleware example_platform)
            "retry-1" "key-1" "f" "request-1" (empty_world 0)))
  = IDEMPOTENCY_KV (empty_world 0)
  /\ Date_now
       (snd (@checkIdempotency (@fingerprint_record_middleware example_platform)
               "retry-1" "key-1" "f" "request-1" (empty_world 0)))
     = Date_now (empty_world 0)
  /\ exists events,
       trace
         (snd (@checkIdempotency (@fingerprint_record_middleware example_platform)
                 "retry-1" "key-1" "f" "request-1" (empty_world 0)))
       = trace (empty_world 0) ++ events
       /\ forallb is_read events = true.
Proof.
  apply (@check_reads_only example_platform
           (@fingerprint_record_middleware example_platform)
           "retry-1" "key-1" "f" "request-1" (empty_world 0)).
  right. reflexivity.
Defined.

Lemma store_then_check_hits_witness :
  fst (@checkIdempotency (@list_prefix_middleware example_platform)
         "retry-1" "key-1" "f" "request-2"
         (snd (@storeIdempotentResponse
                 (@list_prefix_middleware example_platform)
                 "retry-1" "key-1" "f" readme_response (empty_world 0))))
  = Normal (Some (set_idempotency readme_response
                    (Some {| key := "retry-1"; replayed := true |})))
  /\ payload (set_idempotency readme_response
                (Some {| key := "retry-1"; replayed := true |}))
     = payload readme_response.
Proof.
  apply (@store_then_check_hits example_platform
           (@list_prefix_middleware example_platform)
           "retry-1" "key-1" "f" "request-2" readme_response (empty_world 0)).
  - left. reflexivity.
  - discriminate.
Defined.

Lemma last_fingerprint_wins_witness :
  outcome_of
    (fst (@FingerprintRecord.checkIdempotency example_platform
            "retry-1" "key-1" "f1" "request-3"
            (snd (@storeIdempotentResponse
                    (@fingerprint_record_middleware example_platform)
                    "retry-1" "key-1" "f2" other_response
                    (snd (@storeIdempotentResponse
                            (@fingerprint_record_middleware example_platform)
                            "retry-1" "key-1" "f1" readme_response
                            (empty_world 0)))))))
  = Conflict (conflict_response "request-3").
Proof.
  apply (@last_fingerprint_wins example_platform "retry-1" "key-1" "f1" "f2"
           "request-3" readme_response other_response (empty_world 0));
    discriminate.
Defined.

Lemma without_token_no_store_witness :
  @fetch example_platform (@fingerprint_record_middleware example_platform)
    (tokenless_call readme_request "key-1" "request-1") (empty_world 0)
  = (Normal (validation_answer readme_response "request-1"),
     with_events [EngineInvoked (content readme_request)
                    (options readme_request)] (empty_world 0))
  /\ response_idempotency readme_response = None
  /\ IDEMPOTENCY_KV
       (snd (@fetch example_platform
               (@fingerprint_record_middleware example_platform)
               (tokenless_call readme_request "key-1" "request-1")
               (empty_world 0)))
     = IDEMPOTENCY_KV (empty_world 0).
Proof.
  apply (@without_token_no_store example_platform
           (@fingerprint_record_middleware example_platform)
           (tokenless_call readme_request "key-1" "request-1")
           readme_response (empty_world 0)).
  - discriminate.
  - vm_compute. discriminate.
  - reflexivity.
  - vm_compute. reflexivity.
Defined.

Lemma engine_failure_not_committed_witness :
  IDEMPOTENCY_KV
    (snd (@fetch example_platform (@list_prefix_middleware example_platform)
            (handle_call invalid_month_request "retry-1" "key-1" "request-1")
            (empty_world 0)))
  = IDEMPOTENCY_KV (empty_world 0).
Proof.
  apply (@engine_failure_not_committed example_platform
           (@list_prefix_middleware example_platform)
           (handle_call invalid_month_request "retry-1" "key-1" "request-1")
           (empty_world 0) (RangeError "Invalid time value")).
  - left. reflexivity.
  - vm_compute. reflexivity.
Defined.

Lemma answers_of_the_route_witness :
  exists r w',
    @fetch example_platform (@fingerprint_record_middleware example_platform)
      (handle_call readme_request "retry-1" "key-1" "request-1") (empty_world 0)
    = (Normal r, w')
    /\ In (status r) [200; 409; 422; 500]%Z.
Proof.
  apply (@answers_of_the_route example_platform
           (@fingerprint_record_middleware example_platform)
           (handle_call readme_request "retry-1" "key-1" "request-1")
           (empty_world 0)).
  - right. reflexivity.
  - discriminate.
  - vm_compute. discriminate.
Defined.

Lemma other_token_is_fresh_witness :
  exists r1 w1 w2,
    @fetch example_platform (@fingerprint_record_middleware example_platform)
      (handle_call readme_request "retry-1" "key-1" "request-1") (empty_world 0)
    = (Normal r1, w1)
    /\ @fetch example_platform (@fingerprint_record_middleware example_platform)
         (handle_call other_request "retry-2" "key-1" "request-2")
         (at_time 60000 w1)
       = (Normal (validation_answer
                    (set_idempotency other_response
                       (Some {| key := "retry-2"; replayed := false |}))
                    "request-2"), w2)
    /\ engine_invocations (trace w2) = S (engine_invocations (trace w1)).
Proof.
  apply (@other_token_is_fresh example_platform readme_request other_request
           "retry-1" "retry-2" "key-1" readme_response other_response
           "request-1" "request-2" 60000 (empty_world 0)).
  - discriminate.
  - vm_compute. discriminate.
  - discriminate.
  - vm_compute. discriminate.
  - discriminate.
  - discriminate.
  - discriminate.
  - vm_compute. discriminate.
  - reflexivity.
  - reflexivity.
  - vm_compute. reflexivity.
  - vm_compute. reflexivity.
Defined.

Lemma other_caller_is_fresh_witness :
  exists r1 w1 w2,
    @fetch example_platform (@fingerprint_record_middleware example_platform)
      (handle_call readme_request "retry-1" "key-1" "request-1") (empty_world 0)
    = (Normal r1, w1)
    /\ @fetch example_platform (@fingerprint_record_middleware example_platform)
         (handle_call readme_request "retry-1" "key-2" "request-2")
         (at_time 60000 w1)
       = (Normal (validation_answer
                    (set_idempotency readme_response
                       (Some {| key := "retry-1"; replayed := false |}))
                    "request-2"), w2)
    /\ engine_invocations (trace w2) = S (engine_invocations (trace w1)).
Proof.
  apply (@other_caller_is_fresh example_platform readme_request readme_request
           "retry-1" "key-1" "key-2" readme_response readme_response
           "request-1" "request-2" 60000 (empty_world 0)).
  - discriminate.
  - vm_compute. discriminate.
  - discriminate.
  - vm_compute. discriminate.
  - discriminate.
  - vm_compute. discriminate.
  - vm_compute. discriminate.
  - vm_compute. discriminate.
  - reflexivity.
  - reflexivity.
  - vm_compute. reflexivity.
  - vm_compute. reflexivity.
Defined.


Lemma idempotent_replay_list_prefix_witness :
  exists w1 w2,
    @fetch example_platform (@list_prefix_middleware example_platform)
      (handle_call readme_request "retry-1" "key-1" "request-1") (empty_world 0)
    = (Normal (addTraceabilityHeaders
                 (jsonResponse
                    (BodyValidation
                       (set_idempotency readme_response
                          (Some {| key := "retry-1"; replayed := false |})))
                    (status_of readme_response)) "request-1"), w1)
    /\ @fetch example_platform (@list_prefix_middleware example_platform)
         (handle_call readme_request "retry-1" "key-1" "request-2")
         (at_time 60000 w1)
       = (Normal (addTraceabilityHeaders
                    (jsonResponse
                       (BodyValidation
                          (set_idempotency readme_response
                             (Some {| key := "retry-1"; replayed := true |})))
                       (status_of readme_response)) "request-2"), w2)
    /\ engine_invocations (trace w2) = engine_invocations (trace w1).
Proof.
  apply (@idempotent_replay_list_prefix example_platform readme_request
           "retry-1" "key-1" readme_response "request-1" "request-2" 60000
           (empty_world 0)).
  - discriminate.
  - vm_compute. discriminate.
  - discriminate.
  - vm_compute. discriminate.
  - intros name e. apply empty_world_no_prefix.
  - vm_compute. reflexivity.
Defined.


(** ** The canonical texts and what is hashed *)

Section Canonical.
Context `{Platform}.




Lemma scan_plain_inside s d :
  all_plain s = true -> scan (Inside, d) s = Some (Inside, d).
Proof.
  induction s as [|c s IH]; [done|]. simpl. intros [Hc Hs]%andb_prop.
  unfold plain in Hc. apply negb_true_iff in Hc.
  repeat (apply orb_false_iff in Hc as [Hc ?]).
  repeat match goal with Hx : Ascii.eqb _ _ = false |- _ => rewrite Hx; clear Hx end.
  auto.
Qed.



(** *** The texts of numbers *)







(** *** String literals *)




(** *** Values *)







(** *** Strings cut in two ways *)





(** *** A text that opens a brace closes it at its end only *)




(** *** Read from inside a string *)



(** *** The text that is hashed, cut into its parts *)














End Canonical.


(** ** A token used again with another request *)

Section Conflict.
Context `{Platform}.



End Conflict.

(** ** Replay and conflict on examples *)

Lemma idempotent_replay_witness :
  exists r1 w1 r2 w2,
    @fetch example_platform (@fingerprint_record_middleware example_platform)
      (handle_call readme_request "retry-1" "key-1" "request-1") (empty_world 0)
      = (Normal r1, w1)
    /\ @fetch example_platform (@fingerprint_record_middleware example_platform)
         (handle_call readme_request "retry-1" "key-1" "request-2")
         (at_time 60000 w1) = (Normal r2, w2)
    /\ exists response1 response2,
         body r1 = BodyValidation response1
         /\ body r2 = BodyValidation response2
         /\ payload response1 = payload readme_response
         /\ payload response2 = payload readme_response
         /\ status r1 = status r2
         /\ response_idempotency response1
            = Some {| key := "retry-1"; replayed := false |}
         /\ response_idempotency response2
            = Some {| key := "retry-1"; replayed := true |}
         /\ engine_invocations (trace w1)
            = S (engine_invocations (trace (empty_world 0)))
         /\ engine_invocations (trace w2) = engine_invocations (trace w1).
Proof.
  assert (Hengine : @performValidation example_platform readme_request
                    = Normal readme_response) by (vm_compute; reflexivity).
  pose proof (@idempotent_replay example_platform readme_request "retry-1"
                "key-1" "request-1" "request-2" 60000 (empty_world 0))
    as Hreplay.
  rewrite Hengine in Hreplay. apply Hreplay.
  - exact example_digest_nonempty.
  - discriminate.
  - vm_compute. discriminate.
  - discriminate.
  - vm_compute. discriminate.
  - reflexivity.
Defined.

(** C1 as stated fails: on the request whose date has the month 13 the
    engine throws (C3), so the first call stores nothing and the second
    call under the same token is answered 500 INTERNAL_ERROR, with no
    payload and no replay mark, after the engine has run again. *)
Lemma idempotent_replay_counterexample :
  let w1 := snd (@fetch example_platform
                   (@fingerprint_record_middleware example_platform)
                   (handle_call invalid_month_request "retry-1" "key-1"
                      "request-1") (empty_world 0)) in
  let second := @fetch example_platform
                  (@fingerprint_record_middleware example_platform)
                  (handle_call invalid_month_request "retry-1" "key-1"
                     "request-2") (at_time 60000 w1) in
  fst second
  = Normal
      (addTraceabilityHeaders
         (jsonResponse
            (BodyError "INTERNAL_ERROR" "An internal error occurred"
               (Some "request-2")) 500)
         "request-2")
  /\ engine_invocations (trace (snd second))
     = S (engine_invocations (trace w1)).
Proof. split; vm_compute; reflexivity. Qed.




(** ** The Worker: authentication, request ids and routes *)

Section WorkerProperties.
Context `{Platform} `{IttyRouter}.

(** *** [trim] and [split] *)

Lemma trimStart_head s :
  Js.trimStart s = ""
  \/ exists c t, Js.trimStart s = String c t /\ Js.is_white_space c = false.
Proof.
  induction s as [|c s IH]; [by left|]. simpl.
  destruct (Js.is_white_space c) eqn:Hc; [done|]. right. eauto.
Qed.

Lemma trimStart_fixed c t :
  Js.is_white_space c = false -> Js.trimStart (String c t) = String c t.
Proof. intros Hc. simpl. by rewrite Hc. Qed.

Lemma trimEnd_head c t :
  Js.is_white_space c = false ->
  exists t', Js.trimEnd (String c t) = String c t'.
Proof.
  intros Hc. simpl. destruct (Js.trimEnd t); [|eauto].
  rewrite Hc. eauto.
Qed.

Lemma trimEnd_idem s : Js.trimEnd (Js.trimEnd s) = Js.trimEnd s.
Proof.
  induction s as [|c s IH]; [done|]. simpl.
  destruct (Js.trimEnd s) as [|x u] eqn:Hs.
  - destruct (Js.is_white_space c) eqn:Hc; [done|]. simpl. by rewrite Hc.
  - simpl in *. by rewrite IH.
Qed.

Lemma trim_idem s : Js.trim (Js.trim s) = Js.trim s.
Proof.
  unfold Js.trim.
  destruct (trimStart_head s) as [->|(c & t & -> & Hc)]; [done|].
  destruct (trimEnd_head c t Hc) as [t' Ht']. rewrite Ht'.
  rewrite trimStart_fixed by done. by rewrite <- Ht', trimEnd_idem.
Qed.

Lemma has_char_trimStart c s :
  has_char c s = false -> has_char c (Js.trimStart s) = false.
Proof.
  induction s as [|x s IH]; [done|]. simpl.
  intros [Hx Hs]%orb_false_iff.
  destruct (Js.is_white_space x); [auto|]. simpl. by rewrite Hx, Hs.
Qed.

Lemma has_char_trimEnd c s :
  has_char c s = false -> has_char c (Js.trimEnd s) = false.
Proof.
  induction s as [|x s IH]; [done|]. simpl.
  intros [Hx Hs]%orb_false_iff. specialize (IH Hs).
  destruct (Js.trimEnd s) as [|y u].
  - destruct (Js.is_white_space x); [done|]. simpl. by rewrite Hx.
  - simpl in *. by rewrite Hx, IH.
Qed.

Lemma has_char_split c s :
  Forall (fun piece => has_char c piece = false) (Js.split c s).
Proof.
  induction s as [|x s IH]; simpl; [by repeat constructor|].
  destruct (Ascii.eqb x c) eqn:Hx; [by constructor|].
  destruct (Js.split c s) as [|piece pieces].
  { constructor; [|constructor]. simpl. by rewrite Hx. }
  apply Forall_cons_1 in IH as [Hpiece Hpieces].
  constructor; [|done]. simpl. by rewrite Hx, Hpiece.
Qed.

Lemma includes_In xs x : Js.includes xs x = true <-> In x xs.
Proof.
  unfold Js.includes. rewrite existsb_exists. split.
  - intros (y & Hin & Heq). apply String.eqb_eq in Heq. by subst.
  - intros Hin. exists x. split; [done|apply String.eqb_refl].
Qed.

(** X21. The keys that [parseApiKeys] reads from the variable are the
    pieces between its commas, trimmed, that are not empty: no key is
    empty, none has white space around it and none holds a comma; an unset
    or empty variable gives no key. *)
Theorem parseApiKeys_keys raw :
  (forall key,
      In key (parseApiKeys raw)
      <-> key <> ""
          /\ exists text piece,
               raw = Some text /\ In piece (Js.split ","%char text)
               /\ key = Js.trim piece)
  /\ Forall (fun key => key <> "" /\ Js.trim key = key
                        /\ has_char ","%char key = false)
       (parseApiKeys raw).
Proof.
  assert (Hin : forall key,
    In key (parseApiKeys raw)
    <-> key <> ""
        /\ exists text piece,
             raw = Some text /\ In piece (Js.split ","%char text)
             /\ key = Js.trim piece).
  { intros key. unfold parseApiKeys. destruct raw as [text|].
    2: { split; [done|]. by intros [_ (text & piece & Hraw & _)]. }
    destruct (String.eqb_spec text "") as [->|Htext].
    { split; [done|]. intros [Hkey (text & piece & [= <-] & Hpiece & ->)].
      simpl in Hpiece. by destruct Hpiece as [<-|[]]. }
    rewrite List.filter_In, in_map_iff, negb_true_iff, String.eqb_neq.
    split.
    - intros [(piece & <- & Hpiece) Hkey]. split; [done|].
      by exists text, piece.
    - intros [Hkey (text' & piece & [= <-] & Hpiece & ->)].
      split; [|done]. by exists piece. }
  split; [exact Hin|].
  apply Forall_forall. intros key Hkey%list_elem_of_In.
  apply Hin in Hkey as [Hne (text & piece & _ & Hpiece & ->)].
  split; [done|]. split; [apply trim_idem|].
  unfold Js.trim. apply has_char_trimEnd, has_char_trimStart.
  pose proof (has_char_split ","%char text) as Hfree.
  rewrite Forall_forall in Hfree. by apply Hfree, list_elem_of_In.
Qed.

Lemma parseApiKeys_nonempty raw key :
  In key (parseApiKeys raw) -> key <> "".
Proof.
  unfold parseApiKeys. destruct raw as [text|]; [|done].
  destruct (String.eqb text ""); [done|].
  rewrite List.filter_In, negb_true_iff, String.eqb_neq. by intros [_ ?].
Qed.

(** X22. What [requireAuth] decides. With no key configured every request
    is answered 500 CONFIG_ERROR, whatever it presents. Otherwise the
    request passes exactly when it has an x-api-key header whose value,
    trimmed, is one of the configured keys (so an empty or blank value
    never passes), and is answered 401 UNAUTHORIZED if not. *)
Theorem requireAuth_decides request env requestId :
  let allowedKeys := parseApiKeys (VALIDATION_API_KEYS env) in
  (allowedKeys = [] ->
   exists message,
     requireAuth request env requestId
     = Some (json (BodyError "CONFIG_ERROR" message
                     (request_id_member requestId)) 500))
  /\ (allowedKeys <> [] ->
      (requireAuth request env requestId = None
       <-> exists key, headers_get request "x-api-key" = Some key
                       /\ In (Js.trim key) allowedKeys)
      /\ (requireAuth request env requestId = None
          \/ requireAuth request env requestId
             = Some (json (BodyError "UNAUTHORIZED" "Missing or invalid x-api-key"
                             (request_id_member requestId)) 401))).
Proof.
  intros allowedKeys. unfold requireAuth. fold allowedKeys.
  split.
  - intros ->. simpl. eauto.
  - intros Hkeys.
    assert ((length allowedKeys =? 0)%nat = false) as ->.
    { apply Nat.eqb_neq. by destruct allowedKeys. }
    destruct (headers_get request "x-api-key") as [key|];
      cbn [fmap option_fmap option_map present Js.ToString].
    2: { cbn [negb orb]. split; [|by right].
         split; [done|]. by intros (key & Hkey & _). }
    destruct (Js.includes allowedKeys (Js.trim key)) eqn:Hin.
    + apply includes_In in Hin.
      assert (String.eqb (Js.trim key) "" = false) as ->.
      { apply String.eqb_neq. by eapply parseApiKeys_nonempty. }
      cbn [negb orb]. split; [|by left]. split; [eauto|done].
    + rewrite orb_true_r. split; [|by right]. split; [done|].
      intros (key' & [= <-] & Hkey'). apply includes_In in Hkey'. congruence.
Qed.

(** The request id: the value of the x-request-id header when it has
    between 1 and 255 characters, and the generated one otherwise (no
    header, an empty one, or one of 256 characters or more). *)
Lemma getRequestId_cases request randomUUID :
  (forall clientRequestId,
      headers_get request "x-request-id" = Some clientRequestId ->
      1 <= String.length clientRequestId <= 255 ->
      getRequestId request randomUUID = clientRequestId)
  /\ (forall clientRequestId,
        headers_get request "x-request-id" = Some clientRequestId ->
        String.length clientRequestId = 0 \/ 256 <= String.length clientRequestId ->
        getRequestId request randomUUID = randomUUID)
  /\ (headers_get request "x-request-id" = None ->
      getRequestId request randomUUID = randomUUID)
  /\ (String.length randomUUID < 256 ->
      String.length (getRequestId request randomUUID) < 256).
Proof.
  unfold getRequestId. split; [|split; [|split]].
  - intros id -> Hlen.
    assert (String.eqb id "" = false) as ->.
    { apply String.eqb_neq. intros ->. simpl in Hlen. lia. }
    assert ((0 <? String.length id)%nat = true) as -> by (apply Nat.ltb_lt; lia).
    assert ((String.length id <? 256)%nat = true) as -> by (apply Nat.ltb_lt; lia).
    done.
  - intros id -> [Hlen|Hlen].
    + destruct id; [done|simpl in Hlen; lia].
    + assert ((String.length id <? 256)%nat = false) as ->
        by (apply Nat.ltb_ge; lia).
      by rewrite andb_false_r.
  - by intros ->.
  - intros Huuid. destruct (headers_get request "x-request-id") as [id|]; [|done].
    destruct (String.length id <? 256)%nat eqn:Hlen.
    + apply Nat.ltb_lt in Hlen. by destruct (_ && _).
    + by rewrite andb_false_r.
Qed.

(** *** The routes *)

Lemma addTraceabilityHeaders_headers r requestId :
  headers (addTraceabilityHeaders r requestId)
  = headers r ++ traceability_headers requestId.
Proof. reflexivity. Qed.

Lemma traceable_headers response requestId :
  response_headers (traceable response requestId)
  = response_headers response ++ traceability_headers requestId.
Proof. by destruct response. Qed.

(** [fetch] of the route never throws, and its answers carry the headers. *)
Lemma fetch_traceable mw call w :
  exists r w',
    fetch mw call w = (Normal r, w')
    /\ exists hs, headers r = hs ++ traceability_headers (call_requestId call).
Proof.
  rewrite fetch_shape.
  destruct (String.eqb_spec (type (call_body call)) "") as [|Htype].
  { eexists _, _. split; [reflexivity|]. eexists. reflexivity. }
  destruct (String.eqb_spec (content (call_body call)) "") as [|Hcontent].
  { eexists _, _. split; [reflexivity|]. eexists. reflexivity. }
  destruct (present (Idempotency_Key call)) eqn:HT.
  2: { rewrite fetch_without_token by auto.
       destruct (performValidation (call_body call));
         eexists _, _; (split; [reflexivity|]); eexists; reflexivity. }
  destruct (present (Js.trim <$> x_api_key call)) eqn:Hkey.
  2: { rewrite fetch_without_token by auto.
       destruct (performValidation (call_body call));
         eexists _, _; (split; [reflexivity|]); eexists; reflexivity. }
  apply present_Some in HT as (T & HT & HTne).
  apply present_Some in Hkey as (trimmed & Hkey & Hkeyne).
  destruct (x_api_key call) as [apiKey|] eqn:Hheader; [|done].
  injection Hkey as <-.
  rewrite (fetch_with_token mw call T apiKey w) by done.
  destruct (checkIdempotency mw T (Js.trim apiKey) _ _ w)
    as [[[existing|]|[e'|r]] w1];
    try (eexists _, _; (split; [reflexivity|]); eexists; reflexivity).
  destruct (performValidation (call_body call)) as [result|e];
    [|eexists _, _; (split; [reflexivity|]); eexists; reflexivity].
  cbv zeta.
  destruct (storeIdempotentResponse mw T (Js.trim apiKey) _ _ _)
    as [[[]|e] w3];
    eexists _, _; (split; [reflexivity|]); eexists; reflexivity.
Qed.

Lemma api_path_not_health path :
  Js.startsWith path "/api/" = true -> String.eqb path "/health" = false.
Proof.
  unfold Js.startsWith. destruct path as [|x [|y rest]]; try done.
  - rewrite prefix_String. by destruct (ascii_dec "/" x).
  - rewrite !prefix_String.
    destruct (ascii_dec "/" x) as [<-|]; [|done].
    destruct (ascii_dec "a" y) as [<-|]; done.
Qed.

(** The route of a request that reaches the validation. *)
Lemma Worker_fetch_validation mw request env randomUUID body w :
  let requestId := getRequestId request randomUUID in
  Js.toUpperCase (method request) = "POST" ->
  pathname request = "/api/validate" ->
  requireAuth request env requestId = None ->
  request_json request = Some body ->
  Worker.fetch mw request env randomUUID w
  = (match fst (fetch mw (validate_call request body requestId) w) with
     | Normal r => Normal (Core r)
     | Throw e => Throw e
     end,
     snd (fetch mw (validate_call request body requestId) w)).
Proof.
  intros requestId Hmethod Hpath Hauth Hjson.
  unfold Worker.fetch, Worker.route, fetch, catch. fold requestId.
  rewrite Hmethod, Hpath, Hjson.
  change (Js.startsWith "/api/validate" "/api/") with true. cbv iota.
  rewrite Hauth.
  change (String.eqb "POST" "GET") with false.
  change (String.eqb "POST" "POST" && String.eqb "/api/validate" "/api/validate")
    with true.
  cbn [andb]. cbv iota. unfold bind.
  destruct (validate_route mw (validate_call request body requestId) w)
    as [[r|e] w']; reflexivity.
Qed.

(** X23. Every response of the Worker, whatever the route and whatever
    happens in it, carries the three traceability headers, with the id of
    the request; [fetch] itself never throws. *)
Theorem responses_traceable mw request env randomUUID w :
  exists response w',
    Worker.fetch mw request env randomUUID w = (Normal response, w')
    /\ exists hs,
         response_headers response
         = hs ++ traceability_headers (getRequestId request randomUUID).
Proof.
  set (requestId := getRequestId request randomUUID).
  unfold Worker.fetch, Worker.route, catch. fold requestId.
  destruct (String.eqb (Js.toUpperCase (method request)) "GET"
            && String.eqb (pathname request) "/health").
  { eexists _, _. split; [reflexivity|]. eexists. reflexivity. }
  destruct (if Js.startsWith (pathname request) "/api/"
            then requireAuth request env requestId else None) as [r|].
  { eexists _, _. split; [reflexivity|]. eexists. reflexivity. }
  destruct (String.eqb (Js.toUpperCase (method request)) "GET"
            && String.eqb (pathname request) "/api/types").
  { eexists _, _. split; [reflexivity|]. eexists. reflexivity. }
  destruct (String.eqb (Js.toUpperCase (method request)) "POST"
            && String.eqb (pathname request) "/api/validate").
  2: { eexists _, _. split; [reflexivity|]. eexists. reflexivity. }
  destruct (request_json request) as [body|].
  2: { eexists _, _. split; [reflexivity|]. eexists. reflexivity. }
  destruct (fetch_traceable mw (validate_call request body requestId) w)
    as (r & w' & Hfetch & hs & Hheaders).
  unfold fetch, catch in Hfetch. unfold bind.
  destruct (validate_route mw (validate_call request body requestId) w)
    as [[r0|e] w0].
  - injection Hfetch as -> ->. eexists _, _. split; [reflexivity|].
    exists hs. exact Hheaders.
  - eexists _, _. split; [reflexivity|]. eexists. reflexivity.
Qed.

(** X24. Only the validation touches the world: unless a request is a
    POST of /api/validate whose caller is let through and whose body
    parses, [fetch] reads and writes nothing and does not call the engine
    (health, the list of types, a refused caller, a body that is not JSON
    and an unknown route are all answered from the request alone). *)
Theorem only_validation_touches_world mw request env randomUUID w :
  ~ reaches_validation request env (getRequestId request randomUUID) ->
  snd (Worker.fetch mw request env randomUUID w) = w.
Proof.
  set (requestId := getRequestId request randomUUID). intros Hnot.
  unfold Worker.fetch, Worker.route, catch. fold requestId.
  destruct (String.eqb (Js.toUpperCase (method request)) "GET"
            && String.eqb (pathname request) "/health"); [done|].
  destruct (if Js.startsWith (pathname request) "/api/"
            then requireAuth request env requestId else None) as [r|] eqn:Hauth;
    [done|].
  destruct (String.eqb (Js.toUpperCase (method request)) "GET"
            && String.eqb (pathname request) "/api/types"); [done|].
  destruct (String.eqb (Js.toUpperCase (method request)) "POST"
            && String.eqb (pathname request) "/api/validate") eqn:Hroute;
    [|done].
  destruct (request_json request) as [body|] eqn:Hjson; [|done].
  destruct Hnot. apply andb_prop in Hroute as [Hmethod Hpath].
  apply String.eqb_eq in Hmethod, Hpath.
  rewrite Hpath in Hauth.
  change (Js.startsWith "/api/validate" "/api/") with true in Hauth.
  unfold reaches_validation. by rewrite Hjson.
Qed.

(** X25. Under /api/ nothing is done before the caller is let through: a
    request that [requireAuth] refuses gets that refusal as its answer,
    with the traceability headers, whatever its method, its route and its
    body, and the world is not touched. *)
Theorem api_requires_auth mw request env randomUUID refusal w :
  let requestId := getRequestId request randomUUID in
  Js.startsWith (pathname request) "/api/" = true ->
  requireAuth request env requestId = Some refusal ->
  Worker.fetch mw request env randomUUID w
  = (Normal (Core (addTraceabilityHeaders refusal requestId)), w).
Proof.
  intros requestId Hpath Hauth.
  unfold Worker.fetch, Worker.route, catch. fold requestId.
  rewrite (api_path_not_health _ Hpath), andb_false_r, Hpath, Hauth.
  reflexivity.
Qed.

(** X26. A request that reaches the validation is answered as the route
    answers the call made of it (the call that carries the body, the
    Idempotency-Key and x-api-key headers and the request id), and in that
    call the API key, trimmed, is present. *)
Theorem authenticated_validation mw request env randomUUID body w :
  let requestId := getRequestId request randomUUID in
  let call := validate_call request body requestId in
  Js.toUpperCase (method request) = "POST" ->
  pathname request = "/api/validate" ->
  requireAuth request env requestId = None ->
  request_json request = Some body ->
  (exists r w',
      fetch mw call w = (Normal r, w')
      /\ Worker.fetch mw request env randomUUID w = (Normal (Core r), w'))
  /\ present (Js.trim <$> x_api_key call) = true.
Proof.
  intros requestId call Hmethod Hpath Hauth Hjson. split.
  - destruct (fetch_traceable mw call w) as (r & w' & Hfetch & _).
    exists r, w'. split; [done|].
    rewrite (Worker_fetch_validation mw request env randomUUID body w) by done.
    fold requestId call. by rewrite Hfetch.
  - unfold requireAuth in Hauth. subst call. cbn [validate_call x_api_key].
    destruct (length (parseApiKeys (VALIDATION_API_KEYS env)) =? 0)%nat;
      [done|].
    destruct (negb (present (Js.trim <$> headers_get request "x-api-key")))
      eqn:Hpresent; [done|].
    by apply negb_false_iff in Hpresent.
Qed.

Lemma listed_types_document : listed_types types_document = ["csv.timeseries.ga4.v1"].
Proof. reflexivity. Qed.

(** X27. The list of types that GET /api/types gives is the list of the
    types that the validation supports: a request is answered
    UNSUPPORTED_TYPE exactly when its type is not in that list. *)
Theorem types_listing_supported req :
  (exists response e,
      performValidation req = Normal response
      /\ response = Failure e
      /\ error_code (error_info e) = "UNSUPPORTED_TYPE")
  <-> ~ In (type req) (listed_types types_document).
Proof.
  rewrite listed_types_document. split.
  - intros (response & e & Hresponse & -> & Hcode) [Htype|[]].
    unfold performValidation in Hresponse. rewrite <- Htype in Hresponse.
    rewrite String.eqb_refl in Hresponse.
    destruct (ga4_options (options req)) as [options|e0]; [|discriminate].
    cbn [cbind] in Hresponse.
    destruct (validateGA4CSV (content req) options) as [result|e0];
      [|discriminate].
    cbn [cbind] in Hresponse.
    destruct (negb (valid (summary result))); [|discriminate].
    injection Hresponse as <-. simpl in Hcode. discriminate.
  - intros Hnot. unfold performValidation.
    assert (String.eqb (type req) "csv.timeseries.ga4.v1" = false) as ->.
    { apply String.eqb_neq. intros Heq. apply Hnot. by left. }
    eexists _, _. split; [reflexivity|]. split; [reflexivity|]. reflexivity.
Qed.

End WorkerProperties.

(** ** The Worker on examples *)

Lemma requireAuth_decides_witness :
  @requireAuth example_router readme_post example_env "request-1" = None
  <-> exists key, headers_get readme_post "x-api-key" = Some key
                  /\ In (Js.trim key) (parseApiKeys (VALIDATION_API_KEYS example_env)).
Proof.
  apply (@requireAuth_decides example_router readme_post example_env "request-1").
  vm_compute. discriminate.
Defined.

Lemma only_validation_touches_world_witness :
  snd (@Worker.fetch example_platform example_router
         (@fingerprint_record_middleware example_platform)
         unknown_get example_env "uuid-1" (empty_world 0))
  = empty_world 0.
Proof.
  apply (@only_validation_touches_world example_platform example_router
           (@fingerprint_record_middleware example_platform)
           unknown_get example_env "uuid-1" (empty_world 0)).
  intros (Hmethod & _). vm_compute in Hmethod. discriminate.
Defined.

Lemma api_requires_auth_witness :
  @Worker.fetch example_platform example_router
    (@fingerprint_record_middleware example_platform)
    anonymous_post example_env "uuid-1" (empty_world 0)
  = (Normal
       (Core (addTraceabilityHeaders
                (@json example_router
                   (BodyError "UNAUTHORIZED" "Missing or invalid x-api-key"
                      (request_id_member "uuid-1")) 401)
                (getRequestId anonymous_post "uuid-1"))),
     empty_world 0).
Proof.
  apply (@api_requires_auth example_platform example_router
           (@fingerprint_record_middleware example_platform)
           anonymous_post example_env "uuid-1").
  - vm_compute. reflexivity.
  - vm_compute. reflexivity.
Defined.

Lemma authenticated_validation_witness :
  (exists r w',
      @fetch example_platform (@fingerprint_record_middleware example_platform)
        (validate_call readme_post readme_request
           (getRequestId readme_post "uuid-1")) (empty_world 0)
      = (Normal r, w')
      /\ @Worker.fetch example_platform example_router
           (@fingerprint_record_middleware example_platform)
           readme_post example_env "uuid-1" (empty_world 0)
         = (Normal (Core r), w'))
  /\ present (Js.trim <$> x_api_key
                (validate_call readme_post readme_request
                   (getRequestId readme_post "uuid-1"))) = true.
Proof.
  apply (@authenticated_validation example_platform example_router
           (@fingerprint_record_middleware example_platform)
           readme_post example_env "uuid-1" readme_request (empty_world 0)).
  - vm_compute. reflexivity.
  - reflexivity.
  - vm_compute. reflexivity.
  - reflexivity.
Defined.

(** ** The parser *)

Section Parsing.

Lemma split_length c s : length (Js.split c s) = S (count_char c s).
Proof.
  induction s as [|x s IH]; [done|]. simpl.
  destruct (Ascii.eqb x c); simpl; [by rewrite IH|].
  by destruct (Js.split c s).
Qed.

Lemma has_char_pieces c sep s :
  has_char c s = false ->
  Forall (fun piece => has_char c piece = false) (Js.split sep s).
Proof.
  induction s as [|x s IH]; simpl; [by repeat constructor|].
  intros [Hx Hs]%orb_false_iff. specialize (IH Hs).
  destruct (Ascii.eqb x sep); [by constructor|].
  destruct (Js.split sep s) as [|piece pieces].
  { constructor; [|constructor]. simpl. by rewrite Hx. }
  apply Forall_cons_1 in IH as [Hpiece Hpieces].
  constructor; [|done]. simpl. by rewrite Hx, Hpiece.
Qed.

Lemma has_char_trim c s : has_char c s = false -> has_char c (Js.trim s) = false.
Proof. intros Hs. unfold Js.trim. by apply has_char_trimEnd, has_char_trimStart. Qed.

(** X30. What [parseCSV] makes of a text: one row for each line of the
    trimmed text, an empty line in the middle included; in a row one cell
    more than the line has commas, so a comma inside quotes parts two cells;
    and no cell has white space around it, a comma or a line feed. *)
Theorem parseCSV_cells csvText :
  length (parseCSV csvText) = S (count_char "010" (Js.trim csvText))
  /\ (forall i line,
        Js.split "010" (Js.trim csvText) !! i = Some line ->
        exists row, parseCSV csvText !! i = Some row
                    /\ length row = S (count_char "," line))
  /\ Forall (Forall (fun cell => Js.trim cell = cell
                                 /\ has_char "," cell = false
                                 /\ has_char "010" cell = false))
       (parseCSV csvText).
Proof.
  unfold parseCSV. split; [|split].
  - by rewrite length_map, split_length.
  - intros i line Hline. rewrite list_lookup_fmap, Hline. simpl.
    eexists. split; [done|]. by rewrite length_map, split_length.
  - apply Forall_map, Forall_forall. intros line Hline.
    pose proof (has_char_split "010" (Js.trim csvText)) as Hlines.
    rewrite Forall_forall in Hlines. specialize (Hlines line Hline).
    cbn beta in Hlines.
    apply Forall_map, Forall_forall. intros piece Hpiece. cbn beta.
    split; [apply trim_idem|]. split; apply has_char_trim.
    + pose proof (has_char_split "," line) as Hcells.
      rewrite Forall_forall in Hcells. by apply Hcells.
    + pose proof (has_char_pieces "010" "," line Hlines) as Hcells.
      rewrite Forall_forall in Hcells. by apply Hcells.
Qed.

End Parsing.
